(** * UrbanMart: synthetic sales generator, analysis script and dashboard

    A shallow embedding of the three Python modules of the repository

      - [generate_urbanmart_sales.py]  (the synthetic transaction generator),
      - [Urbanmart_analysis.py]        (the command-line sanity checks),
      - [app.py]                       (the dashboard loader and header KPIs),

    together with the properties stated about them.

    Conventions of the embedding.
      - Python [float] values are exact rationals ([Q]); the decimal literals
        of the source denote the rationals they spell.  Rounding to two
        decimals ([np.round(x, 2)]) is round-half-to-even on [100 * x].
      - Python [str] values are [string]s whose characters stand for the code
        points U+0000 .. U+00FF.
      - Exceptions are values of [exn]; fallible code returns [result].
      - The NumPy [Generator] is a cursor into the stream of raw 64-bit
        outputs of its bit generator; every sampling call advances it.
      - The file system is a finite map from paths to the lines of a file. *)

From Stdlib Require Import ZArith QArith Qround Qabs Lia List Bool Ascii String.
From Stdlib Require Import Permutation DecimalString Lqa.
From Stdlib Require Sorted.
From Stdlib Require DecimalFacts DecimalNat DecimalN DecimalPos.
From stdpp Require Import base option gmap strings.
Import ListNotations.

Set Warnings "-abstract-large-number".

Local Open Scope string_scope.
Local Open Scope list_scope.
Local Open Scope Z_scope.

(* ===================================================================== *)
(** ** Exceptions and fallible computations *)
(* ===================================================================== *)

Inductive exn : Type :=
  | ValueError
  | KeyError
  | IndexError
  | AttributeError
  | ZeroDivisionError
  | FileNotFoundError.

Inductive result (A : Type) : Type :=
  | Ok (a : A)
  | Raise (e : exn).

Arguments Ok {A} a.
Arguments Raise {A} e.

Definition rbind {A B} (r : result A) (k : A -> result B) : result B :=
  match r with
  | Ok a => k a
  | Raise e => Raise e
  end.

Definition is_ok {A} (r : result A) : bool :=
  match r with Ok _ => true | Raise _ => false end.

Declare Scope result_scope.
Delimit Scope result_scope with result.
Notation "'try' x <- r ; k" := (rbind r (fun x => k))
  (at level 10, x pattern, r at level 100, k at level 200) : result_scope.

(* ===================================================================== *)
(** ** Python strings *)
(* ===================================================================== *)

Module PyStr.

Definition code (c : ascii) : N := N_of_ascii c.

(** [str.isspace] on the code points below U+0100. *)
Definition isspace (c : ascii) : bool :=
  let n := code c in
  ((9 <=? n) && (n <=? 13) || (28 <=? n) && (n <=? 32)
   || (n =? 133) || (n =? 160))%N.

(** [str.lower] on one code point below U+0100: the ASCII capitals and the
    Latin-1 capitals U+00C0 .. U+00DE (the multiplication sign U+00D7 is not
    a letter). *)
Definition lower_char (c : ascii) : ascii :=
  let n := code c in
  if ((65 <=? n) && (n <=? 90)
      || (192 <=? n) && (n <=? 222) && negb (n =? 215))%N
  then ascii_of_N (n + 32) else c.

Fixpoint lower (s : string) : string :=
  match s with
  | EmptyString => EmptyString
  | String c s' => String (lower_char c) (lower s')
  end.

Fixpoint lstrip (s : string) : string :=
  match s with
  | EmptyString => EmptyString
  | String c s' => if isspace c then lstrip s' else s
  end.

(** [rstrip] keeps a character when it is not a space or when something
    that is kept follows it. *)
Fixpoint rstrip (s : string) : string :=
  match s with
  | EmptyString => EmptyString
  | String c s' =>
      match rstrip s' with
      | EmptyString => if isspace c then EmptyString else String c EmptyString
      | r => String c r
      end
  end.

Definition strip (s : string) : string := rstrip (lstrip s).

Fixpoint repeat_char (c : ascii) (n : nat) : string :=
  match n with
  | O => EmptyString
  | S n' => String c (repeat_char c n')
  end.

(** [s.zfill(width)] for a string without a sign. *)
Definition zfill (width : nat) (s : string) : string :=
  repeat_char "0"%char (width - String.length s) ++ s.

(** [str(i)] for a natural number. *)
Definition str_nat (n : nat) : string :=
  NilZero.string_of_uint (Nat.to_uint n).

(** [str(i)] for an integer. *)
Definition str_int (z : Z) : string :=
  if z <? 0 then String "-"%char (str_nat (Z.to_nat (- z)))
  else str_nat (Z.to_nat z).

Fixpoint join (sep : string) (l : list string) : string :=
  match l with
  | [] => EmptyString
  | [s] => s
  | s :: l' => s ++ sep ++ join sep l'
  end.

Definition eqb (a b : string) : bool := String.eqb a b.

Fixpoint mem (s : string) (l : list string) : bool :=
  match l with
  | [] => false
  | x :: l' => eqb s x || mem s l'
  end.

End PyStr.

(* ===================================================================== *)
(** ** Calendar dates: [np.datetime64] with unit [D] *)
(* ===================================================================== *)

Module Dates.

(** A [datetime64[D]] is a count of days since 1970-01-01 in the proleptic
    Gregorian calendar. *)
Definition days_from_civil (y m d : Z) : Z :=
  let y' := if m <=? 2 then y - 1 else y in
  let era := y' / 400 in
  let yoe := y' - era * 400 in
  let mp := if m <=? 2 then m + 9 else m - 3 in
  let doy := (153 * mp + 2) / 5 + d - 1 in
  let doe := yoe * 365 + yoe / 4 - yoe / 100 + doy in
  era * 146097 + doe - 719468.

(** Year, month and day of the [doe]-th day of a 400-year era that starts
    on the first of March. *)
Definition civil_of_doe (doe : Z) : Z * Z * Z :=
  let yoe := (doe - doe / 1460 + doe / 36524 - doe / 146096) / 365 in
  let doy := doe - (365 * yoe + yoe / 4 - yoe / 100) in
  let mp := (5 * doy + 2) / 153 in
  let d := doy - (153 * mp + 2) / 5 + 1 in
  let m := if mp <? 10 then mp + 3 else mp - 9 in
  (if m <=? 2 then yoe + 1 else yoe, m, d).

Definition civil_from_days (z : Z) : Z * Z * Z :=
  let z' := z + 719468 in
  let era := z' / 146097 in
  let doe := z' - era * 146097 in
  let '(y, m, d) := civil_of_doe doe in
  (y + era * 400, m, d).

Definition digit_val (c : ascii) : option Z :=
  let n := N_of_ascii c in
  if ((48 <=? n) && (n <=? 57))%N then Some (Z.of_N n - 48) else None.

Fixpoint digits_val (acc : Z) (l : list ascii) : option Z :=
  match l with
  | [] => Some acc
  | c :: l' =>
      match digit_val c with
      | Some v => digits_val (10 * acc + v) l'
      | None => None
      end
  end.

Definition civil_eqb (a b : Z * Z * Z) : bool :=
  let '(y1, m1, d1) := a in
  let '(y2, m2, d2) := b in
  (y1 =? y2) && (m1 =? m2) && (d1 =? d2).

(** [np.datetime64(s)] for the day-precision spelling [YYYY-MM-DD] that the
    generator's parameters use; anything else is rejected, like a date
    that does not exist. *)
Definition datetime64 (s : string) : result Z :=
  match list_ascii_of_string s with
  | [y1; y2; y3; y4; s1; m1; m2; s2; d1; d2] =>
      match digits_val 0 [y1; y2; y3; y4],
            digits_val 0 [m1; m2], digits_val 0 [d1; d2] with
      | Some y, Some m, Some d =>
          if Ascii.eqb s1 "-" && Ascii.eqb s2 "-"
             && civil_eqb (civil_from_days (days_from_civil y m d)) (y, m, d)
          then Ok (days_from_civil y m d)
          else Raise ValueError
      | _, _, _ => Raise ValueError
      end
  | _ => Raise ValueError
  end.

(** The first and the last day with a year of four digits: 0000-01-01 and
    9999-12-31. *)
Definition min_day : Z := Eval vm_compute in days_from_civil 0 1 1.
Definition max_day : Z := Eval vm_compute in days_from_civil 9999 12 31.

(** [f] holds of the [count] integers from [z] on. *)
Fixpoint forall_from (count : nat) (z : Z) (f : Z -> bool) : bool :=
  match count with
  | O => true
  | S k => f z && forall_from k (z + 1) f
  end.

(** [f] holds of every integer of [0, n). *)
Definition forall_below (n : Z) (f : Z -> bool) : bool :=
  forall_from (Z.to_nat n) 0 f.

(** The facts about one day of an era that the proofs below use. *)
Definition doe_ok (doe : Z) : bool :=
  let '(y, m, d) := civil_of_doe doe in
  (0 <=? y) && (y <=? 400) && (1 <=? m) && (m <=? 12)
  && (1 <=? d) && (d <=? 31)
  && (days_from_civil y m d =? doe - 719468)
  && Bool.eqb (y <=? 399) (doe <=? 146036).

(** The text of a date whose time of day is midnight, as a CSV cell. *)
Definition isoformat (z : Z) : string :=
  let '(y, m, d) := civil_from_days z in
  PyStr.zfill 4 (PyStr.str_int y) ++ "-" ++ PyStr.zfill 2 (PyStr.str_int m)
    ++ "-" ++ PyStr.zfill 2 (PyStr.str_int d).

(** [zfill] of a number of [width] digits at most reads back as the
    number. *)
Definition padded_ok (width : nat) (v : Z) : bool :=
  let s := list_ascii_of_string (PyStr.zfill width (PyStr.str_int v)) in
  (length s =? width)%nat
  && match digits_val 0 s with Some v' => v' =? v | None => false end.

(** [padded_ok] with the decimal digits computed from the binary
    representation of the number. *)
Definition padded_binary_ok (width : nat) (v : Z) : bool :=
  let s :=
    list_ascii_of_string
      (PyStr.zfill width (NilZero.string_of_uint (N.to_uint (Z.to_N v)))) in
  (length s =? width)%nat
  && match digits_val 0 s with Some v' => v' =? v | None => false end.

End Dates.

(* ===================================================================== *)
(** ** NumPy: the random [Generator] and rounding *)
(* ===================================================================== *)

Module NumPy.

(** A bit generator maps a seed to the stream of its raw outputs.  The
    stream of PCG64 is not part of the repository, so it is a parameter of
    every run. *)
Definition BitGenerator : Type := Z -> nat -> Z.

Record Generator : Type := { stream : nat -> Z; cursor : nat }.

Definition default_rng (bg : BitGenerator) (seed : Z) : Generator :=
  {| stream := bg seed; cursor := 0 |}.

(** Sampling code: it reads the generator, advances it, and may raise. *)
Definition Rand (A : Type) : Type := Generator -> result (A * Generator).

Definition ret {A} (a : A) : Rand A := fun g => Ok (a, g).

Definition raise {A} (e : exn) : Rand A := fun _ => Raise e.

Definition bind {A B} (m : Rand A) (k : A -> Rand B) : Rand B :=
  fun g =>
    match m g with
    | Ok (a, g') => k a g'
    | Raise e => Raise e
    end.

Definition lift {A} (r : result A) : Rand A :=
  fun g => match r with Ok a => Ok (a, g) | Raise e => Raise e end.

Declare Scope rand_scope.
Delimit Scope rand_scope with rand.
Notation "'draw' x <- m ; k" := (bind m (fun x => k))
  (at level 10, x pattern, m at level 100, k at level 200) : rand_scope.

(** A [for] loop that appends one result per element. *)
Fixpoint for_each {A B} (f : A -> Rand B) (l : list A) : Rand (list B) :=
  match l with
  | [] => ret []
  | a :: l' =>
      (draw b <- f a; draw bs <- for_each f l'; ret (b :: bs))%rand
  end.

(** [size=n]: one sample per position. *)
Fixpoint sample {A} (n : nat) (m : Rand A) : Rand (list A) :=
  match n with
  | O => ret []
  | S n' => (draw a <- m; draw l <- sample n' m; ret (a :: l))%rand
  end.

Definition next_uint64 : Rand Z :=
  fun g =>
    Ok (stream g (cursor g) mod 2 ^ 64,
        {| stream := stream g; cursor := S (cursor g) |}).

(** [Generator.random()]: the top 53 bits of a raw output, scaled to
    [0, 1). *)
Definition random : Rand Q :=
  (draw raw <- next_uint64;
   ret (Z.shiftr raw 11 # 9007199254740992))%rand.

(** [Generator.uniform(low, high)]. *)
Definition uniform (low high : Q) : Rand Q :=
  (draw u <- random; ret (low + (high - low) * u)%Q)%rand.

(** [Generator.integers(low, high)]: one integer of [low, high), obtained
    from one raw output. *)
Definition integers (low high : Z) : Rand Z :=
  if high <=? low then raise ValueError
  else (draw raw <- next_uint64; ret (low + raw mod (high - low)))%rand.

Fixpoint cumsum_from (acc : Q) (p : list Q) : list Q :=
  match p with
  | [] => []
  | x :: p' => let acc' := Qred (acc + x) in acc' :: cumsum_from acc' p'
  end.

Definition cumsum (p : list Q) : list Q := cumsum_from 0 p.

Definition Qsum (p : list Q) : Q := fold_left Qplus p 0%Q.

(** [searchsorted(cdf, u, side="right")] on a sorted array: the first
    position whose entry exceeds [u]. *)
Fixpoint searchsorted_right (cdf : list Q) (u : Q) : nat :=
  match cdf with
  | [] => O
  | c :: cdf' =>
      if Qle_bool c u then S (searchsorted_right cdf' u) else O
  end.

(** The tolerance of the check that probabilities sum to one:
    [sqrt(eps)] for binary64. *)
Definition atol : Q := 1 # 67108864.

Definition check_p {A} (a : list A) (p : list Q) : result unit :=
  if (length a =? 0)%nat then Raise ValueError
  else if negb (length p =? length a)%nat then Raise ValueError
  else if negb (forallb (fun x => Qle_bool 0 x) p) then Raise ValueError
  else if negb (Qle_bool (Qabs (Qsum p - 1)) atol) then Raise ValueError
  else Ok tt.

(** One draw of [Generator.choice(a, p=p)] once [p] is checked: invert the
    normalised cumulative distribution at a uniform sample. *)
Definition choice_draw {A} (a : list A) (p : list Q) : Rand A :=
  let cdf := cumsum p in
  let cdf := map (fun c => c / List.last cdf 0)%Q cdf in
  (draw u <- random;
   match nth_error a (searchsorted_right cdf u) with
   | Some x => ret x
   | None => raise IndexError
   end)%rand.

(** [Generator.choice(a, p=p)]. *)
Definition choice_p {A} (a : list A) (p : list Q) : Rand A :=
  (draw _ <- lift (check_p a p); choice_draw a p)%rand.

(** [Generator.choice(a, size=n, p=p)]. *)
Definition choice_p_size {A} (a : list A) (n : nat) (p : list Q)
  : Rand (list A) :=
  (draw _ <- lift (check_p a p); sample n (choice_draw a p))%rand.

(** [Generator.choice(a, size=n, replace=True)]: uniform positions. *)
Definition choice_size {A} (a : list A) (n : nat) : Rand (list A) :=
  if (length a =? 0)%nat then
    (if (n =? 0)%nat then ret [] else raise ValueError)
  else
    (draw idx <- sample n (integers 0 (Z.of_nat (length a)));
     for_each (fun i => match nth_error a (Z.to_nat i) with
                        | Some x => ret x
                        | None => raise IndexError
                        end) idx)%rand.

(** [m] returns from every state of the generator, with a value that
    satisfies [P]. *)
Definition returns {A} (m : Rand A) (P : A -> Prop) : Prop :=
  forall g, exists a g', m g = Ok (a, g') /\ P a.

(** [np.rint]: the nearest integer, ties to even. *)
Definition rint (x : Q) : Z :=
  let f := Qfloor x in
  let r := (x - inject_Z f)%Q in
  match (r ?= 1 # 2)%Q with
  | Lt => f
  | Gt => f + 1
  | Eq => if Z.even f then f else f + 1
  end.

(** [np.round(x, 2)]. *)
Definition round2 (x : Q) : Q := (rint (x * 100) # 100).

End NumPy.

(* ===================================================================== *)
(** ** Tables and the CSV writer *)
(* ===================================================================== *)

Module Pandas.

(** A Python [dict] used for look-ups only; a later binding of a key
    replaces an earlier one. *)
Definition dict_of (l : list (string * string)) : gmap string string :=
  fold_left (fun m kv => <[ fst kv := snd kv ]> m) l ∅.

Definition getitem (m : gmap string string) (k : string) : result string :=
  match m !! k with
  | Some v => Ok v
  | None => Raise KeyError
  end.

(** One transaction: the fourteen columns of the table, in the order of
    the dictionary given to [pd.DataFrame]. *)
Record Transaction : Type := {
  transaction_id : string;
  date : Z;
  store_id : string;
  store_location : string;
  transaction_type : string;
  customer_id : string;
  customer_segment : string;
  product_category : string;
  product_name : string;
  unit_price : Q;
  quantity : Z;
  discount_pct : Q;
  sales_amount : Q;
  payment_method : string
}.

(** A table: its rows in order, each with its index label. *)
Definition DataFrame : Type := list (nat * Transaction).

Definition records (df : DataFrame) : list Transaction := map snd df.

Definition columns : list string :=
  ["transaction_id"; "date"; "store_id"; "store_location";
   "transaction_type"; "customer_id"; "customer_segment";
   "product_category"; "product_name"; "unit_price"; "quantity";
   "discount_pct"; "sales_amount"; "payment_method"].

(** [df.sort_values("date")]: rows in ascending date order.  Rows of equal
    date keep their relative order here; the library's default sort leaves
    their order to its implementation. *)
Fixpoint insert_by_date (r : nat * Transaction) (l : DataFrame) : DataFrame :=
  match l with
  | [] => [r]
  | x :: l' =>
      if date (snd r) <=? date (snd x) then r :: l
      else x :: insert_by_date r l'
  end.

Definition sort_values_date (df : DataFrame) : DataFrame :=
  fold_right insert_by_date [] df.

(** *** Cells as text *)

Definition quote_char : ascii := ascii_of_nat 34.

Definition special (c : ascii) : bool :=
  Ascii.eqb c "," || Ascii.eqb c quote_char
  || Ascii.eqb c (ascii_of_nat 10) || Ascii.eqb c (ascii_of_nat 13).

Fixpoint needs_quote (s : string) : bool :=
  match s with
  | EmptyString => false
  | String c s' => special c || needs_quote s'
  end.

Fixpoint double_quotes (s : string) : string :=
  match s with
  | EmptyString => EmptyString
  | String c s' =>
      if Ascii.eqb c quote_char
      then String c (String c (double_quotes s'))
      else String c (double_quotes s')
  end.

(** Minimal quoting: only a field that holds the delimiter, a quote or a
    line break is quoted. *)
Definition csv_field (s : string) : string :=
  if needs_quote s
  then String quote_char (double_quotes s ++ String quote_char EmptyString)
  else s.

(** [repr] of a float that is a whole number [c] of hundredths: the
    shortest decimal, with at least one digit after the point. *)
Definition repr_hundredths (c : Z) : string :=
  let a := Z.abs c in
  let frac := a mod 100 in
  (if c <? 0 then "-" else "") ++ PyStr.str_int (a / 100) ++ "."
    ++ (if frac mod 10 =? 0 then PyStr.str_int (frac / 10)
        else PyStr.zfill 2 (PyStr.str_int frac)).

Definition repr_float (q : Q) : string := repr_hundredths (Qfloor (q * 100)).

Definition cells (r : Transaction) : list string :=
  [csv_field (transaction_id r); Dates.isoformat (date r);
   csv_field (store_id r); csv_field (store_location r);
   csv_field (transaction_type r); csv_field (customer_id r);
   csv_field (customer_segment r); csv_field (product_category r);
   csv_field (product_name r); repr_float (unit_price r);
   PyStr.str_int (quantity r); repr_float (discount_pct r);
   repr_float (sales_amount r); csv_field (payment_method r)].

(** The fourteen values of a row as text, without any quoting. *)
Definition raw_cells (r : Transaction) : list string :=
  [transaction_id r; Dates.isoformat (date r); store_id r; store_location r;
   transaction_type r; customer_id r; customer_segment r; product_category r;
   product_name r; repr_float (unit_price r); PyStr.str_int (quantity r);
   repr_float (discount_pct r); repr_float (sales_amount r);
   payment_method r].

(** [df.to_csv(path, index=index)]: the lines of the file.  With
    [index=True] every line starts with one more field, the index label
    (under an empty header). *)
Definition to_csv_lines (df : DataFrame) (index : bool) : list string :=
  let header := (if index then [""] else []) ++ map csv_field columns in
  let line (r : nat * Transaction) :=
    (if index then [PyStr.str_nat (fst r)] else []) ++ cells (snd r) in
  PyStr.join "," header :: map (fun r => PyStr.join "," (line r)) df.

(** The file system: the lines of every file, by path. *)
Definition to_csv (fs : gmap string (list string)) (df : DataFrame)
    (path : string) (index : bool) : gmap string (list string) :=
  <[ path := to_csv_lines df index ]> fs.

(** [os.path.exists(path)]. *)
Definition exists_path (fs : gmap string (list string)) (path : string)
  : bool :=
  match fs !! path with Some _ => true | None => false end.

(** The fields of one line of a CSV file.  [field] is the text of the
    current field so far, [quoted] tells whether a quoted field is open. *)
Fixpoint split_fields (s : string) (field : string) (quoted : bool)
  : list string :=
  match s with
  | EmptyString => [field]
  | String c s' =>
      if quoted then
        if Ascii.eqb c quote_char then
          match s' with
          | String c2 s'' =>
              if Ascii.eqb c2 quote_char
              then split_fields s'' (field ++ String c EmptyString) true
              else split_fields s' field false
          | EmptyString => [field]
          end
        else split_fields s' (field ++ String c EmptyString) true
      else if Ascii.eqb c "," then field :: split_fields s' EmptyString false
      else if Ascii.eqb c quote_char then split_fields s' field true
      else split_fields s' (field ++ String c EmptyString) false
  end.

Definition split_csv_line (line : string) : list string :=
  split_fields line EmptyString false.

(** What [pd.read_csv] finds in a file: the column names of the header
    line and the text of the cells of every other line. *)
Record RawFrame : Type := {
  raw_columns : list string;
  raw_rows : list (list string)
}.

Definition read_csv (fs : gmap string (list string)) (path : string)
  : result RawFrame :=
  match fs !! path with
  | None => Raise FileNotFoundError
  | Some [] => Raise ValueError
  | Some (h :: body) =>
      Ok {| raw_columns := split_csv_line h;
            raw_rows := map split_csv_line body |}
  end.

End Pandas.

(* ===================================================================== *)
(** ** [generate_urbanmart_sales.py] *)
(* ===================================================================== *)

Module GenerateSales.

Import NumPy Pandas.

Definition stores : list (string * string) :=
  [("S001", "Downtown"); ("S002", "Uptown"); ("S003", "Midtown");
   ("S004", "Riverside"); ("S005", "Tech Park"); ("S006", "Old Town")].

Definition store_ids : list string := map fst stores.

Definition store_locs : gmap string string := dict_of stores.

(** The product catalog; a [dict], whose keys are kept in insertion
    order. *)
Definition catalog : list (string * list (string * Q)) :=
  [("Groceries",
      [("Rice 5kg", 18.0); ("Pasta Pack", 2.5); ("Olive Oil 1L", 10.0);
       ("Breakfast Cereal", 4.5); ("Coffee 250g", 6.0)]);
   ("Beverages",
      [("Sparkling Water 6-pack", 4.0); ("Orange Juice", 3.5);
       ("Soda 12-pack", 7.5); ("Green Tea Box", 3.0)]);
   ("Household",
      [("Laundry Detergent", 9.0); ("Dish Soap", 3.0);
       ("Paper Towels", 6.5); ("Trash Bags", 5.0)]);
   ("Personal Care",
      [("Shampoo", 6.0); ("Toothpaste", 2.5);
       ("Body Wash", 5.5); ("Deodorant", 4.0)]);
   ("Electronics",
      [("Wireless Earbuds", 45.0); ("Phone Charger", 15.0);
       ("Smart Speaker", 60.0); ("Power Bank", 25.0)]);
   ("Clothing",
      [("T-Shirt", 12.0); ("Jeans", 35.0);
       ("Sneakers", 55.0); ("Jacket", 70.0)])]%Q.

(** [catalog[cat]]. *)
Fixpoint catalog_getitem_in (c : list (string * list (string * Q)))
    (cat : string) : result (list (string * Q)) :=
  match c with
  | [] => Raise KeyError
  | (k, items) :: c' =>
      if PyStr.eqb cat k then Ok items else catalog_getitem_in c' cat
  end.

Definition catalog_getitem (cat : string) : result (list (string * Q)) :=
  catalog_getitem_in catalog cat.

Definition categories : list string := map fst catalog.

Definition n_customers : nat := 5000.

Definition customer_ids : list string :=
  map (fun i => ("C" ++ PyStr.zfill 5 (PyStr.str_nat i))%string)
    (seq 1 n_customers).

Definition segments : list string := ["Budget"; "Regular"; "Premium"].
Definition segment_probs : list Q := [0.35; 0.5; 0.15]%Q.

Definition store_probs : list Q := [0.22; 0.18; 0.20; 0.14; 0.16; 0.10]%Q.

Definition channels : list string := ["Online"; "In-store"].
Definition channel_probs : list Q := [0.35; 0.65]%Q.

Definition base_cat_probs : list Q :=
  [0.32; 0.14; 0.16; 0.14; 0.12; 0.12]%Q.

(** [l.index(x)]. *)
Fixpoint list_index (x : string) (l : list string) : result nat :=
  match l with
  | [] => Raise ValueError
  | y :: l' =>
      if PyStr.eqb x y then Ok O
      else (try i <- list_index x l'; Ok (S i))%result
  end.

(** [p[categories.index(name)] += delta]. *)
Definition shift (name : string) (delta : Q) (p : list Q)
  : result (list Q) :=
  (try i <- list_index name categories;
   Ok (alter (fun x => x + delta)%Q i p))%result.

(** The weights after the three in-place updates, before the division. *)
Definition cat_probs_shifted : result (list Q) :=
  (try p1 <- shift "Electronics" 0.05 base_cat_probs;
   try p2 <- shift "Groceries" (- 0.03) p1;
   shift "Household" (- 0.02) p2)%result.

Definition normalise (p : list Q) : list Q :=
  map (fun x => x / Qsum p)%Q p.

Definition cat_probs_online : result (list Q) :=
  (try p <- cat_probs_shifted; Ok (normalise p))%result.

Definition pick_category (online_probs : list Q) (ch : string)
  : Rand string :=
  let p := if PyStr.eqb ch "Online" then online_probs else base_cat_probs in
  choice_p categories p.

(** Product selection and pricing for one transaction. *)
Definition pick_product (cat : string) : Rand (string * Q) :=
  (draw items <- lift (catalog_getitem cat);
   draw idx <- integers 0 (Z.of_nat (length items));
   match nth_error items (Z.to_nat idx) with
   | Some (name, price) =>
       draw f <- uniform 0.95 1.10;
       ret (name, round2 (price * f))
   | None => raise IndexError
   end)%rand.

Definition pick_quantity (cat : string) : Rand Z :=
  if PyStr.mem cat ["Groceries"; "Beverages"; "Household"; "Personal Care"]
  then integers 1 6
  else if PyStr.eqb cat "Clothing" then integers 1 4
  else integers 1 3.

Definition pick_discount (cat : string) : Rand Q :=
  if PyStr.eqb cat "Groceries" then
    choice_p [0; 0.05; 0.10]%Q [0.75; 0.18; 0.07]%Q
  else if PyStr.mem cat ["Beverages"; "Household"; "Personal Care"] then
    choice_p [0; 0.05; 0.10; 0.15]%Q [0.55; 0.25; 0.15; 0.05]%Q
  else if PyStr.eqb cat "Clothing" then
    choice_p [0; 0.10; 0.20; 0.30]%Q [0.35; 0.35; 0.20; 0.10]%Q
  else
    choice_p [0; 0.05; 0.10; 0.15; 0.20]%Q
             [0.40; 0.25; 0.20; 0.10; 0.05]%Q.

(** All the values that some category can give to [discount_pct]. *)
Definition discount_levels : list Q := [0; 0.05; 0.10; 0.15; 0.20; 0.30]%Q.

Definition pm : list string := ["Card"; "Cash"; "Wallet"; "UPI"].
Definition pm_probs_instore : list Q := [0.45; 0.25; 0.15; 0.15]%Q.
Definition pm_probs_online : list Q := [0.55; 0.00; 0.25; 0.20]%Q.

Definition pick_payment (ch : string) : Rand string :=
  let probs :=
    if PyStr.eqb ch "Online" then pm_probs_online else pm_probs_instore in
  choice_p pm probs.

(** [gross = unit_prices * qty]. *)
Definition gross_amounts (unit_prices : list Q) (qty : list Z) : list Q :=
  zip_with (fun p q => p * inject_Z q)%Q unit_prices qty.

(** [net = np.round(gross * (1 - discount_pct), 2)]. *)
Definition net_amounts (gross discount : list Q) : list Q :=
  zip_with (fun g d => round2 (g * (1 - d)))%Q gross discount.

Definition txn_ids (n : nat) : list string :=
  map (fun i => ("T" ++ PyStr.zfill 7 (PyStr.str_nat i))%string) (seq 1 n).

(** The columns that go into the table. *)
Record Columns : Type := {
  c_transaction_id : list string;
  c_date : list Z;
  c_store_id : list string;
  c_store_location : list string;
  c_transaction_type : list string;
  c_customer_id : list string;
  c_customer_segment : list string;
  c_product_category : list string;
  c_product_name : list string;
  c_unit_price : list Q;
  c_quantity : list Z;
  c_discount_pct : list Q;
  c_sales_amount : list Q;
  c_payment_method : list string
}.

Definition row_at (c : Columns) (i : nat) : Transaction :=
  {| transaction_id := nth i (c_transaction_id c) "";
     date := nth i (c_date c) 0;
     store_id := nth i (c_store_id c) "";
     store_location := nth i (c_store_location c) "";
     transaction_type := nth i (c_transaction_type c) "";
     customer_id := nth i (c_customer_id c) "";
     customer_segment := nth i (c_customer_segment c) "";
     product_category := nth i (c_product_category c) "";
     product_name := nth i (c_product_name c) "";
     unit_price := nth i (c_unit_price c) 0%Q;
     quantity := nth i (c_quantity c) 0;
     discount_pct := nth i (c_discount_pct c) 0%Q;
     sales_amount := nth i (c_sales_amount c) 0%Q;
     payment_method := nth i (c_payment_method c) "" |}.

Definition column_lengths (c : Columns) : list nat :=
  [length (c_transaction_id c); length (c_date c); length (c_store_id c);
   length (c_store_location c); length (c_transaction_type c);
   length (c_customer_id c); length (c_customer_segment c);
   length (c_product_category c); length (c_product_name c);
   length (c_unit_price c); length (c_quantity c);
   length (c_discount_pct c); length (c_sales_amount c);
   length (c_payment_method c)].

(** [pd.DataFrame({...})]: all columns must have one length; the index is
    [0 .. n-1]. *)
Definition make_DataFrame (c : Columns) : result DataFrame :=
  let n := length (c_transaction_id c) in
  if forallb (Nat.eqb n) (column_lengths c)
  then Ok (map (fun i => (i, row_at c i)) (seq 0 n))
  else Raise ValueError.

(** The sampling part of [generate_urbanmart_sales], up to the sorted
    table. *)
Definition sample_table (n_transactions : nat)
    (start_date end_date : string) : Rand DataFrame :=
  (draw customer_segment <-
     choice_p_size segments n_customers segment_probs;
   let customer_map := dict_of (zip customer_ids customer_segment) in
   draw start <- lift (Dates.datetime64 start_date);
   draw end_ <- lift (Dates.datetime64 end_date);
   let days := end_ - start + 1 in
   draw random_days <- sample n_transactions (integers 0 days);
   let dates := map (fun d => start + d) random_days in
   draw txn_store_ids <- choice_p_size store_ids n_transactions store_probs;
   draw txn_channels <- choice_p_size channels n_transactions channel_probs;
   draw online_probs <- lift cat_probs_online;
   draw txn_categories <- for_each (pick_category online_probs) txn_channels;
   draw products <- for_each pick_product txn_categories;
   let product_names := map fst products in
   let unit_prices := map snd products in
   draw qty <- for_each pick_quantity txn_categories;
   draw discount <- for_each pick_discount txn_categories;
   draw txn_customers <- choice_size customer_ids n_transactions;
   draw txn_segments <-
     for_each (fun c => lift (getitem customer_map c)) txn_customers;
   draw payment_methods <- for_each pick_payment txn_channels;
   let gross := gross_amounts unit_prices qty in
   let net := net_amounts gross discount in
   draw locations <-
     for_each (fun s => lift (getitem store_locs s)) txn_store_ids;
   draw df <- lift (make_DataFrame
     {| c_transaction_id := txn_ids n_transactions;
        c_date := dates;
        c_store_id := txn_store_ids;
        c_store_location := locations;
        c_transaction_type := txn_channels;
        c_customer_id := txn_customers;
        c_customer_segment := txn_segments;
        c_product_category := txn_categories;
        c_product_name := product_names;
        c_unit_price := unit_prices;
        c_quantity := qty;
        c_discount_pct := discount;
        c_sales_amount := net;
        c_payment_method := payment_methods |});
   ret (sort_values_date df))%rand.

(** [generate_urbanmart_sales(out_path, n_transactions, seed, start_date,
    end_date)]: the table it returns and the file system after
    [df.to_csv(out_path, index=False)]. *)
Definition generate_urbanmart_sales (bg : BitGenerator)
    (fs : gmap string (list string)) (out_path : string)
    (n_transactions : nat) (seed : Z) (start_date end_date : string)
  : result (DataFrame * gmap string (list string)) :=
  match sample_table n_transactions start_date end_date
          (default_rng bg seed) with
  | Ok (df, _) => Ok (df, to_csv fs df out_path false)
  | Raise e => Raise e
  end.

(** [x] is a value that the sampling code [m] can return. *)
Definition drawn_by {A} (m : Rand A) (x : A) : Prop :=
  exists g g', m g = Ok (x, g').

(** What the sampling steps say about the row with index label [i] of a
    table of [n] transactions between the days [start] and [end_]. *)
Record generated (n : nat) (start end_ : Z) (i : nat) (r : Transaction)
  : Prop := {
  gen_index : (i < n)%nat;
  gen_id :
    transaction_id r = ("T" ++ PyStr.zfill 7 (PyStr.str_nat (S i)))%string;
  gen_date : start <= date r <= end_;
  gen_store : In (store_id r) store_ids;
  gen_location : getitem store_locs (store_id r) = Ok (store_location r);
  gen_channel : In (transaction_type r) channels;
  gen_customer : In (customer_id r) customer_ids;
  gen_segment : In (customer_segment r) segments;
  gen_category : In (product_category r) categories;
  gen_product :
    drawn_by (pick_product (product_category r))
             (product_name r, unit_price r);
  gen_quantity : drawn_by (pick_quantity (product_category r)) (quantity r);
  gen_discount :
    drawn_by (pick_discount (product_category r)) (discount_pct r);
  gen_payment :
    drawn_by (pick_payment (transaction_type r)) (payment_method r);
  gen_sales :
    sales_amount r
    = round2 (unit_price r * inject_Z (quantity r) * (1 - discount_pct r))
}.

(** The defaults of the signature. *)
Definition default_out_path : string := "urbanmart_sales.csv".
Definition default_n_transactions : nat := 25000.
Definition default_seed : Z := 42.
Definition default_start_date : string := "2024-01-01".
Definition default_end_date : string := "2024-12-31".

End GenerateSales.

(* ===================================================================== *)
(** ** [Urbanmart_analysis.py] *)
(* ===================================================================== *)

Module Analysis.

Import Pandas.

Definition csv_path : string := "urbanmart_sales.csv".

(** The first steps of [main]: make sure the dataset exists, then read
    it. *)
Definition load_dataset (bg : NumPy.BitGenerator)
    (fs : gmap string (list string))
  : result (RawFrame * gmap string (list string)) :=
  (try fs' <-
     (if negb (exists_path fs csv_path) then
        try r <- GenerateSales.generate_urbanmart_sales bg fs csv_path
                   25000 42 GenerateSales.default_start_date
                   GenerateSales.default_end_date;
        Ok (snd r)
      else Ok fs);
   try df <- read_csv fs' csv_path;
   Ok (df, fs'))%result.

(** The values a cell of an object column can hold. *)
Inductive pyobj : Type :=
  | PyStr (s : string)
  | PyNone
  | PyInt (z : Z)
  | PyNaN.

Definition isinstance_str (t : pyobj) : bool :=
  match t with PyStr _ => true | _ => false end.

(** Attribute access: [t.strip()] and [t.lower()] exist on [str] only. *)
Definition method_strip (t : pyobj) : result pyobj :=
  match t with
  | PyStr s => Ok (PyStr (PyStr.strip s))
  | _ => Raise AttributeError
  end.

Definition method_lower (t : pyobj) : result pyobj :=
  match t with
  | PyStr s => Ok (PyStr (PyStr.lower s))
  | _ => Raise AttributeError
  end.

(** [a == b] where [b] is a string literal. *)
Definition py_eq_str (a : pyobj) (b : string) : bool :=
  match a with PyStr s => PyStr.eqb s b | _ => false end.

Fixpoint py_in_strs (a : pyobj) (l : list string) : bool :=
  match l with
  | [] => false
  | b :: l' => py_eq_str a b || py_in_strs a l'
  end.

Record counts : Type := { online_count : nat; instore_count : nat }.

(** The body of the [for t in ...] loop of [main]; [tt'] is the source's
    [tt]. *)
Definition count_step (c : counts) (t : pyobj) : result counts :=
  if isinstance_str t then
    (try s <- method_strip t;
     try tt' <- method_lower s;
     if py_eq_str tt' "online" then
       Ok {| online_count := S (online_count c);
             instore_count := instore_count c |}
     else if py_in_strs tt' ["in-store"; "instore"; "in store"] then
       Ok {| online_count := online_count c;
             instore_count := S (instore_count c) |}
     else Ok c)%result
  else Ok c.

Fixpoint count_loop (c : counts) (l : list pyobj) : result counts :=
  match l with
  | [] => Ok c
  | t :: l' => (try c' <- count_step c t; count_loop c' l')%result
  end.

Definition manual_counts (l : list pyobj) : result counts :=
  count_loop {| online_count := 0; instore_count := 0 |} l.

End Analysis.

(* ===================================================================== *)
(** ** [app.py]: the loader, the filters and the header KPIs *)
(* ===================================================================== *)

Module App.

Import Pandas.

Definition DATA_PATH : string := "urbanmart_sales.csv".

(** A row of the table that [get_data] returns: the text of its cells
    and the parsed values of the columns that were coerced. *)
Record Row : Type := {
  cells_of : list string;
  date_of : Z;
  sales_amount_of : Q;
  quantity_of : option Q
}.

Record Frame : Type := {
  frame_columns : list string;
  frame_rows : list Row
}.

(** Position of a column; a missing column is a [KeyError]. *)
Fixpoint column_index (name : string) (cols : list string) : result nat :=
  match cols with
  | [] => Raise KeyError
  | c :: cols' =>
      if PyStr.eqb name c then Ok O
      else (try i <- column_index name cols'; Ok (S i))%result
  end.

(** The cell of a row in a column; an empty cell is a missing value. *)
Definition cell (i : nat) (cs : list string) : option string :=
  match nth_error cs i with
  | Some EmptyString => None
  | Some s => Some s
  | None => None
  end.

Section GetData.

(** The coercions of the library ([errors="coerce"]): a text that does
    not parse becomes a missing value. *)
Variable to_datetime : string -> option Z.
Variable to_numeric : string -> option Q.

Definition coerce {A} (f : string -> option A) (c : option string)
  : option A :=
  match c with Some s => f s | None => None end.

(** One row after the three coercions; [None] when [dropna] removes
    it. *)
Definition clean_row (i_date i_sales i_qty : nat) (cs : list string)
  : option Row :=
  match coerce to_datetime (cell i_date cs),
        coerce to_numeric (cell i_sales cs) with
  | Some d, Some a =>
      Some {| cells_of := cs; date_of := d; sales_amount_of := a;
              quantity_of := coerce to_numeric (cell i_qty cs) |}
  | _, _ => None
  end.

(** [get_data(path)]. *)
Definition get_data (bg : NumPy.BitGenerator)
    (fs : gmap string (list string)) (path : string)
  : result (Frame * gmap string (list string)) :=
  (try fs' <-
     (if negb (exists_path fs path) then
        try r <- GenerateSales.generate_urbanmart_sales bg fs path
                   25000 42 GenerateSales.default_start_date
                   GenerateSales.default_end_date;
        Ok (snd r)
      else Ok fs);
   try df <- read_csv fs' path;
   try i_date <- column_index "date" (raw_columns df);
   try i_sales <- column_index "sales_amount" (raw_columns df);
   try i_qty <- column_index "quantity" (raw_columns df);
   Ok ({| frame_columns := raw_columns df;
          frame_rows :=
            omap (clean_row i_date i_sales i_qty) (raw_rows df) |},
       fs'))%result.

End GetData.

(** [df[name].isin(selection)]. *)
Definition isin (c : option string) (selection : list string) : bool :=
  match c with Some s => PyStr.mem s selection | None => false end.

(** The sidebar filters: the working subset [fdf]. *)
Definition apply_filters (df : Frame) (start_date end_date : Z)
    (store_sel cat_sel channel_sel : list string) : result Frame :=
  (try i_store <- column_index "store_id" (frame_columns df);
   try i_cat <- column_index "product_category" (frame_columns df);
   try i_chan <- column_index "transaction_type" (frame_columns df);
   Ok {| frame_columns := frame_columns df;
         frame_rows :=
           List.filter
             (fun r =>
                (start_date <=? date_of r) && (date_of r <=? end_date)
                && isin (cell i_store (cells_of r)) store_sel
                && isin (cell i_cat (cells_of r)) cat_sel
                && isin (cell i_chan (cells_of r)) channel_sel)
             (frame_rows df) |})%result.

(** [Series.nunique()]: the number of distinct values, missing values
    left out. *)
Fixpoint distinct (l : list string) : list string :=
  match l with
  | [] => []
  | x :: l' => if PyStr.mem x l' then distinct l' else x :: distinct l'
  end.

Definition nunique (col : list (option string)) : Z :=
  Z.of_nat (length (distinct (omap id col))).

(** [a / b] on numbers. *)
Definition truediv (a : Q) (b : Z) : result Q :=
  if b =? 0 then Raise ZeroDivisionError else Ok (a / inject_Z b)%Q.

Record KPIs : Type := {
  total_sales : Q;
  orders : Z;
  customers : Z;
  aov : Q
}.

(** The header KPIs of the working subset. *)
Definition header_kpis (fdf : Frame) : result KPIs :=
  (let total := NumPy.Qsum (map sales_amount_of (frame_rows fdf)) in
   try i_txn <- column_index "transaction_id" (frame_columns fdf);
   let orders := nunique (map (fun r => cell i_txn (cells_of r))
                              (frame_rows fdf)) in
   try i_cust <- column_index "customer_id" (frame_columns fdf);
   let customers := nunique (map (fun r => cell i_cust (cells_of r))
                                 (frame_rows fdf)) in
   try aov <- (if negb (orders =? 0) then truediv total orders
               else Ok 0%Q);
   Ok {| total_sales := total; orders := orders;
         customers := customers; aov := aov |})%result.

End App.

(* ===================================================================== *)
(** ** [Urbanmart_analysis.py]: [main] as a whole *)
(* ===================================================================== *)

Module AnalysisMain.

Import Pandas Analysis.

(** The cell texts that [pd.read_csv] takes for a missing value. *)
Definition na_values : list string :=
  [""; "#N/A"; "#N/A N/A"; "#NA"; "-1.#IND"; "-1.#QNAN"; "-NaN"; "-nan";
   "1.#IND"; "1.#QNAN"; "<NA>"; "N/A"; "NA"; "NULL"; "NaN"; "None"; "n/a";
   "nan"; "null"].

(** The Python object of a cell of a text column.  (In a column that the
    reader types as numbers or booleans the objects are not strings
    either.) *)
Definition object_cell (s : string) : pyobj :=
  if PyStr.mem s na_values then PyNaN else PyStr s.

(** [df[name]], as the text of its cells; a row that is too short has a
    missing value there. *)
Definition getitem_column (df : RawFrame) (name : string)
  : result (list string) :=
  (try i <- App.column_index name (raw_columns df);
   Ok (map (fun cs => nth i cs "") (raw_rows df)))%result.

(** [df[name].tolist()]. *)
Definition tolist (col : list string) : list pyobj := map object_cell col.

(** What [main] prints, as far as it is modelled: the number of rows and
    the manual counts. *)
Record Report : Type := { total_rows : nat; manual : counts }.

(** [main()]: load the dataset, go through the sanity checks (each reads
    columns, and fails when one is missing), then count the channels by
    hand. *)
Definition main (bg : NumPy.BitGenerator) (fs : gmap string (list string))
  : result (Report * gmap string (list string)) :=
  (try loaded <- load_dataset bg fs;
   let df := fst loaded in
   try _ <- getitem_column df "store_id";
   try _ <- getitem_column df "date";
   try _ <- getitem_column df "product_category";
   try _ <- getitem_column df "store_id";
   try _ <- getitem_column df "store_location";
   try t <- getitem_column df "transaction_type";
   try c <- manual_counts (tolist t);
   Ok ({| total_rows := length (raw_rows df); manual := c |},
       snd loaded))%result.

(** The entries that the loop counts as online and as in-store. *)
Definition counts_as_online (t : pyobj) : bool :=
  match t with
  | PyStr s => PyStr.eqb (PyStr.lower (PyStr.strip s)) "online"
  | _ => false
  end.

Definition counts_as_instore (t : pyobj) : bool :=
  match t with
  | PyStr s =>
      PyStr.mem (PyStr.lower (PyStr.strip s))
                ["in-store"; "instore"; "in store"]
  | _ => false
  end.

Fixpoint all_space (s : string) : bool :=
  match s with
  | EmptyString => true
  | String c s' => PyStr.isspace c && all_space s'
  end.

End AnalysisMain.

(* ===================================================================== *)
(** ** [app.py]: the category table and the most valuable customers *)
(* ===================================================================== *)

Module Dashboard.

Import Pandas App.

(** The order that [groupby] and [sort_values] leave: an insertion sort
    by a comparison, which keeps the order of equal elements. *)
Fixpoint insert_by {A} (le : A -> A -> bool) (x : A) (l : list A) : list A :=
  match l with
  | [] => [x]
  | y :: l' => if le x y then x :: l else y :: insert_by le x l'
  end.

Definition sort_by {A} (le : A -> A -> bool) (l : list A) : list A :=
  fold_right (insert_by le) [] l.

(** The value of a row in the column at position [i]. *)
Definition key_of (i : nat) (r : Row) : option string := cell i (cells_of r).

Definition has_key (i : nat) (k : string) (r : Row) : bool :=
  match key_of i r with Some s => PyStr.eqb s k | None => false end.

(** The groups of [groupby(name)]: the distinct values of the column in
    ascending order; a row with a missing value is in no group. *)
Definition group_keys (i : nat) (rows : list Row) : list string :=
  sort_by String.leb (distinct (omap (key_of i) rows)).

(** Division of a column of floats by a column of counts: a zero count
    gives no finite number. *)
Definition float_div (a : Q) (b : Z) : option Q :=
  if b =? 0 then None else Some (a / inject_Z b)%Q.

Record CategoryRow : Type := {
  category_key : string;
  revenue : Q;
  category_orders : Z;
  category_customers : Z;
  units : Q;
  category_aov : option Q
}.

(** [cat_perf]: one row per product category of the working subset. *)
Definition cat_perf (fdf : Frame) : result (list CategoryRow) :=
  (try i_cat <- column_index "product_category" (frame_columns fdf);
   try i_txn <- column_index "transaction_id" (frame_columns fdf);
   try i_cust <- column_index "customer_id" (frame_columns fdf);
   Ok (map
         (fun k =>
            let g := List.filter (has_key i_cat k) (frame_rows fdf) in
            let rev := NumPy.Qsum (map sales_amount_of g) in
            let ord := nunique (map (key_of i_txn) g) in
            {| category_key := k;
               revenue := rev;
               category_orders := ord;
               category_customers := nunique (map (key_of i_cust) g);
               units := NumPy.Qsum (omap quantity_of g);
               category_aov := float_div rev ord |})
         (group_keys i_cat (frame_rows fdf))))%result.

(** The two values of a row in the columns at [i] and [j]; a row with one
    of them missing is in no group. *)
Definition pair_key (i j : nat) (r : Row) : option (string * string) :=
  match key_of i r, key_of j r with
  | Some a, Some b => Some (a, b)
  | _, _ => None
  end.

Definition pair_eqb (a b : string * string) : bool :=
  PyStr.eqb (fst a) (fst b) && PyStr.eqb (snd a) (snd b).

Definition pair_leb (a b : string * string) : bool :=
  match String.compare (fst a) (fst b) with
  | Lt => true
  | Eq => String.leb (snd a) (snd b)
  | Gt => false
  end.

Definition has_pair (i j : nat) (k : string * string) (r : Row) : bool :=
  match pair_key i j r with Some p => pair_eqb p k | None => false end.

Fixpoint distinct_pairs (l : list (string * string))
  : list (string * string) :=
  match l with
  | [] => []
  | x :: l' =>
      if existsb (pair_eqb x) l' then distinct_pairs l'
      else x :: distinct_pairs l'
  end.

(** The latest of the dates of a group (a group has a row). *)
Definition max_date (l : list Z) : Z :=
  match l with
  | [] => 0
  | d :: l' => fold_left Z.max l' d
  end.

Record CustomerRow : Type := {
  customer_key : string;
  segment_key : string;
  total_spend : Q;
  customer_orders : Z;
  last_purchase : Z;
  avg_order_value : option Q
}.

(** [cust] before it is sorted: one row per customer and segment, in the
    order of the keys. *)
Definition cust_groups (fdf : Frame) : result (list CustomerRow) :=
  (try i_cust <- column_index "customer_id" (frame_columns fdf);
   try i_seg <- column_index "customer_segment" (frame_columns fdf);
   try i_txn <- column_index "transaction_id" (frame_columns fdf);
   Ok (map
         (fun k =>
            let g := List.filter (has_pair i_cust i_seg k) (frame_rows fdf) in
            let spend := NumPy.Qsum (map sales_amount_of g) in
            let ord := nunique (map (key_of i_txn) g) in
            {| customer_key := fst k;
               segment_key := snd k;
               total_spend := spend;
               customer_orders := ord;
               last_purchase := max_date (map date_of g);
               avg_order_value := float_div spend ord |})
         (sort_by pair_leb
            (distinct_pairs
               (omap (pair_key i_cust i_seg) (frame_rows fdf))))))%result.

(** [sort_values("total_spend", ascending=False)].  (The library does not
    fix the order of customers of equal spend; here they keep the order
    of their keys.) *)
Definition by_spend_desc (a b : CustomerRow) : bool :=
  Qle_bool (total_spend b) (total_spend a).

Definition cust (fdf : Frame) : result (list CustomerRow) :=
  (try g <- cust_groups fdf; Ok (sort_by by_spend_desc g))%result.

(** [cust.head(top_n)]. *)
Definition top (fdf : Frame) (top_n : nat) : result (list CustomerRow) :=
  (try c <- cust fdf; Ok (firstn top_n c))%result.

(** Readers of the texts that the generator writes: a day in ISO form,
    and a number in decimal digits, whole or with digits on both sides of
    a point. *)
Definition to_datetime_iso (s : string) : option Z :=
  match Dates.datetime64 s with Ok z => Some z | Raise _ => None end.

Fixpoint split_point (s : string) (acc : list ascii)
  : option (list ascii * list ascii) :=
  match s with
  | EmptyString => None
  | String c s' =>
      if Ascii.eqb c "." then Some (rev acc, list_ascii_of_string s')
      else split_point s' (c :: acc)
  end.

Definition to_numeric_decimal (s : string) : option Q :=
  let '(neg, body) :=
    match s with
    | String "-" t => (true, t)
    | _ => (false, s)
    end in
  match split_point body [] with
  | Some (ip, fp) =>
      match ip, fp, Dates.digits_val 0 ip, Dates.digits_val 0 fp with
      | _ :: _, _ :: _, Some a, Some b =>
          let scale := 10 ^ Z.of_nat (length fp) in
          let v := a * scale + b in
          Some (Qmake (if neg then - v else v) (Z.to_pos scale))
      | _, _, _, _ => None
      end
  | None =>
      match list_ascii_of_string body with
      | [] => None
      | c :: l =>
          match Dates.digits_val 0 (c :: l) with
          | Some a => Some (inject_Z (if neg then - a else a))
          | None => None
          end
      end
  end.

End Dashboard.

(* ===================================================================== *)
(** ** [Urbanmart_analysis.py]: the dictionary of the stores *)
(* ===================================================================== *)

Module AnalysisStores.

Import Pandas Analysis AnalysisMain.

(** A cell of a text column, unless the reader takes it for a missing
    value. *)
Definition present (s : string) : option string :=
  if PyStr.mem s na_values then None else Some s.

(** [dropna()] on a row of two columns. *)
Definition both_present (p : string * string) : option (string * string) :=
  match present (fst p), present (snd p) with
  | Some a, Some b => Some (a, b)
  | _, _ => None
  end.

(** [drop_duplicates()]: the first occurrence of a row is kept. *)
Fixpoint drop_duplicates_from (seen l : list (string * string))
  : list (string * string) :=
  match l with
  | [] => []
  | x :: l' =>
      if existsb (Dashboard.pair_eqb x) seen
      then drop_duplicates_from seen l'
      else x :: drop_duplicates_from (x :: seen) l'
  end.

Definition drop_duplicates (l : list (string * string))
  : list (string * string) :=
  drop_duplicates_from [] l.

(** [df[["store_id", "store_location"]].dropna().drop_duplicates()]. *)
Definition store_rows (df : RawFrame) : result (list (string * string)) :=
  (try ids <- getitem_column df "store_id";
   try locs <- getitem_column df "store_location";
   Ok (drop_duplicates (omap both_present (combine ids locs))))%result.

(** The dictionary that the loop over [store_rows] fills: a later row
    replaces the location that an earlier row gave to the same store. *)
Definition store_map (df : RawFrame) : result (gmap string string) :=
  (try rows <- store_rows df; Ok (dict_of rows))%result.

End AnalysisStores.

(* ===================================================================== *)
(** ** Two concrete runs *)
(* ===================================================================== *)

Module Runs.

Import NumPy Pandas GenerateSales.

(** A bit generator whose outputs mix the seed and the position. *)
Definition mixer : BitGenerator :=
  fun seed i =>
    (seed + 1) * 6364136223846793005 * (Z.of_nat i + 1) * (Z.of_nat i + 7)
    + 1442695040888963407 * Z.of_nat i.

(** A bit generator that replays [script] once the customer segments are
    drawn. *)
Definition scripted (script : list Z) : BitGenerator :=
  fun _ i => nth (i - n_customers) script 0.

(** A generator whose every raw output is [raw]. *)
Definition constant (raw : Z) : Generator :=
  {| stream := fun _ => raw; cursor := 0 |}.

(** Three transactions from [mixer]. *)
Definition small_table :=
  Eval vm_compute in
    match sample_table 3 default_start_date default_end_date
            (default_rng mixer default_seed) with
    | Ok (df, _) => df
    | Raise _ => nil
    end.

(** The online transaction of [small_table]. *)
Definition small_online_row : Transaction :=
  {| transaction_id := "T0000002"; date := 20042; store_id := "S005";
     store_location := "Tech Park"; transaction_type := "Online";
     customer_id := "C01320"; customer_segment := "Budget";
     product_category := "Electronics"; product_name := "Power Bank";
     unit_price := 23.95; quantity := 2; discount_pct := 0;
     sales_amount := 47.90; payment_method := "Wallet" |}.

(** One in-store sale of a jacket at 70.02 with 30% off: the draws are, in
    order, the day, the store, the channel (0.5), the category (0.9), the
    product (position 3), the price factor (0.33524 of the way from 0.95
    to 1.10), the quantity (1), the discount (0.95), the customer and the
    payment method. *)
Definition jacket_script : list Z :=
  [0; 0; 9223372036854775808; 16602069666338596454; 3;
   6184086483270390083; 0; 17524406870024074035; 0; 0].

Definition jacket_table :=
  Eval vm_compute in
    match sample_table 1 default_start_date default_end_date
            (default_rng (scripted jacket_script) default_seed) with
    | Ok (df, _) => df
    | Raise _ => nil
    end.

(** The table that the dashboard loads from the file of [small_table]. *)
Definition small_frame :=
  Eval vm_compute in
    match App.get_data Dashboard.to_datetime_iso
            Dashboard.to_numeric_decimal mixer
            (to_csv ∅ small_table default_out_path false)
            App.DATA_PATH with
    | Ok (f, _) => f
    | Raise _ => {| App.frame_columns := nil; App.frame_rows := nil |}
    end.

(** Its rows of the in-store channel from the 80th day of the range on,
    and the two headers. *)
Definition small_subset :=
  Eval vm_compute in
    match App.apply_filters small_frame 19800 20088 store_ids categories
            ["In-store"] with
    | Ok f => f
    | Raise _ => {| App.frame_columns := nil; App.frame_rows := nil |}
    end.

(** Its category table and its two most valuable customers. *)
Definition small_cat_perf :=
  Eval vm_compute in
    match Dashboard.cat_perf small_frame with
    | Ok t => t
    | Raise _ => nil
    end.

Definition small_top :=
  Eval vm_compute in
    match Dashboard.top small_frame 2 with
    | Ok t => t
    | Raise _ => nil
    end.

End Runs.

(* ===================================================================== *)
(** * Properties *)
(* ===================================================================== *)

(** ** Sampling code: inversion and ranges *)

Section Sampling.

Import NumPy.

Lemma bind_ok {A B} (m : Rand A) (k : A -> Rand B) g r :
  bind m k g = Ok r -> exists a g1, m g = Ok (a, g1) /\ k a g1 = Ok r.
Proof.
  unfold bind. destruct (m g) as [[a g1]|e]; [|discriminate].
  intros H. exists a, g1. split; [reflexivity | exact H].
Qed.

Lemma lift_ok {A} (r : result A) g a g' :
  lift r g = Ok (a, g') -> r = Ok a /\ g' = g.
Proof.
  unfold lift. destruct r; [|discriminate]. intros [= <- <-]. auto.
Qed.

Lemma ret_ok {A} (a : A) g b g' : ret a g = Ok (b, g') -> b = a /\ g' = g.
Proof. unfold ret. intros [= <- <-]. auto. Qed.

Lemma for_each_ok {A B} (f : A -> Rand B) (l : list A) :
  forall g out g',
    for_each f l g = Ok (out, g') ->
    Forall2 (fun a b => exists g1 g2, f a g1 = Ok (b, g2)) l out.
Proof.
  induction l as [|a l IH]; intros g out g' H; cbn in H.
  - apply ret_ok in H as [-> _]. constructor.
  - apply bind_ok in H as (b & g1 & Hb & H).
    apply bind_ok in H as (bs & g2 & Hbs & H).
    apply ret_ok in H as [-> _].
    constructor; [exists g, g1; exact Hb | eapply IH; exact Hbs].
Qed.

Lemma sample_ok {A} (m : Rand A) (n : nat) :
  forall g out g',
    sample n m g = Ok (out, g') ->
    length out = n /\ Forall (fun b => exists g1 g2, m g1 = Ok (b, g2)) out.
Proof.
  induction n as [|n IH]; intros g out g' H; cbn in H.
  - apply ret_ok in H as [-> _]. split; [reflexivity | constructor].
  - apply bind_ok in H as (b & g1 & Hb & H).
    apply bind_ok in H as (bs & g2 & Hbs & H).
    apply ret_ok in H as [-> _].
    destruct (IH _ _ _ Hbs) as [Hl Hf].
    split; [cbn; congruence|].
    constructor; [exists g, g1; exact Hb | exact Hf].
Qed.

Lemma next_uint64_range g raw g' :
  next_uint64 g = Ok (raw, g') -> 0 <= raw < 2 ^ 64.
Proof.
  unfold next_uint64. intros [= <- _]. apply Z.mod_pos_bound. lia.
Qed.

Lemma random_range g u g' :
  random g = Ok (u, g') -> (0 <= u)%Q /\ (u < 1)%Q.
Proof.
  unfold random. intros H.
  apply bind_ok in H as (raw & g1 & Hraw & H).
  apply ret_ok in H as [-> _].
  apply next_uint64_range in Hraw.
  rewrite Z.shiftr_div_pow2 by lia.
  assert (0 <= raw / 2 ^ 11 < 9007199254740992).
  { split; [apply Z.div_pos; lia|].
    apply Z.div_lt_upper_bound; [lia|].
    change (2 ^ 11 * 9007199254740992) with (2 ^ 64). lia. }
  unfold Qle, Qlt; cbn. lia.
Qed.

Lemma uniform_range low high g x g' :
  (low <= high)%Q ->
  uniform low high g = Ok (x, g') -> (low <= x)%Q /\ (x <= high)%Q.
Proof.
  intros Hlh H. unfold uniform in H.
  apply bind_ok in H as (u & g1 & Hu & H).
  apply ret_ok in H as [-> _].
  apply random_range in Hu as [H0 H1].
  assert (Hd : (0 <= high - low)%Q) by lra.
  assert (Hp : (0 <= (high - low) * u)%Q)
    by (apply Qmult_le_0_compat; assumption).
  assert (Hq : ((high - low) * u <= (high - low) * 1)%Q).
  { rewrite !(Qmult_comm (high - low)).
    apply Qmult_le_compat_r; [lra | exact Hd]. }
  split; lra.
Qed.

Lemma integers_range low high g z g' :
  integers low high g = Ok (z, g') -> low <= z < high.
Proof.
  unfold integers. destruct (Z.leb_spec high low) as [Hle|Hlt];
    [discriminate|].
  intros H. apply bind_ok in H as (raw & g1 & Hraw & H).
  apply ret_ok in H as [-> _].
  pose proof (Z.mod_pos_bound raw (high - low)). lia.
Qed.

(** *** [choice] *)

Lemma searchsorted_support (t u : Q) (p : list Q) :
  forall acc q,
    (acc / t <= u)%Q ->
    nth_error p
      (searchsorted_right (map (fun c => c / t)%Q (cumsum_from acc p)) u)
    = Some q ->
    ~ (q == 0)%Q.
Proof.
  induction p as [|x p IH]; intros acc q Hacc Hq; cbn in Hq.
  - discriminate.
  - destruct (Qle_bool (Qred (acc + x) / t) u) eqn:E; cbn in Hq.
    + eapply IH; [|exact Hq]. apply Qle_bool_iff. exact E.
    + injection Hq as <-. intros Hx.
      assert (Qle_bool (Qred (acc + x) / t) u = true); [|congruence].
      apply Qle_bool_iff. rewrite Qred_correct, Hx, Qplus_0_r. exact Hacc.
Qed.

(** A draw returns an entry of [a], and never one whose probability is
    zero. *)
Lemma choice_draw_support {A} (a : list A) (p : list Q) g x g' :
  choice_draw a p g = Ok (x, g') ->
  exists i,
    nth_error a i = Some x
    /\ forall q, nth_error p i = Some q -> ~ (q == 0)%Q.
Proof.
  unfold choice_draw. intros H.
  apply bind_ok in H as (u & g1 & Hu & H).
  apply random_range in Hu as [Hu0 _].
  set (i := searchsorted_right _ u) in H.
  destruct (nth_error a i) as [y|] eqn:Ey; [|discriminate].
  apply ret_ok in H as [-> _].
  exists i. split; [exact Ey|].
  intros q Hq. eapply searchsorted_support; [|exact Hq].
  unfold Qdiv. rewrite Qmult_0_l. exact Hu0.
Qed.

Lemma choice_p_support {A} (a : list A) (p : list Q) g x g' :
  choice_p a p g = Ok (x, g') ->
  exists i,
    nth_error a i = Some x
    /\ forall q, nth_error p i = Some q -> ~ (q == 0)%Q.
Proof.
  unfold choice_p. intros H.
  apply bind_ok in H as (u & g1 & _ & H).
  eapply choice_draw_support. exact H.
Qed.

Lemma choice_p_in {A} (a : list A) (p : list Q) g x g' :
  choice_p a p g = Ok (x, g') -> In x a.
Proof.
  intros H. apply choice_p_support in H as (i & Hi & _).
  eapply nth_error_In. exact Hi.
Qed.

Lemma choice_p_size_in {A} (a : list A) (n : nat) (p : list Q) g out g' :
  choice_p_size a n p g = Ok (out, g') ->
  length out = n /\ Forall (fun x => In x a) out.
Proof.
  unfold choice_p_size. intros H.
  apply bind_ok in H as (u & g1 & _ & H).
  apply sample_ok in H as [Hl Hf]. split; [exact Hl|].
  eapply List.Forall_impl; [|exact Hf].
  intros x (g2 & g3 & Hx). apply choice_draw_support in Hx as (i & Hi & _).
  eapply nth_error_In. exact Hi.
Qed.

Lemma choice_size_in {A} (a : list A) (n : nat) g out g' :
  choice_size a n g = Ok (out, g') ->
  length out = n /\ Forall (fun x => In x a) out.
Proof.
  unfold choice_size. destruct (length a =? 0)%nat.
  - destruct (n =? 0)%nat eqn:En; [|discriminate].
    intros H. apply ret_ok in H as [-> _].
    apply Nat.eqb_eq in En. split; [symmetry; exact En | constructor].
  - intros H. apply bind_ok in H as (idx & g1 & Hidx & H).
    apply sample_ok in Hidx as [Hl _].
    apply for_each_ok in H.
    split; [rewrite <- (List.Forall2_length H); exact Hl|].
    clear Hl. induction H as [|i x idx' out' Hx _ IH]; constructor; auto.
    destruct Hx as (g2 & g3 & Hx).
    destruct (nth_error a (Z.to_nat i)) as [y|] eqn:Ey; [|discriminate].
    apply ret_ok in Hx as [-> _]. eapply nth_error_In. exact Ey.
Qed.

End Sampling.

(** ** Columns, dictionaries and sorting *)

Section Tables.

Import Pandas.

Lemma Forall2_nth_pair {A B} (P : A -> B -> Prop) l1 l2 d1 d2 :
  Forall2 P l1 l2 ->
  forall i, (i < length l1)%nat -> P (nth i l1 d1) (nth i l2 d2).
Proof.
  induction 1 as [|x y l1 l2 Hxy _ IH]; intros i Hi; cbn in *; [lia|].
  destruct i as [|i]; [exact Hxy | apply IH; lia].
Qed.

Lemma Forall_nth_at {A} (P : A -> Prop) l d :
  Forall P l -> forall i, (i < length l)%nat -> P (nth i l d).
Proof.
  induction 1 as [|x l Hx _ IH]; intros i Hi; cbn in *; [lia|].
  destruct i as [|i]; [exact Hx | apply IH; lia].
Qed.

Lemma nth_zip_with {A B C} (f : A -> B -> C) l1 l2 d1 d2 d :
  forall i, (i < length l1)%nat -> (i < length l2)%nat ->
    nth i (zip_with f l1 l2) d = f (nth i l1 d1) (nth i l2 d2).
Proof.
  revert l2. induction l1 as [|x l1 IH]; intros [|y l2] i H1 H2;
    cbn in *; try lia.
  destruct i as [|i]; [reflexivity | apply IH; lia].
Qed.

Lemma length_zip_with_same {A B C} (f : A -> B -> C) l1 l2 :
  length l1 = length l2 -> length (zip_with f l1 l2) = length l1.
Proof.
  revert l2. induction l1 as [|x l1 IH]; intros [|y l2] H; cbn in *;
    try reflexivity; try discriminate.
  f_equal. apply IH. congruence.
Qed.

Lemma dict_of_from_lookup (l : list (string * string)) :
  forall (m : gmap string string) k v,
    fold_left (fun m kv => <[ fst kv := snd kv ]> m) l m !! k = Some v ->
    In (k, v) l \/ m !! k = Some v.
Proof.
  induction l as [|[k0 v0] l IH]; intros m k v H; cbn in H.
  - right. exact H.
  - apply IH in H as [H|H]; [left; right; exact H|].
    destruct (decide (k0 = k)) as [->|Hne].
    + rewrite lookup_insert_eq in H. injection H as ->. left; left.
      reflexivity.
    + rewrite lookup_insert_ne in H by exact Hne. right. exact H.
Qed.

Lemma getitem_dict_of (l : list (string * string)) k v :
  getitem (dict_of l) k = Ok v -> In (k, v) l.
Proof.
  unfold getitem, dict_of.
  destruct (_ !! k) as [w|] eqn:E; [|discriminate].
  intros [= <-]. apply dict_of_from_lookup in E as [E|E]; [exact E|].
  rewrite lookup_empty in E. discriminate.
Qed.

Lemma insert_by_date_perm r (df : DataFrame) :
  Permutation (insert_by_date r df) (r :: df).
Proof.
  induction df as [|x df IH]; cbn; [reflexivity|].
  destruct (date (snd r) <=? date (snd x)); [reflexivity|].
  rewrite IH. apply perm_swap.
Qed.

Lemma sort_values_date_perm (df : DataFrame) :
  Permutation (sort_values_date df) df.
Proof.
  induction df as [|r df IH]; cbn; [reflexivity|].
  rewrite insert_by_date_perm. constructor. exact IH.
Qed.

End Tables.

(** ** Every row of a generated table comes from the sampling steps *)

Section GeneratedRows.

Import NumPy Pandas GenerateSales.

Lemma in_zip_r {A B} (l1 : list A) (l2 : list B) a b :
  In (a, b) (zip l1 l2) -> In b l2.
Proof.
  revert l2. induction l1 as [|x l1 IH]; intros [|y l2] H; cbn in *;
    try contradiction.
  destruct H as [[= _ <-]|H]; [left; reflexivity | right; eauto].
Qed.

Lemma length_txn_ids n : length (txn_ids n) = n.
Proof. unfold txn_ids. rewrite length_map, length_seq. reflexivity. Qed.

Lemma nth_map_seq {A} (f : nat -> A) (a n i : nat) (d : A) :
  (i < n)%nat -> nth i (map f (seq a n)) d = f (a + i)%nat.
Proof.
  intros Hi.
  rewrite (nth_indep _ d (f O)) by (rewrite length_map, length_seq; exact Hi).
  rewrite (map_nth f (seq a n) O i), seq_nth by exact Hi. reflexivity.
Qed.

Lemma nth_txn_ids n i :
  (i < n)%nat ->
  nth i (txn_ids n) "" = ("T" ++ PyStr.zfill 7 (PyStr.str_nat (S i)))%string.
Proof. intros Hi. unfold txn_ids. rewrite nth_map_seq by exact Hi. reflexivity. Qed.

Ltac simpl_row :=
  unfold row_at;
  cbn [transaction_id date store_id store_location transaction_type
       customer_id customer_segment product_category product_name
       unit_price quantity discount_pct sales_amount payment_method
       c_transaction_id c_date c_store_id c_store_location
       c_transaction_type c_customer_id c_customer_segment
       c_product_category c_product_name c_unit_price c_quantity
       c_discount_pct c_sales_amount c_payment_method].

Ltac bind_step H x g Hx :=
  apply bind_ok in H as (x & g & Hx & H); cbv beta zeta in H.

Ltac lift_step H x Hx :=
  let g := fresh "g" in
  let E := fresh "E" in
  apply bind_ok in H as (x & g & Hx & H); cbv beta zeta in H;
  apply lift_ok in Hx as [Hx E]; subst g.

Lemma sample_table_rows n sd ed g df g' :
  sample_table n sd ed g = Ok (df, g') ->
  exists start end_,
    Dates.datetime64 sd = Ok start
    /\ Dates.datetime64 ed = Ok end_
    /\ Permutation (map fst df) (seq 0 n)
    /\ forall i r, In (i, r) df -> generated n start end_ i r.
Proof.
  intros H. unfold sample_table in H.
  bind_step H segs g1 Hsegs.
  lift_step H start Hstart.
  lift_step H end_ Hend.
  bind_step H random_days g2 Hdays.
  bind_step H txn_store_ids g3 Hstores.
  bind_step H txn_channels g4 Hchannels.
  lift_step H online_probs Honline.
  bind_step H txn_categories g5 Hcats.
  bind_step H products g6 Hproducts.
  bind_step H qty g7 Hqty.
  bind_step H discount g8 Hdiscount.
  bind_step H txn_customers g9 Hcustomers.
  bind_step H txn_segments g10 Hsegments.
  bind_step H payment_methods g11 Hpayments.
  bind_step H locations g12 Hlocations.
  lift_step H df0 Hdf.
  apply ret_ok in H as [-> _].
  unfold make_DataFrame in Hdf.
  match type of Hdf with
  | (if ?b then _ else _) = _ => destruct b; [|discriminate]
  end.
  injection Hdf as <-. cbn [c_transaction_id] in *.
  rewrite length_txn_ids.
  apply choice_p_size_in in Hsegs as [_ Hsegs].
  apply sample_ok in Hdays as [Ldays Hdays].
  apply choice_p_size_in in Hstores as [Lstores Hstores].
  apply choice_p_size_in in Hchannels as [Lchannels Hchannels].
  apply for_each_ok in Hcats, Hproducts, Hqty, Hdiscount, Hsegments,
    Hpayments, Hlocations.
  apply choice_size_in in Hcustomers as [Lcustomers Hcustomers].
  pose proof (List.Forall2_length Hcats) as Lcats.
  pose proof (List.Forall2_length Hproducts) as Lproducts.
  pose proof (List.Forall2_length Hqty) as Lqty.
  pose proof (List.Forall2_length Hdiscount) as Ldiscount.
  pose proof (List.Forall2_length Hsegments) as Lsegments.
  pose proof (List.Forall2_length Hpayments) as Lpayments.
  pose proof (List.Forall2_length Hlocations) as Llocations.
  exists start, end_. split; [exact Hstart|]. split; [exact Hend|]. split.
  { rewrite sort_values_date_perm, map_map. cbn. rewrite map_id.
    reflexivity. }
  intros i r Hin.
  eapply Permutation_in in Hin; [|apply sort_values_date_perm].
  apply in_map_iff in Hin as (j & [= -> <-] & Hj).
  apply in_seq in Hj as [_ Hj]. cbn in Hj.
  constructor; simpl_row.
  - exact Hj.
  - apply nth_txn_ids. exact Hj.
  - rewrite (nth_indep _ 0 (start + 0))
      by (rewrite length_map; lia).
    rewrite (map_nth (fun d => start + d)).
    assert (Hd : exists g1 g2,
               integers 0 (end_ - start + 1) g1
               = Ok (nth i random_days 0, g2))
      by (apply Forall_nth_at; [exact Hdays | lia]).
    destruct Hd as (ga & gb & Hd). apply integers_range in Hd. lia.
  - apply Forall_nth_at; [exact Hstores | lia].
  - assert (Hl := Forall2_nth_pair _ _ _ "" "" Hlocations i).
    destruct Hl as (ga & gb & Hl); [lia|].
    apply lift_ok in Hl as [Hl _]. exact Hl.
  - apply Forall_nth_at; [exact Hchannels | lia].
  - apply Forall_nth_at; [exact Hcustomers | lia].
  - assert (Hl := Forall2_nth_pair _ _ _ "" "" Hsegments i).
    destruct Hl as (ga & gb & Hl); [lia|].
    apply lift_ok in Hl as [Hl _].
    apply getitem_dict_of, in_zip_r in Hl.
    rewrite List.Forall_forall in Hsegs. apply Hsegs. exact Hl.
  - assert (Hl := Forall2_nth_pair _ _ _ "" "" Hcats i).
    destruct Hl as (ga & gb & Hl); [lia|].
    unfold pick_category in Hl. eapply choice_p_in. exact Hl.
  - assert (Hl := Forall2_nth_pair _ _ _ "" ("", 0%Q) Hproducts i).
    destruct Hl as (ga & gb & Hl); [lia|].
    exists ga, gb.
    change "" with (fst ("", 0%Q)) at 2. rewrite map_nth.
    change 0%Q with (snd ("", 0%Q)) at 2. rewrite map_nth.
    rewrite <- surjective_pairing. exact Hl.
  - assert (Hl := Forall2_nth_pair _ _ _ "" 0 Hqty i).
    destruct Hl as (ga & gb & Hl); [lia|]. exists ga, gb. exact Hl.
  - assert (Hl := Forall2_nth_pair _ _ _ "" 0%Q Hdiscount i).
    destruct Hl as (ga & gb & Hl); [lia|]. exists ga, gb. exact Hl.
  - assert (Hl := Forall2_nth_pair _ _ _ "" "" Hpayments i).
    destruct Hl as (ga & gb & Hl); [lia|]. exists ga, gb. exact Hl.
  - unfold net_amounts, gross_amounts.
    assert (Lprices : length (map snd products) = n)
      by (rewrite length_map; lia).
    rewrite (nth_zip_with _ _ _ 0%Q 0%Q)
      by (rewrite ?length_zip_with_same; lia).
    rewrite (nth_zip_with _ _ _ 0%Q 0) by lia.
    reflexivity.
Qed.

End GeneratedRows.

(** ** Rounding *)

Section Rounding.

Import NumPy.

Lemma rint_bounds (x : Q) : Qfloor x <= rint x <= Qfloor x + 1.
Proof.
  unfold rint. destruct (_ ?= _)%Q; [destruct (Z.even _)| |]; lia.
Qed.

Lemma rint_nonneg (x : Q) : (0 <= x)%Q -> 0 <= rint x.
Proof.
  intros Hx. pose proof (rint_bounds x) as [Hl _].
  apply Qfloor_resp_le in Hx. change (Qfloor 0) with 0 in Hx. lia.
Qed.

(** Rounding never passes an integer that bounds the argument. *)
Lemma rint_le_Z (x : Q) (m : Z) : (x <= inject_Z m)%Q -> rint x <= m.
Proof.
  intros Hx. pose proof (rint_bounds x) as [_ Hu].
  pose proof (Qfloor_resp_le _ _ Hx) as Hf. rewrite Qfloor_Z in Hf.
  destruct (Z.eq_dec (Qfloor x) m) as [E|N]; [|lia].
  pose proof (Qfloor_le x) as Hfl. rewrite E in Hfl.
  unfold rint. rewrite E.
  destruct (x - inject_Z m ?= 1 # 2)%Q eqn:C; [|lia|].
  - apply Qeq_alt in C. lra.
  - apply Qgt_alt in C. lra.
Qed.

(** Rounding moves the argument by at most one half. *)
Lemma rint_lower (x : Q) : (x - (1 # 2) <= inject_Z (rint x))%Q.
Proof.
  pose proof (Qfloor_le x) as Hfl. pose proof (Qlt_floor x) as Hfu.
  rewrite inject_Z_plus in Hfu. change (inject_Z 1) with 1%Q in Hfu.
  unfold rint.
  destruct (x - inject_Z (Qfloor x) ?= 1 # 2)%Q eqn:E.
  - destruct (Z.even _); [apply Qeq_alt in E; lra|].
    rewrite inject_Z_plus. change (inject_Z 1) with 1%Q. lra.
  - apply Qlt_alt in E. lra.
  - rewrite inject_Z_plus. change (inject_Z 1) with 1%Q. lra.
Qed.

Lemma round2_hundredths (x : Q) : (round2 x * 100 == inject_Z (rint (x * 100)))%Q.
Proof.
  unfold round2. rewrite (Qmake_Qdiv (rint (x * 100)) 100).
  change (inject_Z (Z.pos 100)) with 100%Q. field.
Qed.

Lemma round2_nonneg (x : Q) : (0 <= x)%Q -> (0 <= round2 x)%Q.
Proof.
  intros Hx. assert (H : 0 <= rint (x * 100)) by (apply rint_nonneg; lra).
  unfold round2, Qle; cbn. lia.
Qed.

Lemma round2_lower (x : Q) : (x - 0.005 <= round2 x)%Q.
Proof.
  pose proof (rint_lower (x * 100)) as H.
  rewrite <- round2_hundredths in H. lra.
Qed.

(** A bound that is a whole number of hundredths survives rounding. *)
Lemma round2_le_hundredths (x : Q) (m : Z) :
  (x <= inject_Z m / 100)%Q -> (round2 x <= inject_Z m / 100)%Q.
Proof.
  assert (E : (inject_Z m / 100 == inject_Z m * 0.01)%Q) by field.
  rewrite E. intros Hx.
  assert (H : rint (x * 100) <= m) by (apply rint_le_Z; lra).
  rewrite Zle_Qle in H. rewrite <- round2_hundredths in H. lra.
Qed.

End Rounding.

(** ** The sampling steps of one transaction *)

Section Steps.

Import NumPy Pandas GenerateSales.

Lemma generate_rows bg fs out n seed sd ed df fs' r :
  generate_urbanmart_sales bg fs out n seed sd ed = Ok (df, fs') ->
  In r (records df) ->
  exists start end_ i, generated n start end_ i r.
Proof.
  unfold generate_urbanmart_sales.
  destruct (sample_table n sd ed (default_rng bg seed)) as [[d g]|e] eqn:E;
    [|discriminate].
  intros [= <- _] Hr.
  apply sample_table_rows in E as (start & end_ & _ & _ & _ & Hrows).
  apply in_map_iff in Hr as ([i r'] & <- & Hin).
  exists start, end_, i. apply Hrows. exact Hin.
Qed.

Lemma catalog_prices_positive cat items :
  catalog_getitem cat = Ok items ->
  Forall (fun it : string * Q => (0 < snd it)%Q) items.
Proof.
  unfold catalog_getitem, catalog; cbn.
  repeat (destruct (PyStr.eqb cat _);
          [intros [= <-]; repeat constructor|]).
  discriminate.
Qed.

(** The product is an entry of the category's catalog, at a position
    drawn by [integers(0, len(items))], and its price is the entry's base
    price times a factor of [0.95, 1.10], rounded to two decimals. *)
Lemma pick_product_spec cat name price :
  drawn_by (pick_product cat) (name, price) ->
  exists items idx base f,
    catalog_getitem cat = Ok items
    /\ drawn_by (integers 0 (Z.of_nat (length items))) (Z.of_nat idx)
    /\ nth_error items idx = Some (name, base)
    /\ drawn_by (uniform 0.95 1.10) f
    /\ (0.95 <= f)%Q /\ (f <= 1.10)%Q
    /\ price = round2 (base * f).
Proof.
  intros (g & g' & H). unfold pick_product in H.
  apply bind_ok in H as (items & g1 & Hitems & H).
  apply lift_ok in Hitems as [Hitems ->].
  apply bind_ok in H as (idx & g2 & Hidx & H).
  destruct (nth_error items (Z.to_nat idx)) as [[nm base]|] eqn:En;
    [|discriminate].
  apply bind_ok in H as (f & g3 & Hf & H).
  apply ret_ok in H as [[= -> ->] _].
  pose proof (integers_range _ _ _ _ _ Hidx) as Hr.
  exists items, (Z.to_nat idx), base, f.
  split; [exact Hitems|]. split.
  { exists g, g2. rewrite Z2Nat.id by lia. exact Hidx. }
  split; [exact En|]. split; [exists g2, g3; exact Hf|].
  pose proof (uniform_range 0.95 1.10 g2 f g3) as Hu.
  destruct Hu as [Hu1 Hu2]; [lra | exact Hf |].
  repeat split; assumption.
Qed.

(** A unit price is a whole, non-negative number of hundredths. *)
Lemma pick_product_price cat name price :
  drawn_by (pick_product cat) (name, price) ->
  exists k, 0 <= k /\ (price == inject_Z k / 100)%Q.
Proof.
  intros H. apply pick_product_spec in H
    as (items & idx & base & f & Hitems & _ & Hn & _ & Hf1 & Hf2 & ->).
  apply catalog_prices_positive in Hitems.
  rewrite List.Forall_forall in Hitems.
  apply nth_error_In, Hitems in Hn. cbn in Hn.
  exists (rint (base * f * 100)). split.
  - apply rint_nonneg.
    assert (0 <= base * f)%Q by (apply Qmult_le_0_compat; lra). lra.
  - unfold round2. rewrite Qmake_Qdiv. reflexivity.
Qed.

Lemma pick_quantity_range cat q :
  drawn_by (pick_quantity cat) q -> 1 <= q <= 5.
Proof.
  intros (g & g' & H). unfold pick_quantity in H.
  destruct (PyStr.mem cat _);
    [|destruct (PyStr.eqb cat _)];
    apply integers_range in H; lia.
Qed.

Lemma pick_discount_levels cat d :
  drawn_by (pick_discount cat) d -> In d discount_levels.
Proof.
  intros (g & g' & H). unfold pick_discount in H.
  destruct (PyStr.eqb cat "Groceries");
    [|destruct (PyStr.mem cat _); [|destruct (PyStr.eqb cat "Clothing")]];
    apply choice_p_in in H; unfold discount_levels; cbn in *; intuition.
Qed.

Lemma discount_levels_range d :
  In d discount_levels -> (0 <= d)%Q /\ (d <= 0.30)%Q.
Proof.
  unfold discount_levels; cbn.
  intros [<-|[<-|[<-|[<-|[<-|[<-|[]]]]]]]; split; unfold Qle; cbn; lia.
Qed.

(** The zero weight of "Cash" keeps it out of every online draw. *)
Lemma pick_payment_online ch x :
  drawn_by (pick_payment ch) x -> ch = "Online" -> x <> "Cash".
Proof.
  intros (g & g' & H) -> Hx. subst x.
  unfold pick_payment in H. change (PyStr.eqb "Online" "Online") with true in H.
  cbv iota in H.
  apply choice_p_support in H as (i & Hi & Hp).
  unfold pm in Hi.
  destruct i as [|[|[|[|i]]]]; cbn in Hi; try discriminate.
  - apply (Hp 0.00%Q); reflexivity.
  - destruct i; discriminate.
Qed.

End Steps.

(** ** Calendar dates *)

Section Calendar.

Import Dates.

Lemma forall_below_spec (n : Z) (f : Z -> bool) :
  forall_below n f = true -> forall z, 0 <= z < n -> f z = true.
Proof.
  unfold forall_below. intros H z Hz.
  assert (G : forall k a, forall_from k a f = true ->
              forall x, a <= x < a + Z.of_nat k -> f x = true).
  { induction k as [|k IH]; intros a Hk x Hx; [lia|].
    cbn in Hk. apply andb_prop in Hk as [Ha Hk].
    destruct (Z.eq_dec x a) as [->|Hne]; [exact Ha|].
    apply (IH (a + 1) Hk). lia. }
  apply (G _ _ H). lia.
Qed.

Lemma forall_from_intro (f : Z -> bool) :
  forall k a,
    (forall z, a <= z < a + Z.of_nat k -> f z = true) ->
    forall_from k a f = true.
Proof.
  induction k as [|k IH]; intros a H; [reflexivity|].
  cbn [forall_from]. rewrite H by lia. apply IH. intros z Hz. apply H. lia.
Qed.

Lemma doe_ok_holds doe : 0 <= doe < 146097 -> doe_ok doe = true.
Proof.
  intros Hdoe. unfold doe_ok, civil_of_doe. cbv zeta.
  set (yoe := (doe - doe / 1460 + doe / 36524 - doe / 146096) / 365).
  set (doy := doe - (365 * yoe + yoe / 4 - yoe / 100)).
  set (mp := (5 * doy + 2) / 153).
  assert (Hyoe : 0 <= yoe <= 399)
    by (subst yoe; Z.div_mod_to_equations; lia).
  assert (Hdoy : 0 <= doy <= 365)
    by (subst doy yoe; Z.div_mod_to_equations; lia).
  assert (Hmp : 0 <= mp <= 11)
    by (subst mp; Z.div_mod_to_equations; lia).
  assert (Hd : 1 <= doy - (153 * mp + 2) / 5 + 1 <= 31)
    by (subst mp; Z.div_mod_to_equations; lia).
  assert (Hlast : yoe = 399 -> (10 <= mp <-> 146037 <= doe)).
  { intros E. subst mp doy. rewrite E.
    change (399 / 4) with 99. change (399 / 100) with 3.
    Z.div_mod_to_equations; lia. }
  assert (Hearly : yoe < 399 -> doe <= 146036).
  { intros E. subst doy. Z.div_mod_to_equations; lia. }
  assert (Hera : forall t, 0 <= t <= 399 -> t / 400 = 0)
    by (intros t Ht; apply Z.div_small; lia).
  unfold days_from_civil.
  destruct (Z.ltb_spec mp 10) as [Hlt|Hge].
  - destruct (Z.leb_spec (mp + 3) 2) as [Hm|Hm]; [lia|].
    rewrite (Hera yoe Hyoe).
    replace (mp + 3 - 3) with mp by lia.
    replace (yoe - 0 * 400) with yoe by lia.
    repeat (apply andb_true_intro; split); try (apply Z.leb_le; lia).
    + apply Z.eqb_eq. subst doy. lia.
    + destruct (Z.leb_spec yoe 399), (Z.leb_spec doe 146036);
        try reflexivity; lia.
  - destruct (Z.leb_spec (mp - 9) 2) as [Hm|Hm]; [|lia].
    replace (yoe + 1 - 1) with yoe by lia.
    rewrite (Hera yoe Hyoe).
    replace (mp - 9 + 9) with mp by lia.
    replace (yoe - 0 * 400) with yoe by lia.
    repeat (apply andb_true_intro; split); try (apply Z.leb_le; lia).
    + apply Z.eqb_eq. subst doy. lia.
    + destruct (Z.leb_spec (yoe + 1) 399), (Z.leb_spec doe 146036);
        try reflexivity; lia.
Qed.

Lemma doe_table : forall_below 146097 doe_ok = true.
Proof.
  unfold forall_below. apply forall_from_intro.
  intros z Hz. apply doe_ok_holds. lia.
Qed.

Lemma of_lu_nat_N (l : Decimal.uint) :
  DecimalNat.Unsigned.of_lu l = N.to_nat (DecimalPos.Unsigned.of_lu l).
Proof.
  induction l;
    rewrite (DecimalNat.Unsigned.of_lu_eqn), (DecimalPos.Unsigned.of_lu_eqn);
    cbn [DecimalNat.Unsigned.hd DecimalNat.Unsigned.tl
         DecimalPos.Unsigned.hd DecimalPos.Unsigned.tl];
    rewrite ?IHl, ?N2Nat.inj_add, ?N2Nat.inj_mul; reflexivity.
Qed.

Lemma of_uint_nat_N (d : Decimal.uint) :
  Nat.of_uint d = N.to_nat (N.of_uint d).
Proof.
  rewrite DecimalNat.Unsigned.of_uint_alt. unfold N.of_uint.
  rewrite DecimalPos.Unsigned.of_uint_alt. apply of_lu_nat_N.
Qed.

(** The decimal digits of a natural number do not depend on whether it is
    counted in unary or in binary. *)
Lemma to_uint_nat_N (n : nat) : Nat.to_uint n = N.to_uint (N.of_nat n).
Proof.
  rewrite <- (DecimalNat.Unsigned.of_to n) at 2.
  rewrite of_uint_nat_N, N2Nat.id, DecimalN.Unsigned.to_of.
  rewrite <- (DecimalNat.Unsigned.to_of (Nat.to_uint n)).
  rewrite DecimalNat.Unsigned.of_to. reflexivity.
Qed.

Lemma str_int_binary (v : Z) :
  0 <= v ->
  PyStr.str_int v = NilZero.string_of_uint (N.to_uint (Z.to_N v)).
Proof.
  intros Hv. unfold PyStr.str_int, PyStr.str_nat.
  destruct (Z.ltb_spec v 0) as [Hneg|_]; [lia|].
  rewrite to_uint_nat_N, Z_nat_N. reflexivity.
Qed.

Lemma padded_binary4_table : forall_below 10000 (padded_binary_ok 4) = true.
Proof. vm_cast_no_check (eq_refl true). Qed.

Lemma padded4_table : forall_below 10000 (padded_ok 4) = true.
Proof.
  unfold forall_below. apply forall_from_intro. intros v Hv.
  unfold padded_ok. rewrite str_int_binary by lia.
  apply (forall_below_spec _ _ padded_binary4_table). lia.
Qed.

Lemma padded2_table : forall_below 100 (padded_ok 2) = true.
Proof. vm_cast_no_check (eq_refl true). Qed.

Lemma days_from_civil_shift (y m d e : Z) :
  days_from_civil (y + 400 * e) m d = days_from_civil y m d + 146097 * e.
Proof.
  unfold days_from_civil.
  destruct (m <=? 2).
  - replace (y + 400 * e - 1) with (y - 1 + e * 400) by lia.
    rewrite Z.div_add by lia.
    replace (y - 1 + e * 400 - ((y - 1) / 400 + e) * 400)
      with (y - 1 - (y - 1) / 400 * 400) by lia.
    lia.
  - replace (y + 400 * e) with (y + e * 400) by lia.
    rewrite Z.div_add by lia.
    replace (y + e * 400 - (y / 400 + e) * 400)
      with (y - y / 400 * 400) by lia.
    lia.
Qed.

(** The era and the day of the era of a day. *)
Lemma era_of_day (z : Z) :
  let era := (z + 719468) / 146097 in
  let doe := z + 719468 - era * 146097 in
  0 <= doe < 146097.
Proof.
  cbv zeta. pose proof (Z.mod_pos_bound (z + 719468) 146097).
  pose proof (Z.div_mod (z + 719468) 146097). lia.
Qed.

Lemma civil_from_days_spec (z : Z) :
  exists y m d,
    civil_from_days z = (y, m, d)
    /\ 1 <= m <= 12 /\ 1 <= d <= 31
    /\ days_from_civil y m d = z
    /\ (min_day <= z <= max_day <-> 0 <= y <= 9999).
Proof.
  unfold civil_from_days.
  pose proof (era_of_day z) as Hdoe. cbv zeta in Hdoe.
  set (era := (z + 719468) / 146097) in *.
  set (doe := z + 719468 - era * 146097) in *.
  pose proof (forall_below_spec _ _ doe_table doe Hdoe) as Hok.
  unfold doe_ok in Hok.
  destruct (civil_of_doe doe) as [[y m] d].
  repeat (apply andb_prop in Hok as [Hok ?]).
  exists (y + era * 400), m, d.
  split; [reflexivity|]. split; [lia|]. split; [lia|]. split.
  - replace (y + era * 400) with (y + 400 * era) by lia.
    rewrite days_from_civil_shift. lia.
  - unfold min_day, max_day.
    destruct (Z.leb_spec y 399), (Z.leb_spec doe 146036);
      cbn in *; try discriminate; lia.
Qed.

Lemma civil_eqb_eq a b : civil_eqb a b = true -> a = b.
Proof.
  destruct a as [[y1 m1] d1], b as [[y2 m2] d2]. cbn.
  intros H. repeat (apply andb_prop in H as [H ?]).
  f_equal; [f_equal|]; lia.
Qed.

Lemma civil_eqb_refl a : civil_eqb a a = true.
Proof.
  destruct a as [[y m] d]. cbn. rewrite !Z.eqb_refl. reflexivity.
Qed.

Lemma digit_val_range c v : digit_val c = Some v -> 0 <= v <= 9.
Proof.
  unfold digit_val.
  destruct (_ && _)%bool eqn:E; [|discriminate].
  intros [= <-]. apply andb_prop in E as [E1 E2].
  apply N.leb_le in E1, E2. lia.
Qed.

Lemma digits4_range a b c d y :
  digits_val 0 [a; b; c; d] = Some y -> 0 <= y <= 9999.
Proof.
  cbn.
  destruct (digit_val a) as [va|] eqn:Ea; [|discriminate].
  destruct (digit_val b) as [vb|] eqn:Eb; [|discriminate].
  destruct (digit_val c) as [vc|] eqn:Ec; [|discriminate].
  destruct (digit_val d) as [vd|] eqn:Ed; [|discriminate].
  apply digit_val_range in Ea, Eb, Ec, Ed.
  intros [= <-]. lia.
Qed.

(** A date that [datetime64] accepts has a year of four digits. *)
Lemma datetime64_range s z :
  datetime64 s = Ok z -> min_day <= z <= max_day.
Proof.
  unfold datetime64.
  destruct (list_ascii_of_string s)
    as [|y1 [|y2 [|y3 [|y4 [|s1 [|m1 [|m2 [|s2 [|d1 [|d2 [|? ?]]]]]]]]]]];
    try discriminate.
  destruct (digits_val 0 [y1; y2; y3; y4]) as [y|] eqn:Ey; [|discriminate].
  destruct (digits_val 0 [m1; m2]) as [m|]; [|discriminate].
  destruct (digits_val 0 [d1; d2]) as [d|]; [|discriminate].
  destruct (_ && _)%bool eqn:E; [|discriminate].
  intros [= <-]. apply andb_prop in E as [_ E].
  apply civil_eqb_eq in E.
  destruct (civil_from_days_spec (days_from_civil y m d))
    as (y' & m' & d' & Hc & _ & _ & _ & Hr).
  rewrite Hc in E. injection E as -> -> ->.
  apply Hr. eapply digits4_range. exact Ey.
Qed.

Lemma padded_text width v :
  padded_ok width v = true ->
  exists l,
    PyStr.zfill width (PyStr.str_int v) = string_of_list_ascii l
    /\ length l = width /\ digits_val 0 l = Some v.
Proof.
  unfold padded_ok. intros H. apply andb_prop in H as [Hl Hd].
  exists (list_ascii_of_string (PyStr.zfill width (PyStr.str_int v))).
  split; [symmetry; apply string_of_list_ascii_of_string|].
  split; [apply Nat.eqb_eq; exact Hl|].
  destruct (digits_val 0 _) as [v'|]; [|discriminate].
  f_equal. lia.
Qed.

(** The text of a date with a year of four digits is the [YYYY-MM-DD]
    spelling that [datetime64] reads back as the same date. *)
Lemma datetime64_isoformat z :
  min_day <= z <= max_day -> datetime64 (isoformat z) = Ok z.
Proof.
  intros Hz.
  destruct (civil_from_days_spec z) as (y & m & d & Hc & Hm & Hd & Hr & Hy).
  apply Hy in Hz.
  unfold isoformat. rewrite Hc.
  destruct (padded_text 4 y) as (ly & -> & Lly & Dy);
    [apply (forall_below_spec _ _ padded4_table); lia|].
  destruct (padded_text 2 m) as (lm & -> & Llm & Dm);
    [apply (forall_below_spec _ _ padded2_table); lia|].
  destruct (padded_text 2 d) as (ld & -> & Lld & Dd);
    [apply (forall_below_spec _ _ padded2_table); lia|].
  destruct ly as [|y1 [|y2 [|y3 [|y4 [|? ?]]]]]; try discriminate.
  destruct lm as [|m1 [|m2 [|? ?]]]; try discriminate.
  destruct ld as [|d1 [|d2 [|? ?]]]; try discriminate.
  unfold datetime64.
  cbv beta iota fix delta
    [string_of_list_ascii String.append list_ascii_of_string].
  rewrite Dy, Dm, Dd, Hr, Hc, civil_eqb_refl. reflexivity.
Qed.

End Calendar.

(** ** The text of a CSV line *)

Section CsvText.

Import Pandas.

Lemma string_app_cons (x : ascii) (a b : string) :
  String.append (String x a) b = String x (String.append a b).
Proof. reflexivity. Qed.

Lemma string_app_assoc (a b c : string) :
  String.append (String.append a b) c = String.append a (String.append b c).
Proof.
  induction a as [|x a IH]; [reflexivity|].
  rewrite !string_app_cons. f_equal. exact IH.
Qed.

Lemma string_app_nil_r (a : string) : String.append a "" = a.
Proof.
  induction a as [|x a IH]; [reflexivity|].
  rewrite !string_app_cons. f_equal. exact IH.
Qed.

Lemma needs_quote_app (a b : string) :
  needs_quote (a ++ b)%string = needs_quote a || needs_quote b.
Proof.
  induction a as [|x a IH]; [reflexivity|].
  rewrite string_app_cons. cbn [needs_quote].
  rewrite IH, orb_assoc. reflexivity.
Qed.

(** A field that needs no quotes is read up to the next comma. *)
Lemma split_fields_plain (s rest field : string) :
  needs_quote s = false ->
  split_fields (s ++ rest)%string field false
  = split_fields rest (field ++ s)%string false.
Proof.
  revert field. induction s as [|c s IH]; intros field Hs.
  - rewrite string_app_nil_r. reflexivity.
  - rewrite string_app_cons. cbn [split_fields needs_quote] in *.
    apply orb_false_elim in Hs as [Hc Hs].
    unfold special in Hc.
    apply orb_false_elim in Hc as [Hc _].
    apply orb_false_elim in Hc as [Hc _].
    apply orb_false_elim in Hc as [Hcomma Hquote].
    rewrite Hcomma, Hquote, (IH _ Hs), string_app_assoc. reflexivity.
Qed.

Lemma split_fields_join (fields : list string) :
  forall f field,
    Forall (fun s => needs_quote s = false) (f :: fields) ->
    split_fields (PyStr.join "," (f :: fields)) field false
    = (field ++ f)%string :: fields.
Proof.
  induction fields as [|f2 fields IH]; intros f field Hp.
  - cbn [PyStr.join]. rewrite <- (string_app_nil_r f) at 1.
    rewrite split_fields_plain by (inversion Hp; assumption).
    reflexivity.
  - change (PyStr.join "," (f :: f2 :: fields))
      with (f ++ ("," ++ PyStr.join "," (f2 :: fields)))%string.
    inversion Hp as [|? ? Hf Hrest]; subst.
    rewrite split_fields_plain by exact Hf.
    rewrite string_app_cons. cbn [split_fields].
    change (Ascii.eqb "," ",") with true. cbv iota.
    change (String.append "" ?t) with t.
    rewrite (IH f2 "" Hrest). reflexivity.
Qed.

(** Fields that need no quotes are what a reader gets back from the line
    that joins them. *)
Lemma split_csv_line_join (fields : list string) :
  fields <> [] ->
  Forall (fun s => needs_quote s = false) fields ->
  split_csv_line (PyStr.join "," fields) = fields.
Proof.
  destruct fields as [|f fields]; [congruence|]. intros _ Hp.
  unfold split_csv_line. rewrite split_fields_join by exact Hp.
  reflexivity.
Qed.

Lemma csv_field_plain s : needs_quote s = false -> csv_field s = s.
Proof. unfold csv_field. intros ->. reflexivity. Qed.

(** *** Numbers and dates need no quotes *)

Lemma needs_quote_uint d : needs_quote (NilEmpty.string_of_uint d) = false.
Proof. induction d; cbn; assumption || reflexivity. Qed.

Lemma needs_quote_str_nat n : needs_quote (PyStr.str_nat n) = false.
Proof.
  unfold PyStr.str_nat, NilZero.string_of_uint.
  destruct (Nat.to_uint n) eqn:E; try reflexivity;
    rewrite <- E; apply needs_quote_uint.
Qed.

Lemma needs_quote_str_int z : needs_quote (PyStr.str_int z) = false.
Proof.
  unfold PyStr.str_int. destruct (z <? 0); cbn;
    apply needs_quote_str_nat.
Qed.

Lemma needs_quote_zeros n : needs_quote (PyStr.repeat_char "0" n) = false.
Proof. induction n as [|n IH]; cbn; [reflexivity | exact IH]. Qed.

Lemma needs_quote_zfill w s :
  needs_quote s = false -> needs_quote (PyStr.zfill w s) = false.
Proof.
  intros Hs. unfold PyStr.zfill.
  rewrite needs_quote_app, needs_quote_zeros, Hs. reflexivity.
Qed.

Lemma needs_quote_isoformat z : needs_quote (Dates.isoformat z) = false.
Proof.
  unfold Dates.isoformat. destruct (Dates.civil_from_days z) as [[y m] d].
  rewrite !needs_quote_app, !needs_quote_zfill
    by apply needs_quote_str_int.
  reflexivity.
Qed.

Lemma needs_quote_repr_float q : needs_quote (repr_float q) = false.
Proof.
  unfold repr_float, repr_hundredths.
  rewrite !needs_quote_app, needs_quote_str_int.
  destruct (_ <? 0); destruct (_ =? 0);
    rewrite ?needs_quote_zfill, ?needs_quote_str_int
      by apply needs_quote_str_int;
    reflexivity.
Qed.

End CsvText.

(** ** The manual channel counter *)

Section ManualCounter.

Import Analysis.

Lemma count_step_non_str (c : counts) (t : pyobj) :
  isinstance_str t = false -> count_step c t = Ok c.
Proof. unfold count_step. intros ->. reflexivity. Qed.

Lemma count_step_total (c : counts) (t : pyobj) :
  exists c', count_step c t = Ok c'.
Proof.
  destruct t as [s| |z|]; try (eexists; reflexivity).
  unfold count_step; cbn.
  destruct (PyStr.eqb _ "online"); [eexists; reflexivity|].
  destruct (_ || _); eexists; reflexivity.
Qed.

Lemma count_loop_total (l : list pyobj) :
  forall c, exists c', count_loop c l = Ok c'.
Proof.
  induction l as [|t l IH]; intros c; cbn.
  - eexists; reflexivity.
  - destruct (count_step_total c t) as [c1 ->]. cbn. apply IH.
Qed.

Lemma count_loop_filter_str (l : list pyobj) :
  forall c, count_loop c l = count_loop c (List.filter isinstance_str l).
Proof.
  induction l as [|t l IH]; intros c; cbn; [reflexivity|].
  destruct (isinstance_str t) eqn:E; cbn.
  - destruct (count_step c t); cbn; [apply IH | reflexivity].
  - rewrite (count_step_non_str c t E). cbn. apply IH.
Qed.

(** C4.  On the list ["Online", "ONLINE ", "in-store", "InStore",
    "in store", None, 42, "other"] the manual counter returns Online = 2
    and In-store = 3 without raising; on every list it returns without
    raising, and the entries that are not strings do not count: the
    result is the one of the list with those entries removed. *)
Theorem manual_counts_example :
  let input := [PyStr "Online"; PyStr "ONLINE "; PyStr "in-store";
                PyStr "InStore"; PyStr "in store"; PyNone; PyInt 42;
                PyStr "other"] in
  manual_counts input = Ok {| online_count := 2; instore_count := 3 |}
  /\ manual_counts input
     = manual_counts [PyStr "Online"; PyStr "ONLINE "; PyStr "in-store";
                      PyStr "InStore"; PyStr "in store"; PyStr "other"]
  /\ (forall l, exists c, manual_counts l = Ok c)
  /\ (forall l,
        manual_counts l = manual_counts (List.filter isinstance_str l)).
Proof.
  cbv zeta. split; [vm_compute; reflexivity|].
  split; [vm_compute; reflexivity|].
  split; intros l; unfold manual_counts.
  - apply count_loop_total.
  - apply count_loop_filter_str.
Qed.

End ManualCounter.

(** ** The online category weights *)

Section OnlineWeights.

Import NumPy GenerateSales.


End OnlineWeights.

(** ** The average order value *)

Section AverageOrderValue.

Import Pandas App.

Lemma truediv_nonzero (a : Q) (b : Z) :
  b <> 0 -> truediv a b = Ok (a / inject_Z b)%Q.
Proof.
  intros Hb. unfold truediv. destruct (Z.eqb_spec b 0); [contradiction|].
  reflexivity.
Qed.

Lemma nunique_nil : nunique [] = 0.
Proof. reflexivity. Qed.

Lemma nunique_nonneg (col : list (option string)) : 0 <= nunique col.
Proof. unfold nunique. lia. Qed.


End AverageOrderValue.

(** ** Loading the dataset *)

Lemma rbind_ok {A B} (a : A) (k : A -> result B) : rbind (Ok a) k = k a.
Proof. reflexivity. Qed.

Lemma rbind_raise {A B} (e : exn) (k : A -> result B) :
  rbind (Raise e) k = Raise e.
Proof. reflexivity. Qed.

Section Loading.

Import NumPy Pandas GenerateSales.

Lemma generate_writes bg fs out n seed sd ed df fs' :
  generate_urbanmart_sales bg fs out n seed sd ed = Ok (df, fs') ->
  fs' = <[ out := to_csv_lines df false ]> fs.
Proof.
  unfold generate_urbanmart_sales, to_csv.
  destruct (sample_table n sd ed (default_rng bg seed)) as [[d g]|e];
    [|discriminate].
  intros [= <- <-]. reflexivity.
Qed.

Lemma exists_path_insert (fs : gmap string (list string)) p lines :
  exists_path (<[ p := lines ]> fs) p = true.
Proof. unfold exists_path. rewrite lookup_insert_eq. reflexivity. Qed.

(** C8.  Both loaders test whether the file exists.  When it does not,
    they first call the generator with the defaults of its signature
    (25000 transactions, seed 42, the year 2024, the default path) and
    then behave as on a file system that has the file; when it does, no
    generator is involved (any bit generator gives the same result) and
    the file system is returned as it was.  The generator leaves the
    table it wrote under the path. *)
Theorem loaders_regenerate_only_when_missing
    (to_datetime : string -> option Z) (to_numeric : string -> option Q)
    (bg bg' : BitGenerator) (fs : gmap string (list string)) :
  Analysis.load_dataset bg fs
  = match fs !! Analysis.csv_path with
    | None =>
        (try r <- generate_urbanmart_sales bg fs default_out_path
                    default_n_transactions default_seed
                    default_start_date default_end_date;
         Analysis.load_dataset bg' (snd r))%result
    | Some _ => (try df <- read_csv fs Analysis.csv_path; Ok (df, fs))%result
    end
  /\ App.get_data to_datetime to_numeric bg fs App.DATA_PATH
     = match fs !! App.DATA_PATH with
       | None =>
           (try r <- generate_urbanmart_sales bg fs default_out_path
                       default_n_transactions default_seed
                       default_start_date default_end_date;
            App.get_data to_datetime to_numeric bg' (snd r) App.DATA_PATH)%result
       | Some _ => App.get_data to_datetime to_numeric bg' fs App.DATA_PATH
       end
  /\ match fs !! App.DATA_PATH,
           App.get_data to_datetime to_numeric bg fs App.DATA_PATH with
     | Some _, Ok (_, fs') => fs' = fs
     | None, Ok (_, fs') =>
         exists df, fs' = <[ App.DATA_PATH := to_csv_lines df false ]> fs
     | _, Raise _ => True
     end.
Proof.
  unfold Analysis.load_dataset, App.get_data.
  change Analysis.csv_path with default_out_path.
  change App.DATA_PATH with default_out_path.
  change 25000%nat with default_n_transactions.
  change 42 with default_seed.
  destruct (fs !! default_out_path) as [lines|] eqn:Efs.
  - assert (Hex : exists_path fs default_out_path = true)
      by (unfold exists_path; rewrite Efs; reflexivity).
    rewrite !Hex.
    change (negb true) with false. cbv iota. rewrite !rbind_ok.
    repeat split.
    destruct (read_csv fs default_out_path) as [df|e];
      [rewrite !rbind_ok | exact I].
    destruct (App.column_index "date" _);
      [rewrite !rbind_ok | exact I].
    destruct (App.column_index "sales_amount" _);
      [rewrite !rbind_ok | exact I].
    destruct (App.column_index "quantity" _);
      [rewrite !rbind_ok | exact I].
    reflexivity.
  - assert (Hex : exists_path fs default_out_path = false)
      by (unfold exists_path; rewrite Efs; reflexivity).
    rewrite !Hex.
    change (negb false) with true. cbv iota.
    destruct (generate_urbanmart_sales bg fs default_out_path
                default_n_transactions default_seed default_start_date
                default_end_date) as [[df fs1]|e] eqn:Eg.
    + apply generate_writes in Eg. rewrite !rbind_ok.
      change (snd (df, fs1)) with fs1. rewrite Eg.
      rewrite exists_path_insert.
      change (negb true) with false. cbv iota. rewrite !rbind_ok.
      repeat split.
      destruct (read_csv _ default_out_path) as [rf|e];
        [rewrite !rbind_ok | exact I].
      destruct (App.column_index "date" _);
        [rewrite !rbind_ok | exact I].
      destruct (App.column_index "sales_amount" _);
        [rewrite !rbind_ok | exact I].
      destruct (App.column_index "quantity" _);
        [rewrite !rbind_ok | exact I].
      exists df. reflexivity.
    + rewrite !rbind_raise. repeat split.
Qed.


End Loading.


(** ** The generator returns a table *)

Section Totality.

Import NumPy Pandas GenerateSales.

Lemma returns_ret {A} (a : A) (P : A -> Prop) : P a -> returns (ret a) P.
Proof. intros Ha g. exists a, g. split; [reflexivity | exact Ha]. Qed.

Lemma returns_bind {A B} (m : Rand A) (k : A -> Rand B) P Q :
  returns m P -> (forall a, P a -> returns (k a) Q) -> returns (bind m k) Q.
Proof.
  intros Hm Hk g. destruct (Hm g) as (a & g1 & Ha & Pa).
  destruct (Hk a Pa g1) as (b & g2 & Hb & Qb).
  exists b, g2. unfold bind. rewrite Ha. split; [exact Hb | exact Qb].
Qed.

Lemma returns_lift {A} (r : result A) (a : A) (P : A -> Prop) :
  r = Ok a -> P a -> returns (lift r) P.
Proof.
  intros -> Pa g. exists a, g. split; [reflexivity | exact Pa].
Qed.

Lemma returns_lift_eq {A} (r : result A) (a : A) :
  r = Ok a -> returns (lift r) (fun x => x = a).
Proof. intros Hr. eapply returns_lift; [exact Hr | reflexivity]. Qed.

Lemma returns_weaken {A} (m : Rand A) (P Q : A -> Prop) :
  returns m P -> (forall a, P a -> Q a) -> returns m Q.
Proof.
  intros Hm HPQ g. destruct (Hm g) as (a & g1 & Ha & Pa).
  exists a, g1. auto.
Qed.

Lemma returns_for_each {A B} (f : A -> Rand B) (Q : A -> B -> Prop) l :
  (forall a, In a l -> returns (f a) (Q a)) ->
  returns (for_each f l) (fun out => Forall2 Q l out).
Proof.
  induction l as [|a l IH]; intros Hf; cbn [for_each].
  - apply returns_ret. constructor.
  - eapply returns_bind; [apply Hf; left; reflexivity|].
    intros b Hb. eapply returns_bind.
    + apply IH. intros a' Ha'. apply Hf. right. exact Ha'.
    + intros bs Hbs. apply returns_ret. constructor; assumption.
Qed.

Lemma returns_sample {A} (m : Rand A) (P : A -> Prop) n :
  returns m P ->
  returns (sample n m) (fun out => length out = n /\ Forall P out).
Proof.
  intros Hm. induction n as [|n IH]; cbn [sample].
  - apply returns_ret. split; [reflexivity | constructor].
  - eapply returns_bind; [exact Hm|]. intros a Pa.
    eapply returns_bind; [exact IH|]. intros l [Hl Hf].
    apply returns_ret. split; [cbn; congruence | constructor; assumption].
Qed.

Lemma returns_random : returns random (fun u => (0 <= u)%Q /\ (u < 1)%Q).
Proof.
  intros g.
  destruct (random g) as [[u g']|e] eqn:E; [|discriminate].
  exists u, g'. split; [reflexivity|]. eapply random_range. exact E.
Qed.

Lemma returns_uniform low high : returns (uniform low high) (fun _ => True).
Proof.
  unfold uniform. eapply returns_bind; [apply returns_random|].
  intros u _. apply returns_ret. exact I.
Qed.

Lemma returns_integers low high :
  low < high -> returns (integers low high) (fun z => low <= z < high).
Proof.
  intros Hlh g.
  destruct (integers low high g) as [[z g']|e] eqn:E.
  - exists z, g'. split; [reflexivity|]. eapply integers_range. exact E.
  - unfold integers in E. destruct (Z.leb_spec high low); [lia|].
    discriminate.
Qed.

(** *** [choice] always finds a position *)

Lemma searchsorted_lt (l : list Q) (u d : Q) :
  l <> [] ->
  Qle_bool (List.last l d) u = false ->
  (searchsorted_right l u < length l)%nat.
Proof.
  induction l as [|c l IH]; [congruence|]. intros _ Hlast.
  cbn [searchsorted_right length].
  destruct l as [|c' l].
  - cbn in Hlast. rewrite Hlast. lia.
  - destruct (Qle_bool c u); [|lia].
    apply -> Nat.succ_lt_mono. apply IH; [discriminate | exact Hlast].
Qed.

Lemma fold_left_Qplus_compat (p : list Q) :
  forall a b, (a == b)%Q -> (fold_left Qplus p a == fold_left Qplus p b)%Q.
Proof.
  induction p as [|x p IH]; intros a b Hab; cbn; [exact Hab|].
  apply IH. rewrite Hab. reflexivity.
Qed.

Lemma last_cumsum_from (p : list Q) :
  forall acc,
    p <> [] ->
    (List.last (cumsum_from acc p) 0 == fold_left Qplus p acc)%Q.
Proof.
  induction p as [|x p IH]; intros acc Hp; [congruence|].
  destruct p as [|y p].
  - cbn. apply Qred_correct.
  - change (cumsum_from acc (x :: y :: p))
      with (Qred (acc + x) :: cumsum_from (Qred (acc + x)) (y :: p)).
    change (List.last (Qred (acc + x) :: cumsum_from (Qred (acc + x)) (y :: p)) 0%Q)
      with (List.last (cumsum_from (Qred (acc + x)) (y :: p)) 0%Q).
    rewrite IH by discriminate.
    change (fold_left Qplus (x :: y :: p) acc)
      with (fold_left Qplus (y :: p) (acc + x)%Q).
    apply fold_left_Qplus_compat, Qred_correct.
Qed.

Lemma length_cumsum_from (p : list Q) :
  forall acc, length (cumsum_from acc p) = length p.
Proof.
  induction p as [|x p IH]; intros acc; cbn; [reflexivity|].
  rewrite IH. reflexivity.
Qed.

Lemma last_map_default {A B} (f : A -> B) (l : list A) (d : A) :
  List.last (map f l) (f d) = f (List.last l d).
Proof.
  induction l as [|x l IH]; [reflexivity|].
  destruct l as [|y l]; [reflexivity|]. exact IH.
Qed.

Lemma check_p_ok {A} (a : list A) (p : list Q) :
  check_p a p = Ok tt ->
  a <> [] /\ length p = length a /\ (0 < Qsum p)%Q.
Proof.
  unfold check_p.
  destruct (length a =? 0)%nat eqn:Ea; [discriminate|].
  destruct (length p =? length a)%nat eqn:El; [|discriminate].
  destruct (forallb _ p); [|discriminate].
  destruct (Qle_bool (Qabs (Qsum p - 1)) atol) eqn:Es; [|discriminate].
  intros _. apply Nat.eqb_neq in Ea. apply Nat.eqb_eq in El.
  split; [intros ->; apply Ea; reflexivity|]. split; [exact El|].
  apply Qle_bool_iff in Es. apply Qabs_Qle_condition in Es as [Es _].
  unfold atol in Es.
  assert (H : (- (1 # 67108864) < 1)%Q) by reflexivity.
  lra.
Qed.

Lemma returns_choice_draw {A} (a : list A) (p : list Q) :
  check_p a p = Ok tt -> returns (choice_draw a p) (fun x => In x a).
Proof.
  intros Hc. apply check_p_ok in Hc as (Ha & Hl & Hs).
  assert (Hp : p <> []) by (intros ->; destruct a; [congruence | discriminate]).
  unfold choice_draw.
  eapply returns_bind; [apply returns_random|].
  intros u [Hu0 Hu1].
  set (t := List.last (cumsum p) 0%Q).
  assert (Ht : (t == Qsum p)%Q) by (apply last_cumsum_from; exact Hp).
  assert (Hlt : (searchsorted_right (map (fun c => c / t)%Q (cumsum p)) u
                 < length a)%nat).
  { rewrite <- Hl, <- (length_cumsum_from p 0),
      <- (length_map (fun c => c / t)%Q).
    apply (searchsorted_lt _ u ((fun c => c / t)%Q 0%Q)).
    - unfold cumsum. destruct p; [congruence | discriminate].
    - pose proof (last_map_default (fun c => c / t)%Q (cumsum p) 0%Q) as Hl'.
      cbv beta in Hl'. rewrite Hl'. fold t.
      destruct (Qle_bool (t / t) u) eqn:E; [|reflexivity].
      exfalso. apply Qle_bool_iff in E.
      assert (E1 : (t / t == 1)%Q) by (field; lra).
      lra. }
  destruct (nth_error a _) as [x|] eqn:Ex.
  - apply returns_ret. eapply nth_error_In. exact Ex.
  - apply nth_error_None in Ex. lia.
Qed.

Lemma returns_choice_p {A} (a : list A) (p : list Q) :
  check_p a p = Ok tt -> returns (choice_p a p) (fun x => In x a).
Proof.
  intros Hc. unfold choice_p.
  eapply returns_bind; [apply returns_lift_eq; exact Hc|].
  intros ? ->. apply returns_choice_draw. exact Hc.
Qed.

Lemma returns_choice_p_size {A} (a : list A) (n : nat) (p : list Q) :
  check_p a p = Ok tt ->
  returns (choice_p_size a n p)
          (fun out => length out = n /\ Forall (fun x => In x a) out).
Proof.
  intros Hc. unfold choice_p_size.
  eapply returns_bind; [apply returns_lift_eq; exact Hc|].
  intros ? ->. apply returns_sample, returns_choice_draw. exact Hc.
Qed.

Lemma returns_choice_size {A} (a : list A) (n : nat) :
  a <> [] ->
  returns (choice_size a n)
          (fun out => length out = n /\ Forall (fun x => In x a) out).
Proof.
  intros Ha. unfold choice_size.
  destruct (length a =? 0)%nat eqn:E.
  { apply Nat.eqb_eq in E. destruct a; [congruence | discriminate]. }
  apply Nat.eqb_neq in E.
  eapply returns_bind.
  { apply returns_sample, returns_integers. lia. }
  intros idx [Hl Hidx].
  eapply returns_weaken.
  - apply (returns_for_each _ (fun _ x => In x a)).
    intros i Hi. rewrite List.Forall_forall in Hidx. apply Hidx in Hi.
    destruct (nth_error a (Z.to_nat i)) as [x|] eqn:Ex.
    + apply returns_ret. eapply nth_error_In. exact Ex.
    + apply nth_error_None in Ex. lia.
  - intros out H. split; [rewrite <- (List.Forall2_length H); exact Hl|].
    clear Hl Hidx. induction H; constructor; assumption.
Qed.

(** *** The steps of one transaction *)

Lemma cat_probs_online_value :
  exists online,
    cat_probs_online = Ok online
    /\ check_p categories online = Ok tt.
Proof. eexists. split; vm_compute; reflexivity. Qed.

Lemma returns_pick_category online ch :
  check_p categories online = Ok tt ->
  returns (pick_category online ch) (fun c => In c categories).
Proof.
  intros Hc. unfold pick_category.
  destruct (PyStr.eqb ch "Online"); apply returns_choice_p;
    [exact Hc | reflexivity].
Qed.

Lemma catalog_total cat :
  In cat categories ->
  exists items, catalog_getitem cat = Ok items /\ items <> [].
Proof.
  unfold categories, catalog; cbn.
  intros [<-|[<-|[<-|[<-|[<-|[<-|[]]]]]]];
    (eexists; split; [reflexivity | discriminate]).
Qed.

Lemma returns_pick_product cat :
  In cat categories -> returns (pick_product cat) (fun _ => True).
Proof.
  intros Hcat. destruct (catalog_total _ Hcat) as (items & Hitems & Hne).
  unfold pick_product.
  eapply returns_bind; [apply returns_lift_eq; exact Hitems|].
  intros ? ->.
  assert (Hlen : 0 < Z.of_nat (length items))
    by (destruct items; [congruence | cbn; lia]).
  eapply returns_bind; [apply returns_integers; exact Hlen|].
  intros idx Hidx. cbv beta in Hidx.
  destruct (nth_error items (Z.to_nat idx)) as [[name price]|] eqn:E.
  - eapply returns_bind; [apply returns_uniform|].
    intros f _. apply returns_ret. exact I.
  - apply nth_error_None in E. lia.
Qed.

Lemma returns_pick_quantity cat : returns (pick_quantity cat) (fun _ => True).
Proof.
  unfold pick_quantity.
  destruct (PyStr.mem cat _); [|destruct (PyStr.eqb cat _)];
    (eapply returns_weaken; [apply returns_integers; lia | auto]).
Qed.

Lemma returns_pick_discount cat : returns (pick_discount cat) (fun _ => True).
Proof.
  unfold pick_discount.
  destruct (PyStr.eqb cat "Groceries");
    [|destruct (PyStr.mem cat _); [|destruct (PyStr.eqb cat "Clothing")]];
    (eapply returns_weaken; [apply returns_choice_p; reflexivity | auto]).
Qed.

Lemma returns_pick_payment ch : returns (pick_payment ch) (fun _ => True).
Proof.
  unfold pick_payment.
  destruct (PyStr.eqb ch "Online");
    (eapply returns_weaken; [apply returns_choice_p; reflexivity | auto]).
Qed.

Lemma store_locs_total s :
  In s store_ids -> exists loc, getitem store_locs s = Ok loc.
Proof.
  unfold store_ids, stores; cbn.
  intros [<-|[<-|[<-|[<-|[<-|[<-|[]]]]]]]; eexists; vm_compute; reflexivity.
Qed.

Lemma dict_of_total_from (l : list (string * string)) :
  forall (m : gmap string string) k,
    In k (map fst l) \/ is_Some (m !! k) ->
    is_Some (fold_left (fun m kv => <[ fst kv := snd kv ]> m) l m !! k).
Proof.
  induction l as [|[k0 v0] l IH]; intros m k H; cbn in *.
  - destruct H as [[]|H]; exact H.
  - apply IH. destruct H as [[->|H]|H].
    + right. rewrite lookup_insert_eq. eexists; reflexivity.
    + left. exact H.
    + right. destruct (decide (k0 = k)) as [->|Hne].
      * rewrite lookup_insert_eq. eexists; reflexivity.
      * rewrite lookup_insert_ne by exact Hne. exact H.
Qed.

Lemma in_fst_zip {A B} (l1 : list A) (l2 : list B) a :
  length l1 = length l2 -> In a l1 -> In a (map fst (zip l1 l2)).
Proof.
  revert l2. induction l1 as [|x l1 IH]; intros [|y l2] Hl Hin;
    cbn in *; try contradiction; try discriminate.
  destruct Hin as [->|Hin]; [left; reflexivity|].
  right. apply IH; [congruence | exact Hin].
Qed.

Lemma customer_map_total (segs : list string) c :
  length segs = n_customers ->
  In c customer_ids ->
  exists seg, getitem (dict_of (zip customer_ids segs)) c = Ok seg.
Proof.
  intros Hl Hc.
  assert (Hids : length customer_ids = length segs).
  { unfold customer_ids. rewrite length_map, length_seq. symmetry. exact Hl. }
  destruct (dict_of_total_from (zip customer_ids segs) ∅ c) as [seg Hseg].
  { left. apply in_fst_zip; assumption. }
  exists seg. unfold getitem, dict_of. rewrite Hseg. reflexivity.
Qed.

Lemma customer_ids_nonempty : customer_ids <> [].
Proof.
  intros H. apply (f_equal (@length string)) in H.
  unfold customer_ids in H. rewrite length_map, length_seq in H.
  revert H. vm_compute. discriminate.
Qed.

Lemma make_DataFrame_ok (c : Columns) :
  forallb (Nat.eqb (length (c_transaction_id c))) (column_lengths c) = true ->
  make_DataFrame c
  = Ok (map (fun i => (i, row_at c i)) (seq 0 (length (c_transaction_id c)))).
Proof. unfold make_DataFrame. intros ->. reflexivity. Qed.

(** For a date range that parses and is not empty, the sampling code
    returns a table of [n_transactions] rows from every generator. *)
Lemma returns_sample_table n sd ed start end_ :
  Dates.datetime64 sd = Ok start ->
  Dates.datetime64 ed = Ok end_ ->
  start <= end_ ->
  returns (sample_table n sd ed) (fun df => length df = n).
Proof.
  intros Hs He Hle. unfold sample_table.
  eapply returns_bind; [apply returns_choice_p_size; reflexivity|].
  intros segs [Lsegs _]. cbv zeta.
  eapply returns_bind; [apply returns_lift_eq; exact Hs|].
  intros ? ->.
  eapply returns_bind; [apply returns_lift_eq; exact He|].
  intros ? ->.
  eapply returns_bind; [apply returns_sample, returns_integers; lia|].
  intros random_days [Ldays _].
  eapply returns_bind; [apply returns_choice_p_size; reflexivity|].
  intros txn_store_ids [Lstores Hstores].
  eapply returns_bind; [apply returns_choice_p_size; reflexivity|].
  intros txn_channels [Lchannels _].
  destruct cat_probs_online_value as (online & Honline & Hcheck).
  eapply returns_bind; [apply returns_lift_eq; exact Honline|].
  intros ? ->.
  eapply returns_bind.
  { apply (returns_for_each _ (fun _ c => In c categories)).
    intros ch _. apply returns_pick_category. exact Hcheck. }
  intros txn_categories Hcats.
  pose proof (List.Forall2_length Hcats) as Lcats.
  rewrite Lchannels in Lcats.
  assert (Hcats' : forall c, In c txn_categories -> In c categories).
  { clear Lcats Lchannels. cbv beta in Hcats.
    induction Hcats as [|ch c0 chs cs H0 _ IH]; intros c Hc.
    - destruct Hc.
    - destruct Hc as [<-|Hc]; [exact H0 | apply IH; exact Hc]. }
  eapply returns_bind.
  { apply (returns_for_each _ (fun _ _ => True)).
    intros c Hc. apply returns_pick_product. auto. }
  intros products Hproducts.
  pose proof (List.Forall2_length Hproducts) as Lproducts.
  eapply returns_bind.
  { apply (returns_for_each _ (fun _ _ => True)).
    intros c _. apply returns_pick_quantity. }
  intros qty Hqty. pose proof (List.Forall2_length Hqty) as Lqty.
  eapply returns_bind.
  { apply (returns_for_each _ (fun _ _ => True)).
    intros c _. apply returns_pick_discount. }
  intros discount Hdiscount.
  pose proof (List.Forall2_length Hdiscount) as Ldiscount.
  eapply returns_bind; [apply returns_choice_size, customer_ids_nonempty|].
  intros txn_customers [Lcustomers Hcustomers].
  eapply returns_bind.
  { apply (returns_for_each _ (fun _ _ => True)).
    intros c Hc. rewrite List.Forall_forall in Hcustomers.
    destruct (customer_map_total segs c Lsegs (Hcustomers c Hc)) as [seg Hseg].
    eapply returns_lift; [exact Hseg | exact I]. }
  intros txn_segments Hsegments.
  pose proof (List.Forall2_length Hsegments) as Lsegments.
  eapply returns_bind.
  { apply (returns_for_each _ (fun _ _ => True)).
    intros c _. apply returns_pick_payment. }
  intros payment_methods Hpayments.
  pose proof (List.Forall2_length Hpayments) as Lpayments.
  eapply returns_bind.
  { apply (returns_for_each _ (fun _ _ => True)).
    intros s Hin. rewrite List.Forall_forall in Hstores.
    destruct (store_locs_total s (Hstores s Hin)) as [loc Hloc].
    eapply returns_lift; [exact Hloc | exact I]. }
  intros locations Hlocations.
  pose proof (List.Forall2_length Hlocations) as Llocations.
  assert (Lnames : length (map fst products) = n)
    by (rewrite length_map; lia).
  assert (Lprices : length (map snd products) = n)
    by (rewrite length_map; lia).
  assert (Ldates : length (map (fun d => start + d) random_days) = n)
    by (rewrite length_map; lia).
  assert (Lgross : length (gross_amounts (map snd products) qty) = n)
    by (unfold gross_amounts; rewrite length_zip_with_same; lia).
  assert (Lnet : length (net_amounts
                           (gross_amounts (map snd products) qty) discount) = n)
    by (unfold net_amounts; rewrite length_zip_with_same; lia).
  eapply returns_bind.
  { eapply (returns_lift _ _ (fun df => length df = n)).
    - apply make_DataFrame_ok. unfold column_lengths.
      cbn [c_transaction_id c_date c_store_id c_store_location
           c_transaction_type c_customer_id c_customer_segment
           c_product_category c_product_name c_unit_price c_quantity
           c_discount_pct c_sales_amount c_payment_method].
      rewrite Lnames, Lprices, Ldates, Lnet, (length_txn_ids n).
      replace (length txn_store_ids) with n by lia.
      replace (length locations) with n by lia.
      replace (length txn_channels) with n by lia.
      replace (length txn_customers) with n by lia.
      replace (length txn_segments) with n by lia.
      replace (length txn_categories) with n by lia.
      replace (length qty) with n by lia.
      replace (length discount) with n by lia.
      replace (length payment_methods) with n by lia.
      cbn [forallb]. rewrite Nat.eqb_refl. reflexivity.
    - cbn [c_transaction_id].
      rewrite length_map, length_seq, length_txn_ids. reflexivity. }
  intros df Hdf. apply returns_ret.
  rewrite (Permutation_length (sort_values_date_perm df)). exact Hdf.
Qed.

(** With a date range that parses and is not empty,
    [generate_urbanmart_sales] returns a table of [n_transactions] rows and
    writes its file, whatever the bit generator, the seed and the count. *)
Lemma generate_returns bg fs out n seed sd ed start end_ :
  Dates.datetime64 sd = Ok start ->
  Dates.datetime64 ed = Ok end_ ->
  start <= end_ ->
  exists df,
    generate_urbanmart_sales bg fs out n seed sd ed
    = Ok (df, to_csv fs df out false)
    /\ length df = n.
Proof.
  intros Hs He Hle.
  destruct (returns_sample_table n sd ed start end_ Hs He Hle
              (default_rng bg seed)) as (df & g' & Hdf & Hlen).
  exists df. unfold generate_urbanmart_sales. rewrite Hdf.
  split; [reflexivity | exact Hlen].
Qed.

(** In particular with the default date range, the year 2024. *)
Lemma generate_returns_default bg fs out n seed :
  exists df,
    generate_urbanmart_sales bg fs out n seed default_start_date
      default_end_date
    = Ok (df, to_csv fs df out false)
    /\ length df = n.
Proof.
  eapply generate_returns; [vm_compute; reflexivity ..|].
  vm_compute. discriminate.
Qed.

End Totality.

(** ** Properties of every generated record *)

Section Records.

Import NumPy Pandas GenerateSales Runs.

Lemma small_run_ok :
  generate_urbanmart_sales mixer ∅ default_out_path 3 default_seed
    default_start_date default_end_date
  = Ok (small_table, to_csv ∅ small_table default_out_path false).
Proof. vm_compute. reflexivity. Qed.

Lemma jacket_run_ok :
  generate_urbanmart_sales (scripted jacket_script) ∅ default_out_path 1
    default_seed default_start_date default_end_date
  = Ok (jacket_table, to_csv ∅ jacket_table default_out_path false).
Proof. vm_compute. reflexivity. Qed.

(** The gross amount of a record. *)
Lemma gross_hundredths n start end_ i r :
  generated n start end_ i r ->
  exists m, 0 <= m
    /\ (unit_price r * inject_Z (quantity r) == inject_Z m / 100)%Q.
Proof.
  intros G.
  destruct (pick_product_price _ _ _ (gen_product _ _ _ _ _ G))
    as (k & Hk & Ek).
  pose proof (pick_quantity_range _ _ (gen_quantity _ _ _ _ _ G)) as Hq.
  exists (k * quantity r). split; [lia|].
  rewrite Ek, inject_Z_mult. field.
Qed.



(** C7.  In every record of a generated table whose channel is "Online",
    the payment method is not "Cash". *)
Theorem online_never_cash bg fs out n seed sd ed df fs' :
  generate_urbanmart_sales bg fs out n seed sd ed = Ok (df, fs') ->
  forall r, In r (records df) ->
    transaction_type r = "Online" -> payment_method r <> "Cash".
Proof.
  intros Hg r Hr.
  destruct (generate_rows _ _ _ _ _ _ _ _ _ _ Hg Hr) as (start & end_ & i & G).
  apply pick_payment_online. exact (gen_payment _ _ _ _ _ G).
Qed.

Lemma online_never_cash_witness :
  generate_urbanmart_sales mixer ∅ default_out_path 3 default_seed
    default_start_date default_end_date
  = Ok (small_table, to_csv ∅ small_table default_out_path false)
  /\ In small_online_row (records small_table)
  /\ transaction_type small_online_row = "Online"
  /\ payment_method small_online_row <> "Cash".
Proof.
  split; [exact small_run_ok|].
  split; [right; left; reflexivity|].
  split; [reflexivity|].
  apply (online_never_cash _ _ _ _ _ _ _ _ _ small_run_ok);
    [right; left; reflexivity | reflexivity].
Defined.

Lemma catalog_items_short cat items :
  catalog_getitem cat = Ok items -> (length items <= 5)%nat.
Proof.
  unfold catalog_getitem, catalog; cbn.
  repeat (destruct (PyStr.eqb cat _); [intros [= <-]; cbn; lia|]).
  discriminate.
Qed.

(** Every entry of a category's catalog can be the product of a
    transaction of that category. *)
Lemma pick_product_reaches cat items name base :
  catalog_getitem cat = Ok items ->
  In (name, base) items ->
  exists price, drawn_by (pick_product cat) (name, price).
Proof.
  intros Hitems Hin.
  apply In_nth_error in Hin as (idx & Hidx).
  assert (Hlt : (idx < length items)%nat)
    by (apply nth_error_Some; congruence).
  pose proof (catalog_items_short _ _ Hitems) as Hshort.
  eexists. exists (constant (Z.of_nat idx)). eexists.
  unfold pick_product, bind, lift. rewrite Hitems.
  unfold integers.
  destruct (Z.leb_spec (Z.of_nat (length items)) 0) as [Hle|_]; [lia|].
  unfold bind, next_uint64, ret, constant; cbn [stream cursor].
  rewrite (Z.mod_small (Z.of_nat idx) (2 ^ 64)) by lia.
  rewrite Z.add_0_l, Z.mod_small, Nat2Z.id, Hidx by lia.
  unfold uniform, bind, random, bind, next_uint64, ret; cbn [stream cursor].
  reflexivity.
Qed.






End Records.

(** ** The persisted file *)

Section PersistedFile.

Import NumPy Pandas GenerateSales Runs.

Lemma generate_table_spec bg fs out n seed sd ed df fs' :
  generate_urbanmart_sales bg fs out n seed sd ed = Ok (df, fs') ->
  exists start end_,
    Dates.datetime64 sd = Ok start
    /\ Dates.datetime64 ed = Ok end_
    /\ Permutation (map fst df) (seq 0 n)
    /\ (forall i r, In (i, r) df -> generated n start end_ i r)
    /\ fs' = <[ out := to_csv_lines df false ]> fs.
Proof.
  intros Hg. pose proof (generate_writes _ _ _ _ _ _ _ _ _ Hg) as Hfs.
  unfold generate_urbanmart_sales in Hg.
  destruct (sample_table n sd ed (default_rng bg seed)) as [[d g]|e] eqn:E;
    [|discriminate].
  injection Hg as <- _.
  apply sample_table_rows in E as (start & end_ & Hs & He & Hp & Hrows).
  exists start, end_.
  split; [exact Hs|]. split; [exact He|]. split; [exact Hp|].
  split; [exact Hrows | exact Hfs].
Qed.

Lemma catalog_names_plain cat items :
  catalog_getitem cat = Ok items ->
  Forall (fun it : string * Q => needs_quote (fst it) = false) items.
Proof.
  unfold catalog_getitem, catalog; cbn.
  repeat (destruct (PyStr.eqb cat _);
          [intros [= <-]; repeat constructor|]).
  discriminate.
Qed.

Lemma customer_ids_plain c : In c customer_ids -> needs_quote c = false.
Proof.
  unfold customer_ids. intros H. apply in_map_iff in H as (i & <- & _).
  rewrite needs_quote_app, needs_quote_zfill by apply needs_quote_str_nat.
  reflexivity.
Qed.

Lemma in_plain (l : list string) s :
  forallb (fun x => negb (needs_quote x)) l = true ->
  In s l -> needs_quote s = false.
Proof.
  intros H Hin. rewrite forallb_forall in H.
  apply H in Hin. destruct (needs_quote s); [discriminate | reflexivity].
Qed.

(** No value of a generated row needs quotes: its cells are its values. *)
Lemma generated_cells n start end_ i r :
  generated n start end_ i r ->
  cells r = raw_cells r
  /\ Forall (fun s => needs_quote s = false) (raw_cells r).
Proof.
  intros G.
  assert (Hid : needs_quote (transaction_id r) = false).
  { rewrite (gen_id _ _ _ _ _ G).
    rewrite needs_quote_app, needs_quote_zfill by apply needs_quote_str_nat.
    reflexivity. }
  assert (Hstore : needs_quote (store_id r) = false)
    by (eapply in_plain; [|exact (gen_store _ _ _ _ _ G)]; reflexivity).
  assert (Hloc : needs_quote (store_location r) = false).
  { pose proof (gen_location _ _ _ _ _ G) as H.
    apply getitem_dict_of in H.
    apply (in_map snd) in H. cbn [snd] in H.
    eapply in_plain; [|exact H]. reflexivity. }
  assert (Hch : needs_quote (transaction_type r) = false)
    by (eapply in_plain; [|exact (gen_channel _ _ _ _ _ G)]; reflexivity).
  assert (Hcust : needs_quote (customer_id r) = false)
    by (apply customer_ids_plain; exact (gen_customer _ _ _ _ _ G)).
  assert (Hseg : needs_quote (customer_segment r) = false)
    by (eapply in_plain; [|exact (gen_segment _ _ _ _ _ G)]; reflexivity).
  assert (Hcat : needs_quote (product_category r) = false)
    by (eapply in_plain; [|exact (gen_category _ _ _ _ _ G)]; reflexivity).
  assert (Hname : needs_quote (product_name r) = false).
  { destruct (pick_product_spec _ _ _ (gen_product _ _ _ _ _ G))
      as (items & idx & base & f & Hitems & _ & Hn & _).
    apply catalog_names_plain in Hitems.
    rewrite List.Forall_forall in Hitems.
    apply nth_error_In, Hitems in Hn. exact Hn. }
  assert (Hpay : needs_quote (payment_method r) = false).
  { destruct (gen_payment _ _ _ _ _ G) as (g & g' & H).
    unfold pick_payment in H. apply choice_p_in in H.
    eapply in_plain; [|exact H]. reflexivity. }
  split.
  - unfold cells, raw_cells.
    rewrite !csv_field_plain by assumption. reflexivity.
  - unfold raw_cells.
    repeat (constructor;
            [first [assumption | apply needs_quote_isoformat
                   | apply needs_quote_repr_float
                   | apply needs_quote_str_int]|]).
    constructor.
Qed.

Lemma header_fields :
  split_csv_line (PyStr.join "," (map csv_field columns)) = columns.
Proof. vm_compute. reflexivity. Qed.




End PersistedFile.

(** ** More about the generated table *)

Section GeneratedTable.

Import NumPy Pandas GenerateSales Runs.

Lemma insert_by_date_sorted r (df : DataFrame) :
  Sorted.Sorted (fun a b => date (snd a) <= date (snd b)) df ->
  Sorted.Sorted (fun a b => date (snd a) <= date (snd b))
                (insert_by_date r df).
Proof.
  induction df as [|x df IH]; intros Hs; cbn [insert_by_date].
  - repeat constructor.
  - destruct (Z.leb_spec (date (snd r)) (date (snd x))) as [Hle|Hgt].
    + constructor; [exact Hs | constructor; exact Hle].
    + inversion Hs as [|? ? Hs' Hhd]; subst.
      constructor; [apply IH; exact Hs'|].
      destruct df as [|y df]; cbn [insert_by_date].
      * constructor. lia.
      * destruct (date (snd r) <=? date (snd y)).
        -- constructor. lia.
        -- inversion Hhd; subst. constructor. assumption.
Qed.

Lemma sort_values_date_sorted (df : DataFrame) :
  Sorted.Sorted (fun a b => date (snd a) <= date (snd b))
                (sort_values_date df).
Proof.
  induction df as [|r df IH]; cbn; [constructor|].
  apply insert_by_date_sorted. exact IH.
Qed.

Ltac simpl_row' :=
  unfold row_at;
  cbn [transaction_id date store_id store_location transaction_type
       customer_id customer_segment product_category product_name
       unit_price quantity discount_pct sales_amount payment_method
       c_transaction_id c_date c_store_id c_store_location
       c_transaction_type c_customer_id c_customer_segment
       c_product_category c_product_name c_unit_price c_quantity
       c_discount_pct c_sales_amount c_payment_method].

Ltac bind_step' H x g Hx :=
  apply bind_ok in H as (x & g & Hx & H); cbv beta zeta in H.

Ltac lift_step' H x Hx :=
  let g := fresh "g" in
  let E := fresh "E" in
  apply bind_ok in H as (x & g & Hx & H); cbv beta zeta in H;
  apply lift_ok in Hx as [Hx E]; subst g.

(** The table is an output of [sort_values], and the segment of every row
    is the entry of its customer in one dictionary, made before any
    transaction is drawn. *)
Lemma sample_table_segments n sd ed g df g' :
  sample_table n sd ed g = Ok (df, g') ->
  (exists df0, df = sort_values_date df0)
  /\ exists segs,
      length segs = n_customers
      /\ forall i r, In (i, r) df ->
           getitem (dict_of (zip customer_ids segs)) (customer_id r)
           = Ok (customer_segment r).
Proof.
  intros H. unfold sample_table in H.
  bind_step' H segs g1 Hsegs.
  lift_step' H start Hstart.
  lift_step' H end_ Hend.
  bind_step' H random_days g2 Hdays.
  bind_step' H txn_store_ids g3 Hstores.
  bind_step' H txn_channels g4 Hchannels.
  lift_step' H online_probs Honline.
  bind_step' H txn_categories g5 Hcats.
  bind_step' H products g6 Hproducts.
  bind_step' H qty g7 Hqty.
  bind_step' H discount g8 Hdiscount.
  bind_step' H txn_customers g9 Hcustomers.
  bind_step' H txn_segments g10 Hsegments.
  bind_step' H payment_methods g11 Hpayments.
  bind_step' H locations g12 Hlocations.
  lift_step' H df0 Hdf.
  apply ret_ok in H as [-> _].
  split; [exists df0; reflexivity|].
  unfold make_DataFrame in Hdf.
  match type of Hdf with
  | (if ?b then _ else _) = _ => destruct b; [|discriminate]
  end.
  injection Hdf as <-. cbn [c_transaction_id] in *.
  rewrite length_txn_ids.
  apply choice_p_size_in in Hsegs as [Lsegs _].
  apply choice_size_in in Hcustomers as [Lcustomers _].
  apply for_each_ok in Hsegments.
  exists segs. split; [exact Lsegs|].
  intros i r Hin.
  eapply Permutation_in in Hin; [|apply sort_values_date_perm].
  apply in_map_iff in Hin as (j & [= -> <-] & Hj).
  apply in_seq in Hj as [_ Hj]. cbn in Hj.
  simpl_row'.
  assert (Hl := Forall2_nth_pair _ _ _ "" "" Hsegments i).
  destruct Hl as (ga & gb & Hl); [lia|].
  apply lift_ok in Hl as [Hl _]. exact Hl.
Qed.

Lemma generate_segments bg fs out n seed sd ed df fs' :
  generate_urbanmart_sales bg fs out n seed sd ed = Ok (df, fs') ->
  Sorted.Sorted (fun a b => date (snd a) <= date (snd b)) df
  /\ exists segs,
      length segs = n_customers
      /\ forall r, In r (records df) ->
           getitem (dict_of (zip customer_ids segs)) (customer_id r)
           = Ok (customer_segment r).
Proof.
  unfold generate_urbanmart_sales.
  destruct (sample_table n sd ed (default_rng bg seed)) as [[d g]|e] eqn:E;
    [|discriminate].
  intros [= <- _].
  apply sample_table_segments in E as ((df0 & ->) & segs & Ls & Hs).
  split; [apply sort_values_date_sorted|].
  exists segs. split; [exact Ls|].
  intros r Hr. apply in_map_iff in Hr as ([i r'] & <- & Hin).
  eapply Hs. exact Hin.
Qed.

Lemma Sorted_records (df : DataFrame) :
  Sorted.Sorted (fun a b => date (snd a) <= date (snd b)) df ->
  Sorted.Sorted (fun a b => date a <= date b) (records df).
Proof.
  induction 1 as [|x l _ IH Hhd]; cbn; constructor; [exact IH|].
  destruct Hhd; cbn; constructor. assumption.
Qed.

(** X1.  The rows of a generated table are in ascending order of date, and
    their index labels are the positions [0 .. n-1] of the unsorted table,
    each once. *)
Theorem rows_sorted_by_date bg fs out n seed sd ed df fs' :
  generate_urbanmart_sales bg fs out n seed sd ed = Ok (df, fs') ->
  Sorted.Sorted (fun a b => date a <= date b) (records df)
  /\ Permutation (map fst df) (seq 0 n)
  /\ length (records df) = n.
Proof.
  intros Hg.
  destruct (generate_segments _ _ _ _ _ _ _ _ _ Hg) as [Hs _].
  destruct (generate_table_spec _ _ _ _ _ _ _ _ _ Hg)
    as (start & end_ & _ & _ & Hp & _).
  split; [apply Sorted_records; exact Hs|]. split; [exact Hp|].
  unfold records. rewrite length_map, <- (length_map fst df).
  rewrite (Permutation_length Hp). apply length_seq.
Qed.

Lemma rows_sorted_by_date_witness :
  generate_urbanmart_sales mixer ∅ default_out_path 3 default_seed
    default_start_date default_end_date
  = Ok (small_table, to_csv ∅ small_table default_out_path false)
  /\ Sorted.Sorted (fun a b => date a <= date b) (records small_table)
  /\ Permutation (map fst small_table) (seq 0 3)
  /\ length (records small_table) = 3%nat.
Proof.
  split; [exact small_run_ok|].
  exact (rows_sorted_by_date _ _ _ _ _ _ _ _ _ small_run_ok).
Defined.



Lemma unique_key_value {A B} (l : list (A * B)) k v1 v2 :
  List.NoDup (map fst l) -> In (k, v1) l -> In (k, v2) l -> v1 = v2.
Proof.
  induction l as [|[k0 v0] l IH]; cbn; intros Hnd H1 H2; [contradiction|].
  apply List.NoDup_cons_iff in Hnd as [Hnotin Hnd].
  destruct H1 as [H1|H1], H2 as [H2|H2].
  - congruence.
  - exfalso. apply Hnotin. injection H1 as -> _.
    apply (in_map fst) in H2. exact H2.
  - exfalso. apply Hnotin. injection H2 as -> _.
    apply (in_map fst) in H1. exact H1.
  - apply IH; assumption.
Qed.

(** X3.  In every record, [store_location] is the location that the store table
    gives to [store_id], and the table gives it no other. *)
Theorem store_location_matches_table bg fs out n seed sd ed df fs' :
  generate_urbanmart_sales bg fs out n seed sd ed = Ok (df, fs') ->
  forall r, In r (records df) ->
    In (store_id r, store_location r) stores
    /\ forall loc, In (store_id r, loc) stores -> loc = store_location r.
Proof.
  intros Hg r Hr.
  destruct (generate_rows _ _ _ _ _ _ _ _ _ _ Hg Hr) as (start & end_ & i & G).
  pose proof (gen_location _ _ _ _ _ G) as Hloc.
  apply getitem_dict_of in Hloc. split; [exact Hloc|].
  intros loc Hin.
  eapply (unique_key_value stores); [|exact Hin | exact Hloc].
  unfold stores; cbn.
  repeat (constructor; [cbn; intuition discriminate|]). constructor.
Qed.

Lemma store_location_matches_table_witness :
  generate_urbanmart_sales mixer ∅ default_out_path 3 default_seed
    default_start_date default_end_date
  = Ok (small_table, to_csv ∅ small_table default_out_path false)
  /\ forall r, In r (records small_table) ->
      In (store_id r, store_location r) stores
      /\ forall loc, In (store_id r, loc) stores -> loc = store_location r.
Proof.
  split; [exact small_run_ok|].
  exact (store_location_matches_table _ _ _ _ _ _ _ _ _ small_run_ok).
Defined.

(** X4.  The segment of a customer is fixed: two records of a generated table
    with the same [customer_id] have the same [customer_segment], which is
    one of the three segments. *)
Theorem segment_fixed_per_customer bg fs out n seed sd ed df fs' :
  generate_urbanmart_sales bg fs out n seed sd ed = Ok (df, fs') ->
  forall r1 r2, In r1 (records df) -> In r2 (records df) ->
    In (customer_segment r1) segments
    /\ (customer_id r1 = customer_id r2 ->
        customer_segment r1 = customer_segment r2).
Proof.
  intros Hg r1 r2 H1 H2.
  destruct (generate_rows _ _ _ _ _ _ _ _ _ _ Hg H1) as (start & end_ & i & G).
  split; [exact (gen_segment _ _ _ _ _ G)|].
  destruct (generate_segments _ _ _ _ _ _ _ _ _ Hg) as [_ (segs & _ & Hs)].
  intros E. pose proof (Hs r1 H1) as E1. pose proof (Hs r2 H2) as E2.
  rewrite E in E1. congruence.
Qed.

Lemma segment_fixed_per_customer_witness :
  generate_urbanmart_sales mixer ∅ default_out_path 3 default_seed
    default_start_date default_end_date
  = Ok (small_table, to_csv ∅ small_table default_out_path false)
  /\ forall r1 r2,
      In r1 (records small_table) -> In r2 (records small_table) ->
      In (customer_segment r1) segments
      /\ (customer_id r1 = customer_id r2 ->
          customer_segment r1 = customer_segment r2).
Proof.
  split; [exact small_run_ok|].
  exact (segment_fixed_per_customer _ _ _ _ _ _ _ _ _ small_run_ok).
Defined.

(** X5.  The quantity of a record is between 1 and 5 for groceries, beverages,
    household and personal care, between 1 and 3 for clothing and 1 or 2
    for electronics. *)
Theorem quantity_range_by_category bg fs out n seed sd ed df fs' :
  generate_urbanmart_sales bg fs out n seed sd ed = Ok (df, fs') ->
  forall r, In r (records df) ->
    (In (product_category r)
        ["Groceries"; "Beverages"; "Household"; "Personal Care"] ->
     1 <= quantity r <= 5)
    /\ (product_category r = "Clothing" -> 1 <= quantity r <= 3)
    /\ (product_category r = "Electronics" -> 1 <= quantity r <= 2).
Proof.
  intros Hg r Hr.
  destruct (generate_rows _ _ _ _ _ _ _ _ _ _ Hg Hr) as (start & end_ & i & G).
  destruct (gen_quantity _ _ _ _ _ G) as (g & g' & Hq).
  split; [|split]; intros Hc.
  - apply (pick_quantity_range (product_category r)). exists g, g'. exact Hq.
  - rewrite Hc in Hq. unfold pick_quantity in Hq. cbn -[integers] in Hq.
    apply integers_range in Hq. lia.
  - rewrite Hc in Hq. unfold pick_quantity in Hq. cbn -[integers] in Hq.
    apply integers_range in Hq. lia.
Qed.

Lemma quantity_range_by_category_witness :
  generate_urbanmart_sales mixer ∅ default_out_path 3 default_seed
    default_start_date default_end_date
  = Ok (small_table, to_csv ∅ small_table default_out_path false)
  /\ forall r, In r (records small_table) ->
      (In (product_category r)
          ["Groceries"; "Beverages"; "Household"; "Personal Care"] ->
       1 <= quantity r <= 5)
      /\ (product_category r = "Clothing" -> 1 <= quantity r <= 3)
      /\ (product_category r = "Electronics" -> 1 <= quantity r <= 2).
Proof.
  split; [exact small_run_ok|].
  exact (quantity_range_by_category _ _ _ _ _ _ _ _ _ small_run_ok).
Defined.

(** X6.  The discount of a record is one of the levels of its category:
    0, 5 or 10% for groceries; up to 15% for beverages, household and
    personal care; 0, 10, 20 or 30% for clothing; up to 20% in steps of 5
    for electronics. *)
Theorem discount_levels_by_category bg fs out n seed sd ed df fs' :
  generate_urbanmart_sales bg fs out n seed sd ed = Ok (df, fs') ->
  forall r, In r (records df) ->
    (product_category r = "Groceries" ->
     In (discount_pct r) [0; 0.05; 0.10]%Q)
    /\ (In (product_category r) ["Beverages"; "Household"; "Personal Care"] ->
        In (discount_pct r) [0; 0.05; 0.10; 0.15]%Q)
    /\ (product_category r = "Clothing" ->
        In (discount_pct r) [0; 0.10; 0.20; 0.30]%Q)
    /\ (product_category r = "Electronics" ->
        In (discount_pct r) [0; 0.05; 0.10; 0.15; 0.20]%Q).
Proof.
  intros Hg r Hr.
  destruct (generate_rows _ _ _ _ _ _ _ _ _ _ Hg Hr) as (start & end_ & i & G).
  destruct (gen_discount _ _ _ _ _ G) as (g & g' & Hd).
  split; [|split; [|split]]; intros Hc.
  - rewrite Hc in Hd. unfold pick_discount in Hd. cbn -[choice_p] in Hd.
    apply choice_p_in in Hd. exact Hd.
  - assert (E : PyStr.eqb (product_category r) "Groceries" = false
                /\ PyStr.mem (product_category r)
                     ["Beverages"; "Household"; "Personal Care"] = true).
    { cbn in Hc. destruct Hc as [<-|[<-|[<-|[]]]]; split; reflexivity. }
    destruct E as [E1 E2].
    unfold pick_discount in Hd. rewrite E1, E2 in Hd.
    apply choice_p_in in Hd. exact Hd.
  - rewrite Hc in Hd. unfold pick_discount in Hd. cbn -[choice_p] in Hd.
    apply choice_p_in in Hd. exact Hd.
  - rewrite Hc in Hd. unfold pick_discount in Hd. cbn -[choice_p] in Hd.
    apply choice_p_in in Hd. exact Hd.
Qed.

Lemma discount_levels_by_category_witness :
  generate_urbanmart_sales mixer ∅ default_out_path 3 default_seed
    default_start_date default_end_date
  = Ok (small_table, to_csv ∅ small_table default_out_path false)
  /\ forall r, In r (records small_table) ->
      (product_category r = "Groceries" ->
       In (discount_pct r) [0; 0.05; 0.10]%Q)
      /\ (In (product_category r)
             ["Beverages"; "Household"; "Personal Care"] ->
          In (discount_pct r) [0; 0.05; 0.10; 0.15]%Q)
      /\ (product_category r = "Clothing" ->
          In (discount_pct r) [0; 0.10; 0.20; 0.30]%Q)
      /\ (product_category r = "Electronics" ->
          In (discount_pct r) [0; 0.05; 0.10; 0.15; 0.20]%Q).
Proof.
  split; [exact small_run_ok|].
  exact (discount_levels_by_category _ _ _ _ _ _ _ _ _ small_run_ok).
Defined.

(** X7.  Every categorical field of a record takes one of the values listed in
    the generator: six stores, two channels, six categories, three
    segments, four payment methods (three of them online), and a customer
    of the pool [C00001 .. C05000]. *)
Theorem fields_take_listed_values bg fs out n seed sd ed df fs' :
  generate_urbanmart_sales bg fs out n seed sd ed = Ok (df, fs') ->
  forall r, In r (records df) ->
    In (store_id r) ["S001"; "S002"; "S003"; "S004"; "S005"; "S006"]
    /\ In (transaction_type r) ["Online"; "In-store"]
    /\ In (product_category r)
          ["Groceries"; "Beverages"; "Household"; "Personal Care";
           "Electronics"; "Clothing"]
    /\ In (customer_segment r) ["Budget"; "Regular"; "Premium"]
    /\ In (payment_method r) ["Card"; "Cash"; "Wallet"; "UPI"]
    /\ (transaction_type r = "Online" ->
        In (payment_method r) ["Card"; "Wallet"; "UPI"])
    /\ exists k, (1 <= k <= 5000)%nat
         /\ customer_id r = ("C" ++ PyStr.zfill 5 (PyStr.str_nat k))%string.
Proof.
  intros Hg r Hr.
  destruct (generate_rows _ _ _ _ _ _ _ _ _ _ Hg Hr) as (start & end_ & i & G).
  split; [exact (gen_store _ _ _ _ _ G)|].
  split; [exact (gen_channel _ _ _ _ _ G)|].
  split; [exact (gen_category _ _ _ _ _ G)|].
  split; [exact (gen_segment _ _ _ _ _ G)|].
  assert (Hpay : In (payment_method r) pm).
  { destruct (gen_payment _ _ _ _ _ G) as (g & g' & H).
    unfold pick_payment in H. apply choice_p_in in H. exact H. }
  split; [exact Hpay|]. split.
  - intros Hon.
    pose proof (pick_payment_online _ _ (gen_payment _ _ _ _ _ G) Hon) as Hne.
    unfold pm in Hpay. cbn in Hpay |- *.
    destruct Hpay as [H|[H|[H|[H|[]]]]]; auto.
  - pose proof (gen_customer _ _ _ _ _ G) as Hc.
    unfold customer_ids in Hc. apply in_map_iff in Hc as (k & <- & Hk).
    apply in_seq in Hk. exists k. split; [|reflexivity].
    change n_customers with (Z.to_nat 5000) in Hk.
    change 5000%nat with (Z.to_nat 5000). lia.
Qed.

Lemma fields_take_listed_values_witness :
  generate_urbanmart_sales mixer ∅ default_out_path 3 default_seed
    default_start_date default_end_date
  = Ok (small_table, to_csv ∅ small_table default_out_path false)
  /\ forall r, In r (records small_table) ->
      In (store_id r) ["S001"; "S002"; "S003"; "S004"; "S005"; "S006"]
      /\ In (transaction_type r) ["Online"; "In-store"]
      /\ In (product_category r)
            ["Groceries"; "Beverages"; "Household"; "Personal Care";
             "Electronics"; "Clothing"]
      /\ In (customer_segment r) ["Budget"; "Regular"; "Premium"]
      /\ In (payment_method r) ["Card"; "Cash"; "Wallet"; "UPI"]
      /\ (transaction_type r = "Online" ->
          In (payment_method r) ["Card"; "Wallet"; "UPI"])
      /\ exists k, (1 <= k <= 5000)%nat
           /\ customer_id r
              = ("C" ++ PyStr.zfill 5 (PyStr.str_nat k))%string.
Proof.
  split; [exact small_run_ok|].
  exact (fields_take_listed_values _ _ _ _ _ _ _ _ _ small_run_ok).
Defined.

(** *** Transaction identifiers *)

Lemma digits_val_uint (d : Decimal.uint) :
  forall acc, 0 <= acc ->
    Dates.digits_val acc (list_ascii_of_string (NilEmpty.string_of_uint d))
    = Some (Z.of_nat (Nat.of_uint_acc d (Z.to_nat acc))).
Proof.
  induction d; intros acc Hacc;
    cbn [NilEmpty.string_of_uint list_ascii_of_string Dates.digits_val
         Nat.of_uint_acc].
  1: rewrite Z2Nat.id by lia; reflexivity.
  all: match goal with
       | |- context [Dates.digit_val ?c] =>
           let v := eval vm_compute in (Dates.digit_val c) in
           change (Dates.digit_val c) with v
       end;
    cbv iota; rewrite IHd by lia; do 3 f_equal;
    rewrite Nat.tail_mul_spec; lia.
Qed.

(** The decimal text of a natural number reads back as the number. *)
Lemma digits_val_str_nat (n : nat) :
  Dates.digits_val 0 (list_ascii_of_string (PyStr.str_nat n))
  = Some (Z.of_nat n).
Proof.
  unfold PyStr.str_nat, NilZero.string_of_uint.
  destruct (Nat.to_uint n) eqn:E;
    try (rewrite <- E, digits_val_uint by lia;
         change (Z.to_nat 0) with O;
         change (Nat.of_uint_acc (Nat.to_uint n) 0)
           with (Nat.of_uint (Nat.to_uint n));
         rewrite DecimalNat.Unsigned.of_to; reflexivity).
  pose proof (DecimalNat.Unsigned.of_to n) as H. rewrite E in H.
  cbn in H. subst n. reflexivity.
Qed.

Lemma digits_val_zeros (k : nat) (s : string) :
  Dates.digits_val 0
    (list_ascii_of_string (String.append (PyStr.repeat_char "0" k) s))
  = Dates.digits_val 0 (list_ascii_of_string s).
Proof.
  induction k as [|k IH]; [reflexivity|].
  cbn [PyStr.repeat_char]. rewrite string_app_cons.
  cbn [list_ascii_of_string Dates.digits_val].
  change (Dates.digit_val "0") with (Some 0). cbv iota.
  change (10 * 0 + 0) with 0. exact IH.
Qed.

Lemma txn_id_number (i : nat) :
  exists tl,
    ("T" ++ PyStr.zfill 7 (PyStr.str_nat (S i)))%string = String "T" tl
    /\ Dates.digits_val 0 (list_ascii_of_string tl) = Some (Z.of_nat (S i)).
Proof.
  exists (PyStr.zfill 7 (PyStr.str_nat (S i))). split; [reflexivity|].
  unfold PyStr.zfill. rewrite digits_val_zeros. apply digits_val_str_nat.
Qed.

Lemma txn_id_inj (i j : nat) :
  ("T" ++ PyStr.zfill 7 (PyStr.str_nat (S i)))%string
  = ("T" ++ PyStr.zfill 7 (PyStr.str_nat (S j)))%string ->
  i = j.
Proof.
  intros E.
  destruct (txn_id_number i) as (ti & Ei & Di).
  destruct (txn_id_number j) as (tj & Ej & Dj).
  rewrite Ei, Ej in E. injection E as E. rewrite E in Di.
  rewrite Di in Dj. injection Dj as Dj. lia.
Qed.

Lemma transaction_ids_nodup bg fs out n seed sd ed df fs' :
  generate_urbanmart_sales bg fs out n seed sd ed = Ok (df, fs') ->
  List.NoDup (map transaction_id (records df)).
Proof.
  intros Hg.
  destruct (generate_table_spec _ _ _ _ _ _ _ _ _ Hg)
    as (start & end_ & _ & _ & Hp & Hrows & _).
  assert (Hnd : List.NoDup (map fst df)).
  { eapply Permutation_NoDup; [symmetry; exact Hp | apply seq_NoDup]. }
  unfold records.
  assert (Hid : forall i r, In (i, r) df ->
            transaction_id r
            = ("T" ++ PyStr.zfill 7 (PyStr.str_nat (S i)))%string)
    by (intros i r Hin; exact (gen_id _ _ _ _ _ (Hrows _ _ Hin))).
  clear Hp Hrows Hg. induction df as [|[i r] df IH]; cbn; [constructor|].
  cbn in Hnd. apply List.NoDup_cons_iff in Hnd as [Hnotin Hnd].
  constructor.
  - intros Hin. apply in_map_iff in Hin as (r' & E & Hin').
    apply in_map_iff in Hin' as ([j r''] & <- & Hin'').
    cbn [snd] in E.
    rewrite (Hid j r'') in E by (right; exact Hin'').
    rewrite (Hid i r) in E by (left; reflexivity).
    apply txn_id_inj in E. subst j.
    apply Hnotin. apply (in_map fst) in Hin''. exact Hin''.
  - apply IH; [exact Hnd|].
    intros j r' Hin. apply Hid. right. exact Hin.
Qed.

(** X8.  The identifier of a record is [T] followed by its 1-based position in
    the unsorted table, padded with zeros to seven digits; the digits read
    back as that position, and no two records share an identifier. *)
Theorem transaction_ids_unique bg fs out n seed sd ed df fs' :
  generate_urbanmart_sales bg fs out n seed sd ed = Ok (df, fs') ->
  List.NoDup (map transaction_id (records df))
  /\ forall i r, In (i, r) df ->
       (i < n)%nat
       /\ transaction_id r
          = ("T" ++ PyStr.zfill 7 (PyStr.str_nat (S i)))%string
       /\ exists tl,
           transaction_id r = String "T" tl
           /\ Dates.digits_val 0 (list_ascii_of_string tl)
              = Some (Z.of_nat (S i)).
Proof.
  intros Hg. split; [eapply transaction_ids_nodup; exact Hg|].
  destruct (generate_table_spec _ _ _ _ _ _ _ _ _ Hg)
    as (start & end_ & _ & _ & Hp & Hrows & _).
  intros i r Hin. pose proof (Hrows _ _ Hin) as G.
  split; [exact (gen_index _ _ _ _ _ G)|].
  split; [exact (gen_id _ _ _ _ _ G)|].
  rewrite (gen_id _ _ _ _ _ G). apply txn_id_number.
Qed.

Lemma transaction_ids_unique_witness :
  generate_urbanmart_sales mixer ∅ default_out_path 3 default_seed
    default_start_date default_end_date
  = Ok (small_table, to_csv ∅ small_table default_out_path false)
  /\ List.NoDup (map transaction_id (records small_table))
  /\ forall i r, In (i, r) small_table ->
       (i < 3)%nat
       /\ transaction_id r
          = ("T" ++ PyStr.zfill 7 (PyStr.str_nat (S i)))%string
       /\ exists tl,
           transaction_id r = String "T" tl
           /\ Dates.digits_val 0 (list_ascii_of_string tl)
              = Some (Z.of_nat (S i)).
Proof.
  split; [exact small_run_ok|].
  exact (transaction_ids_unique _ _ _ _ _ _ _ _ _ small_run_ok).
Defined.

(** *** Returning, and failing *)

Lemma bind_of_ok {A B} (m : Rand A) (k : A -> Rand B) g a g1 :
  m g = Ok (a, g1) -> bind m k g = k a g1.
Proof. intros H. unfold bind. rewrite H. reflexivity. Qed.

Lemma bind_of_raise {A B} (m : Rand A) (k : A -> Rand B) g e :
  m g = Raise e -> bind m k g = Raise e.
Proof. intros H. unfold bind. rewrite H. reflexivity. Qed.

Lemma lift_of_ok {A} (r : result A) (a : A) g :
  r = Ok a -> lift r g = Ok (a, g).
Proof. intros ->. reflexivity. Qed.





(** X11.  When [end_date] is before [start_date], drawing the day offsets of one
    or more transactions raises [ValueError] (the range of
    [integers(0, days)] is empty), and no file is written. *)
Theorem reversed_range_raises bg fs out n seed sd ed start end_ :
  Dates.datetime64 sd = Ok start ->
  Dates.datetime64 ed = Ok end_ ->
  end_ < start ->
  (0 < n)%nat ->
  generate_urbanmart_sales bg fs out n seed sd ed = Raise ValueError.
Proof.
  intros Hs He Hlt Hn. unfold generate_urbanmart_sales, sample_table.
  destruct (returns_choice_p_size segments n_customers segment_probs
              eq_refl (default_rng bg seed)) as (segs & g1 & Hsegs & _).
  rewrite (bind_of_ok _ _ _ _ _ Hsegs). cbv beta zeta.
  rewrite (bind_of_ok _ _ _ _ _ (lift_of_ok _ _ g1 Hs)).
  rewrite (bind_of_ok _ _ _ _ _ (lift_of_ok _ _ g1 He)).
  rewrite bind_of_raise with (e := ValueError); [reflexivity|].
  destruct n as [|n]; [lia|]. cbn [sample].
  apply bind_of_raise. unfold integers.
  destruct (Z.leb_spec (end_ - start + 1) 0); [reflexivity | lia].
Qed.

Lemma reversed_range_raises_witness :
  Dates.datetime64 default_end_date = Ok 20088
  /\ Dates.datetime64 default_start_date = Ok 19723
  /\ 19723 < 20088
  /\ (0 < 1)%nat
  /\ generate_urbanmart_sales mixer ∅ default_out_path 1 default_seed
       default_end_date default_start_date
     = Raise ValueError.
Proof.
  split; [vm_compute; reflexivity|].
  split; [vm_compute; reflexivity|].
  split; [lia|]. split; [lia|].
  apply (reversed_range_raises mixer ∅ default_out_path 1 default_seed
           default_end_date default_start_date 20088 19723);
    [vm_compute; reflexivity | vm_compute; reflexivity | lia | lia].
Defined.

(** *** Reading the file back *)

Lemma read_csv_written bg fs out n seed sd ed df fs' :
  generate_urbanmart_sales bg fs out n seed sd ed = Ok (df, fs') ->
  read_csv fs' out
  = Ok {| raw_columns := columns;
          raw_rows := map raw_cells (records df) |}.
Proof.
  intros Hg.
  apply generate_table_spec in Hg
    as (start & end_ & Hs & He & Hp & Hrows & ->).
  unfold read_csv. rewrite lookup_insert_eq. unfold to_csv_lines.
  cbn [app]. rewrite header_fields. do 2 f_equal.
  unfold records. rewrite !map_map.
  clear Hp. induction df as [|[i r] df IH]; [reflexivity|].
  cbn [map snd]. f_equal.
  - assert (G : generated n start end_ i r) by (apply Hrows; left; reflexivity).
    destruct (generated_cells _ _ _ _ _ G) as [Hc Hplain].
    rewrite Hc. apply split_csv_line_join; [discriminate | exact Hplain].
  - apply IH. intros j r' Hin. apply Hrows. right. exact Hin.
Qed.

(** X12.  [read_csv] on the file that a run has written returns the fourteen
    column names and, row for row, the text of the fourteen values of the
    table: nothing is quoted, split or lost on the way. *)
Theorem written_file_reads_back bg fs out n seed sd ed df fs' :
  generate_urbanmart_sales bg fs out n seed sd ed = Ok (df, fs') ->
  read_csv fs' out
  = Ok {| raw_columns := columns;
          raw_rows := map raw_cells (records df) |}
  /\ length (map raw_cells (records df)) = n
  /\ Forall (fun cs => length cs = 14%nat) (map raw_cells (records df)).
Proof.
  intros Hg. split; [eapply read_csv_written; exact Hg|].
  destruct (generate_table_spec _ _ _ _ _ _ _ _ _ Hg)
    as (start & end_ & _ & _ & Hp & _).
  split.
  - unfold records. rewrite !length_map, <- (length_map fst df).
    rewrite (Permutation_length Hp). apply length_seq.
  - apply List.Forall_forall. intros cs Hin.
    apply in_map_iff in Hin as (r & <- & _). reflexivity.
Qed.

Lemma written_file_reads_back_witness :
  generate_urbanmart_sales mixer ∅ default_out_path 3 default_seed
    default_start_date default_end_date
  = Ok (small_table, to_csv ∅ small_table default_out_path false)
  /\ read_csv (to_csv ∅ small_table default_out_path false) default_out_path
     = Ok {| raw_columns := columns;
             raw_rows := map raw_cells (records small_table) |}
  /\ length (map raw_cells (records small_table)) = 3%nat
  /\ Forall (fun cs => length cs = 14%nat)
            (map raw_cells (records small_table)).
Proof.
  split; [exact small_run_ok|].
  exact (written_file_reads_back _ _ _ _ _ _ _ _ _ small_run_ok).
Defined.

(** *** Bounds on prices and amounts *)

Lemma rint_mono (x y : Q) : (x <= y)%Q -> rint x <= rint y.
Proof.
  intros Hxy.
  pose proof (rint_bounds x) as Bx. pose proof (rint_bounds y) as By.
  pose proof (Qfloor_resp_le _ _ Hxy) as Hf.
  destruct (Z.eq_dec (Qfloor x) (Qfloor y)) as [E|N]; [|lia].
  unfold rint. rewrite E.
  destruct (x - inject_Z (Qfloor y) ?= 1 # 2)%Q eqn:Cx;
    destruct (y - inject_Z (Qfloor y) ?= 1 # 2)%Q eqn:Cy;
    try lia; try (destruct (Z.even (Qfloor y)); lia);
    first [apply Qeq_alt in Cx | apply Qlt_alt in Cx | apply Qgt_alt in Cx];
    first [apply Qeq_alt in Cy | apply Qlt_alt in Cy | apply Qgt_alt in Cy];
    exfalso; lra.
Qed.

Lemma round2_mono (x y : Q) : (x <= y)%Q -> (round2 x <= round2 y)%Q.
Proof.
  intros Hxy. assert (H : rint (x * 100) <= rint (y * 100))
    by (apply rint_mono; lra).
  unfold round2, Qle; cbn. lia.
Qed.

Lemma catalog_prices_range cat items :
  catalog_getitem cat = Ok items ->
  Forall (fun it : string * Q => (2.5 <= snd it)%Q /\ (snd it <= 70)%Q) items.
Proof.
  unfold catalog_getitem, catalog; cbn.
  repeat (destruct (PyStr.eqb cat _);
          [intros [= <-];
           repeat (constructor; [split; unfold Qle; cbn; lia|]);
           constructor|]).
  discriminate.
Qed.



End GeneratedTable.

(** ** The analysis script *)

Section AnalysisScript.

Import NumPy Pandas GenerateSales Analysis AnalysisMain Runs.

Lemma lstrip_spaces (pre s : string) :
  all_space pre = true ->
  PyStr.lstrip (String.append pre s) = PyStr.lstrip s.
Proof.
  induction pre as [|c pre IH]; intros H; [reflexivity|].
  cbn [all_space] in H. apply andb_prop in H as [Hc Hpre].
  rewrite string_app_cons. cbn [PyStr.lstrip]. rewrite Hc. apply IH, Hpre.
Qed.

Lemma rstrip_all_space (post : string) :
  all_space post = true -> PyStr.rstrip post = "".
Proof.
  induction post as [|c post IH]; intros H; [reflexivity|].
  cbn [all_space] in H. apply andb_prop in H as [Hc Hpost].
  cbn [PyStr.rstrip]. rewrite (IH Hpost), Hc. reflexivity.
Qed.

Lemma rstrip_spaces (s post : string) :
  all_space post = true ->
  PyStr.rstrip (String.append s post) = PyStr.rstrip s.
Proof.
  intros H. induction s as [|c s IH].
  - change (String.append "" post) with post.
    rewrite rstrip_all_space by exact H. reflexivity.
  - rewrite string_app_cons. cbn [PyStr.rstrip]. rewrite IH. reflexivity.
Qed.

Lemma lstrip_all_space (s : string) :
  all_space s = true -> PyStr.lstrip s = "".
Proof.
  induction s as [|c s IH]; intros H; [reflexivity|].
  cbn [all_space] in H. apply andb_prop in H as [Hc Hs].
  cbn [PyStr.lstrip]. rewrite Hc. apply IH, Hs.
Qed.

Lemma strip_spaces_right (s post : string) :
  all_space post = true ->
  PyStr.rstrip (PyStr.lstrip (String.append s post))
  = PyStr.rstrip (PyStr.lstrip s).
Proof.
  intros H. induction s as [|c s IH].
  - change (String.append "" post) with post.
    rewrite (lstrip_all_space _ H). reflexivity.
  - rewrite string_app_cons. cbn [PyStr.lstrip].
    destruct (PyStr.isspace c); [exact IH|].
    rewrite <- string_app_cons. apply rstrip_spaces. exact H.
Qed.

Lemma strip_padded (pre s post : string) :
  all_space pre = true -> all_space post = true ->
  PyStr.strip (String.append pre (String.append s post)) = PyStr.strip s.
Proof.
  intros Hpre Hpost. unfold PyStr.strip.
  rewrite lstrip_spaces by exact Hpre. apply strip_spaces_right, Hpost.
Qed.

(** X14.  White space around an entry does not change what the loop does with
    it: a padded spelling is counted like the spelling itself. *)
Theorem counter_ignores_padding (c : counts) (pre s post : string) :
  all_space pre = true -> all_space post = true ->
  count_step c (PyStr (String.append pre (String.append s post)))
  = count_step c (PyStr s).
Proof.
  intros Hpre Hpost. unfold count_step. cbn [isinstance_str method_strip].
  rewrite strip_padded by assumption. reflexivity.
Qed.

Lemma counter_ignores_padding_witness :
  all_space "  " = true /\ all_space " " = true
  /\ count_step {| online_count := 0; instore_count := 0 |}
       (PyStr (String.append "  " (String.append "In Store" " ")))
     = count_step {| online_count := 0; instore_count := 0 |}
         (PyStr "In Store").
Proof.
  split; [reflexivity|]. split; [reflexivity|].
  apply counter_ignores_padding; reflexivity.
Defined.

Lemma count_step_closed (c : counts) (t : pyobj) :
  count_step c t
  = Ok {| online_count :=
            online_count c + (if counts_as_online t then 1 else 0);
          instore_count :=
            instore_count c + (if counts_as_instore t then 1 else 0) |}.
Proof.
  destruct c as [o i].
  destruct t as [s| |z|]; unfold count_step;
    cbn [isinstance_str method_strip method_lower rbind counts_as_online
         counts_as_instore online_count instore_count py_eq_str];
    try (rewrite !Nat.add_0_r; reflexivity).
  destruct (PyStr.eqb (PyStr.lower (PyStr.strip s)) "online") eqn:E.
  - assert (H : PyStr.mem (PyStr.lower (PyStr.strip s))
                  ["in-store"; "instore"; "in store"] = false).
    { apply String.eqb_eq in E. rewrite E. reflexivity. }
    rewrite H, Nat.add_0_r, Nat.add_1_r. reflexivity.
  - change (py_in_strs (PyStr ?x) ?l) with (PyStr.mem x l).
    destruct (PyStr.mem _ _);
      rewrite ?Nat.add_0_r, ?Nat.add_1_r; reflexivity.
Qed.

Lemma count_loop_closed (l : list pyobj) :
  forall c,
    count_loop c l
    = Ok {| online_count :=
              online_count c + length (List.filter counts_as_online l);
            instore_count :=
              instore_count c + length (List.filter counts_as_instore l) |}.
Proof.
  induction l as [|t l IH]; intros [o i];
    cbn [count_loop List.filter length online_count instore_count].
  - rewrite !Nat.add_0_r. reflexivity.
  - rewrite count_step_closed. cbn [rbind online_count instore_count].
    rewrite IH. cbn [online_count instore_count].
    destruct (counts_as_online t), (counts_as_instore t); cbn [length];
      f_equal; f_equal; lia.
Qed.

(** X15.  The loop is a count: it returns the number of entries whose text,
    stripped and in lower case, is "online", and the number of those whose
    text is "in-store", "instore" or "in store".  No entry is counted
    twice, so the two counts together never exceed the length of the
    list. *)
Theorem manual_counts_closed_form (l : list pyobj) :
  manual_counts l
  = Ok {| online_count := length (List.filter counts_as_online l);
          instore_count := length (List.filter counts_as_instore l) |}
  /\ (forall t, counts_as_online t && counts_as_instore t = false)
  /\ (length (List.filter counts_as_online l)
      + length (List.filter counts_as_instore l) <= length l)%nat.
Proof.
  assert (Hdisj : forall t, counts_as_online t && counts_as_instore t = false).
  { intros [s| |z|]; try reflexivity. cbn.
    destruct (PyStr.eqb (PyStr.lower (PyStr.strip s)) "online") eqn:E;
      [|reflexivity].
    apply String.eqb_eq in E. rewrite E. reflexivity. }
  split; [unfold manual_counts; rewrite count_loop_closed; reflexivity|].
  split; [exact Hdisj|].
  induction l as [|t l IH]; cbn [List.filter length]; [lia|].
  pose proof (Hdisj t) as Ht.
  destruct (counts_as_online t), (counts_as_instore t); cbn [length] in *;
    try discriminate; lia.
Qed.

Lemma channel_cell_counts (t : string) :
  In t channels ->
  counts_as_online (object_cell t) = String.eqb t "Online"
  /\ counts_as_instore (object_cell t) = String.eqb t "In-store"
  /\ xorb (String.eqb t "Online") (String.eqb t "In-store") = true.
Proof.
  unfold channels. intros [<-|[<-|[]]]; repeat split; reflexivity.
Qed.

Lemma length_filter_map {A B} (f : A -> B) (p : B -> bool) (l : list A) :
  length (List.filter p (map f l))
  = length (List.filter (fun a => p (f a)) l).
Proof.
  induction l as [|a l IH]; [reflexivity|]. cbn [map List.filter].
  destruct (p (f a)); cbn [length]; rewrite IH; reflexivity.
Qed.

Lemma length_filter_ext {A} (p q : A -> bool) (l : list A) :
  (forall a, In a l -> p a = q a) ->
  length (List.filter p l) = length (List.filter q l).
Proof.
  induction l as [|a l IH]; intros H; [reflexivity|]. cbn [List.filter].
  rewrite (H a) by (left; reflexivity).
  destruct (q a); cbn [length]; rewrite IH; auto;
    intros b Hb; apply H; right; exact Hb.
Qed.

(** X16.  On the file that the generator has written under the script's path,
    [main] finds the file (no generator is called), reads as many rows as
    there are transactions, finds every column it looks up, and its manual
    counts are the numbers of rows of the table whose channel is "Online"
    and "In-store"; together they account for every row. *)
Theorem main_counts_every_generated_row bg bg' fs n seed sd ed df fs' :
  generate_urbanmart_sales bg fs Analysis.csv_path n seed sd ed
  = Ok (df, fs') ->
  let online :=
    length (List.filter (fun r => String.eqb (transaction_type r) "Online")
                        (records df)) in
  let instore :=
    length (List.filter (fun r => String.eqb (transaction_type r) "In-store")
                        (records df)) in
  main bg' fs'
  = Ok ({| total_rows := n;
           manual := {| online_count := online; instore_count := instore |} |},
        fs')
  /\ (online + instore = n)%nat.
Proof.
  intros Hg online instore.
  pose proof (read_csv_written _ _ _ _ _ _ _ _ _ Hg) as Hread.
  destruct (generate_table_spec _ _ _ _ _ _ _ _ _ Hg)
    as (start & end_ & _ & _ & Hp & Hrows & Hfs).
  assert (Hlen : length (records df) = n).
  { unfold records. rewrite length_map, <- (length_map fst df).
    rewrite (Permutation_length Hp). apply length_seq. }
  assert (Hch : forall r, In r (records df) -> In (transaction_type r) channels).
  { intros r Hr. apply in_map_iff in Hr as ([i r'] & <- & Hin).
    exact (gen_channel _ _ _ _ _ (Hrows _ _ Hin)). }
  split.
  - unfold main, load_dataset.
    rewrite Hfs at 1. rewrite exists_path_insert.
    change (negb true) with false. cbv iota. rewrite !rbind_ok.
    rewrite Hread. rewrite !rbind_ok. cbn [fst snd].
    unfold getitem_column. cbn [raw_columns raw_rows].
    change (App.column_index "store_id" columns) with (@Ok nat 2%nat).
    change (App.column_index "date" columns) with (@Ok nat 1%nat).
    change (App.column_index "product_category" columns) with (@Ok nat 7%nat).
    change (App.column_index "store_location" columns) with (@Ok nat 3%nat).
    change (App.column_index "transaction_type" columns) with (@Ok nat 4%nat).
    rewrite !rbind_ok.
    unfold manual_counts. rewrite count_loop_closed.
    cbn [online_count instore_count Nat.add].
    rewrite rbind_ok, length_map, Hlen. do 4 f_equal.
    + unfold tolist. rewrite !map_map, length_filter_map.
      apply length_filter_ext. intros r Hr.
      apply (channel_cell_counts (transaction_type r)), Hch, Hr.
    + unfold tolist. rewrite !map_map, length_filter_map.
      apply length_filter_ext. intros r Hr.
      apply (channel_cell_counts (transaction_type r)), Hch, Hr.
  - subst online instore. rewrite <- Hlen. clear Hlen Hread Hp Hrows.
    induction (records df) as [|r l IH]; [reflexivity|].
    cbn [List.filter length].
    destruct (channel_cell_counts (transaction_type r)) as (_ & _ & Hx);
      [apply Hch; left; reflexivity|].
    assert (IH' := IH (fun r' Hr' => Hch r' (or_intror Hr'))).
    destruct (String.eqb (transaction_type r) "Online"),
             (String.eqb (transaction_type r) "In-store");
      cbn [length] in *; try discriminate; lia.
Qed.

Lemma main_counts_every_generated_row_witness :
  generate_urbanmart_sales mixer ∅ Analysis.csv_path 3 default_seed
    default_start_date default_end_date
  = Ok (small_table, to_csv ∅ small_table default_out_path false)
  /\ main mixer (to_csv ∅ small_table default_out_path false)
     = Ok ({| total_rows := 3;
              manual := {| online_count := 1; instore_count := 2 |} |},
           to_csv ∅ small_table default_out_path false)
  /\ (1 + 2 = 3)%nat.
Proof.
  split; [exact small_run_ok|].
  exact (main_counts_every_generated_row mixer mixer ∅ 3 default_seed
           default_start_date default_end_date small_table _ small_run_ok).
Defined.

End AnalysisScript.

(** ** The tables of the dashboard *)

Section DashboardTables.

Import NumPy Pandas App Dashboard.

Lemma Qsum_acc (l : list Q) :
  forall a, (fold_left Qplus l a == a + Qsum l)%Q.
Proof.
  unfold Qsum. induction l as [|x l IH]; intros a; cbn [fold_left].
  - ring.
  - rewrite (IH (a + x)%Q), (IH (0 + x)%Q). ring.
Qed.

Lemma Qsum_cons (x : Q) (l : list Q) : (Qsum (x :: l) == x + Qsum l)%Q.
Proof.
  unfold Qsum at 1. cbn [fold_left]. rewrite Qsum_acc. ring.
Qed.

Lemma Qsum_pointwise {A B} (R : A -> B -> Prop) (f : A -> Q) (g : B -> Q)
    (l : list A) (l' : list B) :
  List.Forall2 R l l' ->
  (forall a b, R a b -> (f a == g b)%Q) ->
  (Qsum (map f l) == Qsum (map g l'))%Q.
Proof.
  intros H Hfg. induction H as [|a b l l' Hab _ IH]; [reflexivity|].
  cbn [map]. rewrite !Qsum_cons, IH, (Hfg _ _ Hab). reflexivity.
Qed.

Lemma Qsum_nonneg (l : list Q) :
  List.Forall (fun x => (0 <= x)%Q) l -> (0 <= Qsum l)%Q.
Proof.
  induction 1 as [|x l Hx _ IH]; [discriminate|].
  rewrite Qsum_cons. lra.
Qed.

Lemma mem_In (s : string) (l : list string) :
  PyStr.mem s l = true <-> In s l.
Proof.
  induction l as [|x l IH]; cbn [PyStr.mem In].
  - split; [discriminate | contradiction].
  - unfold PyStr.eqb. rewrite orb_true_iff, IH.
    split; intros [H|H]; auto.
    + left. symmetry. apply String.eqb_eq. exact H.
    + left. apply String.eqb_eq. symmetry. exact H.
Qed.

Lemma In_distinct (s : string) (l : list string) :
  In s (distinct l) <-> In s l.
Proof.
  induction l as [|x l IH]; cbn [distinct]; [reflexivity|].
  destruct (PyStr.mem x l) eqn:E.
  - rewrite IH. apply mem_In in E. split; [right; assumption|].
    intros [<-|H]; assumption.
  - cbn [In]. rewrite IH. reflexivity.
Qed.

Lemma NoDup_distinct (l : list string) : List.NoDup (distinct l).
Proof.
  induction l as [|x l IH]; cbn [distinct]; [constructor|].
  destruct (PyStr.mem x l) eqn:E; [exact IH|].
  constructor; [|exact IH].
  rewrite In_distinct, <- mem_In, E. discriminate.
Qed.

Lemma distinct_NoDup (l : list string) : List.NoDup l -> distinct l = l.
Proof.
  induction 1 as [|x l Hx _ IH]; cbn [distinct]; [reflexivity|].
  destruct (PyStr.mem x l) eqn:E.
  - apply mem_In in E. contradiction.
  - rewrite IH. reflexivity.
Qed.

Lemma distinct_length_incl (l l' : list string) :
  incl l l' -> (length (distinct l) <= length (distinct l'))%nat.
Proof.
  intros H. apply List.NoDup_incl_length; [apply NoDup_distinct|].
  intros s Hs. apply In_distinct, H, In_distinct, Hs.
Qed.

Lemma distinct_length_le (l : list string) :
  (length (distinct l) <= length l)%nat.
Proof.
  induction l as [|x l IH]; cbn [distinct]; [reflexivity|].
  destruct (PyStr.mem x l); cbn [length]; lia.
Qed.

Lemma insert_by_perm {A} (le : A -> A -> bool) (x : A) (l : list A) :
  Permutation (insert_by le x l) (x :: l).
Proof.
  induction l as [|y l IH]; cbn [insert_by]; [reflexivity|].
  destruct (le x y); [reflexivity|].
  rewrite IH. apply perm_swap.
Qed.

Lemma sort_by_perm {A} (le : A -> A -> bool) (l : list A) :
  Permutation (sort_by le l) l.
Proof.
  induction l as [|x l IH]; cbn; [reflexivity|].
  fold (sort_by le l). rewrite insert_by_perm, IH. reflexivity.
Qed.

Lemma insert_by_sorted {A} (le : A -> A -> bool) (x : A) (l : list A) :
  (forall a b, le a b = true \/ le b a = true) ->
  Sorted.Sorted (fun a b => le a b = true) l ->
  Sorted.Sorted (fun a b => le a b = true) (insert_by le x l).
Proof.
  intros Htot. induction l as [|y l IH]; intros Hs; cbn [insert_by].
  - repeat constructor.
  - destruct (le x y) eqn:E.
    + constructor; [exact Hs | constructor; exact E].
    + assert (Hyx : le y x = true)
        by (destruct (Htot x y) as [H|H]; [congruence | exact H]).
      inversion Hs as [|? ? Hs' Hhd]; subst.
      constructor; [apply IH; exact Hs'|].
      destruct l as [|z l]; cbn [insert_by].
      * constructor. exact Hyx.
      * destruct (le x z).
        -- constructor. exact Hyx.
        -- inversion Hhd; subst. constructor. assumption.
Qed.

Lemma sort_by_sorted {A} (le : A -> A -> bool) (l : list A) :
  (forall a b, le a b = true \/ le b a = true) ->
  Sorted.Sorted (fun a b => le a b = true) (sort_by le l).
Proof.
  intros Htot. induction l as [|x l IH]; cbn; [constructor|].
  fold (sort_by le l). apply insert_by_sorted; assumption.
Qed.

Lemma In_omap {A B} (f : A -> option B) (l : list A) (b : B) :
  In b (omap f l) <-> exists a, In a l /\ f a = Some b.
Proof.
  induction l as [|x l IH]; cbn [omap list_omap In].
  - split; [contradiction | intros (a & [] & _)].
  - destruct (f x) as [y|] eqn:E; cbn [In]; rewrite IH.
    + split.
      * intros [<-|(a & H1 & H2)]; [exists x | exists a]; auto.
      * intros (a & [<-|H1] & H2); [left; congruence | right; exists a; auto].
    + split.
      * intros (a & H1 & H2). exists a; auto.
      * intros (a & [<-|H1] & H2); [congruence | exists a; auto].
Qed.

Lemma In_group_keys i rows k :
  In k (group_keys i rows) <-> exists r, In r rows /\ key_of i r = Some k.
Proof.
  unfold group_keys.
  rewrite (Permutation_in' (eq_refl k) (sort_by_perm String.leb _)).
  rewrite In_distinct, In_omap. reflexivity.
Qed.


Lemma Qsum_all_zero {A} (f : A -> Q) (l : list A) :
  (forall a, In a l -> (f a == 0)%Q) -> (Qsum (map f l) == 0)%Q.
Proof.
  induction l as [|x l IH]; intros H; [reflexivity|].
  cbn [map]. rewrite Qsum_cons.
  assert (H1 : (f x == 0)%Q) by (apply H; left; reflexivity).
  assert (H2 : (Qsum (map f l) == 0)%Q)
    by (apply IH; intros a Ha; apply H; right; exact Ha).
  rewrite H1, H2. ring.
Qed.

Lemma Qsum_ext_in {A} (f g : A -> Q) (l : list A) :
  (forall a, In a l -> (f a == g a)%Q) ->
  (Qsum (map f l) == Qsum (map g l))%Q.
Proof.
  induction l as [|x l IH]; intros H; [reflexivity|].
  cbn [map]. rewrite !Qsum_cons.
  assert (H1 : (f x == g x)%Q) by (apply H; left; reflexivity).
  assert (H2 : (Qsum (map f l) == Qsum (map g l))%Q)
    by (apply IH; intros a Ha; apply H; right; exact Ha).
  rewrite H1, H2. reflexivity.
Qed.

(** A value added to the term of one key of a list without duplicates is
    added once to the sum over the keys. *)
Lemma Qsum_one_key (f g : string -> Q) (k0 : string) (x : Q)
    (keys : list string) :
  List.NoDup keys ->
  (forall k, k <> k0 -> (f k == g k)%Q) ->
  (f k0 == x + g k0)%Q ->
  (Qsum (map f keys)
   == (if PyStr.mem k0 keys then x else 0) + Qsum (map g keys))%Q.
Proof.
  intros Hnd Hne Heq. induction Hnd as [|k keys Hk _ IH].
  - cbn. ring.
  - cbn [map PyStr.mem]. rewrite !Qsum_cons. unfold PyStr.eqb.
    destruct (String.eqb_spec k0 k) as [<-|Hkk]; cbn [orb].
    + assert (Hm : PyStr.mem k0 keys = false).
      { destruct (PyStr.mem k0 keys) eqn:E; [|reflexivity].
        apply mem_In in E. contradiction. }
      rewrite Hm in IH. rewrite IH, Heq. ring.
    + rewrite IH, (Hne k) by congruence. ring.
Qed.

Lemma has_key_Some i r k s :
  key_of i r = Some s -> has_key i k r = String.eqb s k.
Proof. unfold has_key. intros ->. reflexivity. Qed.

Lemma has_key_None i r k : key_of i r = None -> has_key i k r = false.
Proof. unfold has_key. intros ->. reflexivity. Qed.

(** The sums over the groups of a column add up to the sum over the rows
    that have a value in the column. *)
Lemma group_sums (s : Row -> Q) (i : nat) (keys : list string)
    (rows : list Row) :
  List.NoDup keys ->
  (forall r k, In r rows -> key_of i r = Some k -> In k keys) ->
  (Qsum (map (fun k => Qsum (map s (List.filter (has_key i k) rows))) keys)
   == Qsum (map s (List.filter
                     (fun r => match key_of i r with
                               | Some _ => true
                               | None => false
                               end) rows)))%Q.
Proof.
  intros Hnd. induction rows as [|r rows IH]; intros Hin.
  - cbn [List.filter map]. apply Qsum_all_zero. reflexivity.
  - assert (IH' := IH (fun r' k Hr' => Hin r' k (or_intror Hr'))).
    cbn [List.filter]. destruct (key_of i r) as [k0|] eqn:Ek.
    + cbn [map]. rewrite Qsum_cons, <- IH'.
      rewrite (Qsum_one_key _
                 (fun k => Qsum (map s (List.filter (has_key i k) rows)))
                 k0 (s r) keys Hnd).
      * assert (Hm : PyStr.mem k0 keys = true).
        { apply mem_In. eapply Hin; [left; reflexivity | exact Ek]. }
        rewrite Hm. reflexivity.
      * intros k Hk. rewrite (has_key_Some _ _ _ _ Ek).
        destruct (String.eqb_spec k0 k); [congruence | reflexivity].
      * rewrite (has_key_Some _ _ _ _ Ek), String.eqb_refl.
        cbn [map]. apply Qsum_cons.
    + rewrite <- IH'. apply Qsum_ext_in. intros k _.
      rewrite (has_key_None _ _ _ Ek). reflexivity.
Qed.

Lemma column_index_KeyError name cols e :
  column_index name cols = Raise e -> e = KeyError.
Proof.
  revert e. induction cols as [|c cols IH]; cbn; intros e.
  - intros [= <-]. reflexivity.
  - destruct (PyStr.eqb name c); [discriminate|].
    destruct (column_index name cols); cbn; [discriminate|].
    intros [= <-]. apply IH. reflexivity.
Qed.

Lemma float_div_None a b : float_div a b = None <-> b = 0.
Proof.
  unfold float_div. destruct (Z.eqb_spec b 0); split; congruence.
Qed.

Lemma Sorted_NoDup_keys (l : list string) :
  List.NoDup l ->
  Sorted.Sorted (fun a b => String.leb a b = true) (sort_by String.leb l)
  /\ List.NoDup (sort_by String.leb l).
Proof.
  intros H. split.
  - apply sort_by_sorted, String.leb_total.
  - eapply Permutation_NoDup; [symmetry; apply sort_by_perm | exact H].
Qed.

(** X17.  The category table has one row per category that occurs in the
    working subset, in ascending order of the names and without
    repetition.  The revenues of its rows add up to the sales of the rows
    that have a category, so to the total of the header when no category
    is missing.  The average order value of a row is a number exactly when
    the row counts an order: the quotient is taken with no guard. *)
Theorem category_revenue_adds_up (fdf : Frame) (t : list CategoryRow) :
  cat_perf fdf = Ok t ->
  exists i_cat,
    column_index "product_category" (frame_columns fdf) = Ok i_cat
    /\ Sorted.Sorted (fun a b => String.leb a b = true) (map category_key t)
    /\ List.NoDup (map category_key t)
    /\ (forall k, In k (map category_key t)
                  <-> exists r, In r (frame_rows fdf)
                                /\ key_of i_cat r = Some k)
    /\ (Qsum (map revenue t)
        == Qsum (map sales_amount_of
                   (List.filter
                      (fun r => match key_of i_cat r with
                                | Some _ => true
                                | None => false
                                end) (frame_rows fdf))))%Q
    /\ ((forall r, In r (frame_rows fdf) -> key_of i_cat r <> None) ->
        forall k, header_kpis fdf = Ok k ->
                  (Qsum (map revenue t) == total_sales k)%Q)
    /\ List.Forall
         (fun c => 0 <= category_orders c
                   /\ 0 <= category_customers c
                   /\ (category_aov c = None <-> category_orders c = 0))
         t.
Proof.
  unfold cat_perf. intros H.
  destruct (column_index "product_category" (frame_columns fdf))
    as [i_cat|] eqn:Ecat; [|discriminate].
  destruct (column_index "transaction_id" (frame_columns fdf))
    as [i_txn|] eqn:Etxn; [|discriminate].
  destruct (column_index "customer_id" (frame_columns fdf))
    as [i_cust|] eqn:Ecust; [|discriminate].
  cbn [rbind] in H. injection H as <-.
  exists i_cat. split; [reflexivity|].
  rewrite !map_map. cbn [category_key revenue]. rewrite map_id.
  destruct (Sorted_NoDup_keys
              (distinct (omap (key_of i_cat) (frame_rows fdf)))
              (NoDup_distinct _)) as [Hs Hnd].
  fold (group_keys i_cat (frame_rows fdf)) in Hs, Hnd.
  assert (Hsum :
    (Qsum (map (fun k => Qsum (map sales_amount_of
                                 (List.filter (has_key i_cat k)
                                              (frame_rows fdf))))
               (group_keys i_cat (frame_rows fdf)))
     == Qsum (map sales_amount_of
                (List.filter
                   (fun r => match key_of i_cat r with
                             | Some _ => true
                             | None => false
                             end) (frame_rows fdf))))%Q).
  { apply group_sums; [exact Hnd|].
    intros r k Hr Hk. apply In_group_keys. exists r. auto. }
  split; [exact Hs|]. split; [exact Hnd|].
  split; [intros k; apply In_group_keys|].
  split; [exact Hsum|]. split.
  - intros Hall k Hk. rewrite Hsum.
    unfold header_kpis in Hk. rewrite Etxn, Ecust in Hk. cbn [rbind] in Hk.
    destruct (if negb _ then _ else _) as [a|] in Hk; [|discriminate].
    cbn [rbind] in Hk. injection Hk as <-. cbn [total_sales].
    assert (Hf : List.filter
                   (fun r => match key_of i_cat r with
                             | Some _ => true
                             | None => false
                             end) (frame_rows fdf) = frame_rows fdf).
    { clear -Hall. induction (frame_rows fdf) as [|r l IH]; [reflexivity|].
      cbn [List.filter].
      destruct (key_of i_cat r) eqn:E.
      - f_equal. apply IH. intros r' Hr'. apply Hall. right. exact Hr'.
      - exfalso. apply (Hall r); [left; reflexivity | exact E]. }
    rewrite Hf. reflexivity.
  - apply List.Forall_forall. intros c Hc.
    apply in_map_iff in Hc as (k & <- & _).
    cbn [category_orders category_customers category_aov].
    split; [apply nunique_nonneg|]. split; [apply nunique_nonneg|].
    apply float_div_None.
Qed.


Lemma category_revenue_adds_up_witness :
  cat_perf Runs.small_frame = Ok Runs.small_cat_perf
  /\ (Qsum (map revenue Runs.small_cat_perf) == 157.97)%Q.
Proof.
  split; [reflexivity|].
  destruct (category_revenue_adds_up Runs.small_frame Runs.small_cat_perf
              eq_refl) as (i & Hi & _ & _ & _ & _ & H & _).
  injection Hi as <-.
  rewrite (H ltac:(intros r [<-|[<-|[<-|[]]]]; discriminate) _ eq_refl).
  reflexivity.
Defined.

Lemma pair_eqb_eq (a b : string * string) : pair_eqb a b = true <-> a = b.
Proof.
  destruct a as [a1 a2], b as [b1 b2]. unfold pair_eqb, PyStr.eqb.
  cbn [fst snd]. rewrite andb_true_iff, !String.eqb_eq.
  split; [intros [-> ->]; reflexivity | intros [= -> ->]; auto].
Qed.

Lemma existsb_pair_In (x : string * string) l :
  existsb (pair_eqb x) l = true <-> In x l.
Proof.
  rewrite existsb_exists. split.
  - intros (y & Hy & E). apply pair_eqb_eq in E. subst. exact Hy.
  - intros H. exists x. split; [exact H | apply pair_eqb_eq; reflexivity].
Qed.

Lemma In_distinct_pairs (x : string * string) l :
  In x (distinct_pairs l) <-> In x l.
Proof.
  induction l as [|y l IH]; cbn [distinct_pairs]; [reflexivity|].
  destruct (existsb (pair_eqb y) l) eqn:E.
  - rewrite IH. apply existsb_pair_In in E. split; [right; assumption|].
    intros [<-|H]; assumption.
  - cbn [In]. rewrite IH. reflexivity.
Qed.

Lemma NoDup_distinct_pairs l : List.NoDup (distinct_pairs l).
Proof.
  induction l as [|y l IH]; cbn [distinct_pairs]; [constructor|].
  destruct (existsb (pair_eqb y) l) eqn:E; [exact IH|].
  constructor; [|exact IH].
  rewrite In_distinct_pairs, <- existsb_pair_In, E. discriminate.
Qed.

Lemma by_spend_desc_le (a b : CustomerRow) :
  by_spend_desc a b = true <-> (total_spend b <= total_spend a)%Q.
Proof. unfold by_spend_desc. apply Qle_bool_iff. Qed.

Lemma by_spend_desc_total (a b : CustomerRow) :
  by_spend_desc a b = true \/ by_spend_desc b a = true.
Proof.
  rewrite !by_spend_desc_le.
  destruct (Qlt_le_dec (total_spend a) (total_spend b)) as [H|H];
    [right; apply Qlt_le_weak; exact H | left; exact H].
Qed.

Lemma In_skipn_In {A} (b : A) (l : list A) :
  forall n, In b (skipn n l) -> In b l.
Proof.
  induction l as [|x l IH]; intros [|n] H; cbn [skipn] in H;
    try assumption.
  right. eapply IH. exact H.
Qed.

(** In a list in descending order everything after a position is at most
    everything before it. *)
Lemma sorted_head_dominates (c : list CustomerRow) :
  Sorted.Sorted (fun a b => by_spend_desc a b = true) c ->
  forall n a b, In a (firstn n c) -> In b (skipn n c) ->
                (total_spend b <= total_spend a)%Q.
Proof.
  intros Hs. apply Sorted.Sorted_StronglySorted in Hs.
  2:{ intros x y z Hxy Hyz. apply by_spend_desc_le.
      apply by_spend_desc_le in Hxy, Hyz. eapply Qle_trans; eassumption. }
  induction Hs as [|x c Hs IH Hx]; intros n a b Ha Hb.
  - rewrite firstn_nil in Ha. contradiction.
  - destruct n as [|n]; [contradiction|].
    cbn [firstn skipn] in Ha, Hb. destruct Ha as [<-|Ha].
    + apply by_spend_desc_le. rewrite List.Forall_forall in Hx.
      apply Hx. eapply In_skipn_In. exact Hb.
    + eapply IH; eassumption.
Qed.

(** X18.  The table of the most valuable customers holds the first [top_n]
    rows of the customer table, or all of them when there are fewer.  The
    customer table has one row for every pair of a customer and a segment
    that occurs in the working subset, and none twice; it is in descending
    order of the total spend, so no customer left out of the top spends
    more than one that is in it. *)
Theorem top_customers_are_biggest_spenders (fdf : Frame) (top_n : nat)
    (t : list CustomerRow) :
  top fdf top_n = Ok t ->
  exists c i_cust i_seg,
    cust fdf = Ok c
    /\ column_index "customer_id" (frame_columns fdf) = Ok i_cust
    /\ column_index "customer_segment" (frame_columns fdf) = Ok i_seg
    /\ t = firstn top_n c
    /\ length t = Nat.min top_n (length c)
    /\ Sorted.Sorted
         (fun a b => (total_spend b <= total_spend a)%Q) t
    /\ (forall a b, In a t -> In b (skipn top_n c) ->
                    (total_spend b <= total_spend a)%Q)
    /\ List.NoDup (map (fun a => (customer_key a, segment_key a)) c)
    /\ (forall k, In k (map (fun a => (customer_key a, segment_key a)) c)
                  <-> exists r, In r (frame_rows fdf)
                                /\ pair_key i_cust i_seg r = Some k)
    /\ (forall a, In a c ->
          total_spend a
          = Qsum (map sales_amount_of
                    (List.filter
                       (has_pair i_cust i_seg (customer_key a, segment_key a))
                       (frame_rows fdf)))).
Proof.
  unfold top, cust, cust_groups. intros H.
  destruct (column_index "customer_id" (frame_columns fdf))
    as [i_cust|] eqn:Ecust; [|discriminate].
  destruct (column_index "customer_segment" (frame_columns fdf))
    as [i_seg|] eqn:Eseg; [|discriminate].
  destruct (column_index "transaction_id" (frame_columns fdf))
    as [i_txn|] eqn:Etxn; [|discriminate].
  cbn [rbind] in H. injection H as <-.
  set (keys := sort_by pair_leb
                 (distinct_pairs
                    (omap (pair_key i_cust i_seg) (frame_rows fdf)))).
  set (row := fun k : string * string => _).
  set (c := sort_by by_spend_desc (map row keys)).
  assert (Hperm : Permutation c (map row keys)) by apply sort_by_perm.
  assert (Hkey : forall k, (customer_key (row k), segment_key (row k)) = k)
    by (intros [k1 k2]; reflexivity).
  assert (Hkeys : Permutation
                    (map (fun a => (customer_key a, segment_key a)) c) keys).
  { rewrite Hperm, map_map.
    rewrite (map_ext _ (fun k => k) Hkey), map_id. reflexivity. }
  assert (Hsorted : Sorted.Sorted (fun a b => by_spend_desc a b = true) c)
    by apply sort_by_sorted, by_spend_desc_total.
  exists c, i_cust, i_seg. cbn [rbind].
  split; [reflexivity|]. split; [reflexivity|]. split; [reflexivity|].
  split; [reflexivity|]. split; [apply length_firstn|]. split.
  { clear -Hsorted. revert top_n.
    induction Hsorted as [|x c Hs IH Hx]; intros n.
    - rewrite firstn_nil. constructor.
    - destruct n as [|n]; [constructor|]. cbn [firstn].
      constructor; [apply IH|].
      destruct Hx as [|y c Hxy]; destruct n; cbn [firstn]; constructor.
      apply by_spend_desc_le. exact Hxy. }
  split; [apply sorted_head_dominates; exact Hsorted|].
  split.
  { eapply Permutation_NoDup; [symmetry; exact Hkeys|].
    eapply Permutation_NoDup; [symmetry; apply sort_by_perm|].
    apply NoDup_distinct_pairs. }
  split.
  { intros k.
    rewrite (Permutation_in' (eq_refl k) Hkeys). unfold keys.
    rewrite (Permutation_in' (eq_refl k) (sort_by_perm pair_leb _)).
    rewrite In_distinct_pairs. apply In_omap. }
  intros a Ha.
  apply (Permutation_in _ Hperm) in Ha.
  apply in_map_iff in Ha as (k & <- & _). rewrite Hkey. reflexivity.
Qed.


Lemma top_customers_are_biggest_spenders_witness :
  top Runs.small_frame 2 = Ok Runs.small_top
  /\ exists c, cust Runs.small_frame = Ok c
               /\ Runs.small_top = firstn 2 c
               /\ length Runs.small_top = Nat.min 2 (length c).
Proof.
  split; [reflexivity|].
  destruct (top_customers_are_biggest_spenders Runs.small_frame 2
              Runs.small_top eq_refl)
    as (c & _ & _ & H1 & _ & _ & H2 & H3 & _).
  exists c. auto.
Defined.

Lemma nunique_filter_le (f : Row -> option string) (p : Row -> bool)
    (rows : list Row) :
  nunique (map f (List.filter p rows)) <= nunique (map f rows).
Proof.
  unfold nunique. apply Nat2Z.inj_le, distinct_length_incl.
  intros s Hs. apply In_omap in Hs as (o & Ho & E).
  apply In_omap. exists o. split; [|exact E].
  apply in_map_iff in Ho as (r & <- & Hr). apply in_map_iff.
  exists r. split; [reflexivity|]. apply filter_In in Hr as [Hr _].
  exact Hr.
Qed.

Lemma nunique_le_length (f : Row -> option string) (rows : list Row) :
  nunique (map f rows) <= Z.of_nat (length rows).
Proof.
  unfold nunique. apply Nat2Z.inj_le.
  etransitivity; [apply distinct_length_le|].
  induction rows as [|r rows IH]; [reflexivity|].
  cbn [map omap list_omap]. destruct (f r); cbn [id length]; simpl; lia.
Qed.

Lemma Qsum_filter_le (s : Row -> Q) (p : Row -> bool) (rows : list Row) :
  List.Forall (fun r => (0 <= s r)%Q) rows ->
  (0 <= Qsum (map s (List.filter p rows)) <= Qsum (map s rows))%Q.
Proof.
  induction 1 as [|r rows Hr _ IH].
  - cbn. split; discriminate.
  - cbn [List.filter map]. destruct (p r); cbn [map];
      rewrite ?Qsum_cons; lra.
Qed.

Lemma filter_none {A} (p : A -> bool) (l : list A) :
  (forall a, p a = false) -> List.filter p l = [].
Proof.
  intros H. induction l as [|x l IH]; [reflexivity|].
  cbn [List.filter]. rewrite H. exact IH.
Qed.

(** X19.  The sidebar filters and the header, together.  The working subset
    keeps the columns, so the header finds what it finds on the whole
    table; its rows are rows of the table, so filtering never raises the
    numbers of orders and customers, nor (sales being non-negative) the
    total.  When no store, no category or no channel is selected, or the
    date range is reversed, the subset is empty and all four KPIs are
    zero. *)
Theorem filters_shrink_the_kpis (df fdf : Frame) (start_date end_date : Z)
    (store_sel cat_sel channel_sel : list string) (k : KPIs) :
  apply_filters df start_date end_date store_sel cat_sel channel_sel
  = Ok fdf ->
  header_kpis df = Ok k ->
  exists k',
    header_kpis fdf = Ok k'
    /\ frame_columns fdf = frame_columns df
    /\ (forall r, In r (frame_rows fdf) ->
          In r (frame_rows df) /\ start_date <= date_of r <= end_date)
    /\ 0 <= orders k' <= orders k
    /\ 0 <= customers k' <= customers k
    /\ orders k' <= Z.of_nat (length (frame_rows fdf))
    /\ (List.Forall (fun r => (0 <= sales_amount_of r)%Q) (frame_rows df) ->
        (0 <= total_sales k' <= total_sales k)%Q)
    /\ (store_sel = [] \/ cat_sel = [] \/ channel_sel = []
        \/ end_date < start_date ->
        frame_rows fdf = []
        /\ k' = {| total_sales := 0; orders := 0; customers := 0;
                   aov := 0 |}).
Proof.
  unfold apply_filters. intros Hf Hk.
  destruct (column_index "store_id" (frame_columns df))
    as [i_store|] eqn:Es; [|discriminate].
  destruct (column_index "product_category" (frame_columns df))
    as [i_cat|] eqn:Ec; [|discriminate].
  destruct (column_index "transaction_type" (frame_columns df))
    as [i_chan|] eqn:Eh; [|discriminate].
  cbn [rbind] in Hf. injection Hf as <-.
  set (p := fun r : Row => _).
  unfold header_kpis in *. cbn [frame_columns frame_rows].
  destruct (column_index "transaction_id" (frame_columns df))
    as [i_txn|] eqn:Et; [|discriminate].
  destruct (column_index "customer_id" (frame_columns df))
    as [i_cust|] eqn:Eu; [|discriminate].
  cbn [rbind] in *.
  set (f_txn := fun r : Row => cell i_txn (cells_of r)) in *.
  set (f_cust := fun r : Row => cell i_cust (cells_of r)) in *.
  assert (Ha : exists a,
             (if negb (nunique (map f_txn (List.filter p (frame_rows df)))
                       =? 0)
              then truediv
                     (Qsum (map sales_amount_of
                              (List.filter p (frame_rows df))))
                     (nunique (map f_txn (List.filter p (frame_rows df))))
              else Ok 0%Q) = Ok a
             /\ (List.filter p (frame_rows df) = [] -> a = 0%Q)).
  { destruct (List.filter p (frame_rows df)) as [|r l] eqn:El.
    - exists 0%Q. split; reflexivity.
    - destruct (Z.eqb_spec (nunique (map f_txn (r :: l))) 0) as [E|E];
        cbn [negb].
      + exists 0%Q. split; [reflexivity | discriminate].
      + rewrite (truediv_nonzero _ _ E). eexists.
        split; [reflexivity | discriminate]. }
  destruct Ha as (a & Ha & Ha0). rewrite Ha. cbn [rbind].
  eexists. split; [reflexivity|].
  destruct (if negb _ then _ else _) as [a0|] in Hk; [|discriminate].
  cbn [rbind] in Hk. injection Hk as <-.
  cbn [total_sales orders customers aov].
  split; [reflexivity|]. split.
  { intros r Hr. apply filter_In in Hr as [Hr Hp]. split; [exact Hr|].
    subst p. cbv beta in Hp.
    rewrite !andb_true_iff in Hp. lia. }
  split; [split; [apply nunique_nonneg | apply nunique_filter_le]|].
  split; [split; [apply nunique_nonneg | apply nunique_filter_le]|].
  split; [apply nunique_le_length|].
  split; [apply Qsum_filter_le|].
  intros Hsel.
  assert (Hnil : List.filter p (frame_rows df) = []).
  { apply filter_none. intros r. subst p. cbv beta.
    destruct Hsel as [->|[->|[->|Hlt]]].
    - destruct (cell i_store (cells_of r)); cbn [isin PyStr.mem];
        rewrite ?andb_false_r; reflexivity.
    - destruct (cell i_cat (cells_of r)); cbn [isin PyStr.mem];
        rewrite ?andb_false_r; reflexivity.
    - destruct (cell i_chan (cells_of r)); cbn [isin PyStr.mem];
        rewrite ?andb_false_r; reflexivity.
    - destruct (Z.leb_spec start_date (date_of r)),
               (Z.leb_spec (date_of r) end_date);
        cbn [andb]; try reflexivity; lia. }
  split; [exact Hnil|]. rewrite (Ha0 Hnil), Hnil. reflexivity.
Qed.


Lemma filters_shrink_the_kpis_witness :
  apply_filters Runs.small_frame 19800 20088 GenerateSales.store_ids
    GenerateSales.categories ["In-store"] = Ok Runs.small_subset
  /\ exists k k',
       header_kpis Runs.small_frame = Ok k
       /\ header_kpis Runs.small_subset = Ok k'
       /\ 0 <= orders k' <= orders k
       /\ 0 <= customers k' <= customers k.
Proof.
  split; [reflexivity|].
  eexists.
  destruct (filters_shrink_the_kpis Runs.small_frame Runs.small_subset
              19800 20088 GenerateSales.store_ids GenerateSales.categories
              ["In-store"] _ eq_refl eq_refl)
    as (k' & H1 & _ & _ & H2 & H3 & _).
  exists k'. auto.
Defined.

End DashboardTables.

(** ** The dashboard on a generated file *)

Section DashboardOnGeneratedFile.

Import NumPy Pandas GenerateSales App Dashboard Runs.

Lemma cell_present (i : nat) (cs : list string) (s : string) :
  nth_error cs i = Some s -> s <> "" -> cell i cs = Some s.
Proof.
  unfold cell. intros -> H. destruct s; [contradiction | reflexivity].
Qed.

Lemma append_empty (s t : string) : String.append s t = "" -> t = "".
Proof. destruct s; cbn; [auto | discriminate]. Qed.

Lemma repr_float_nonempty (q : Q) : repr_float q <> "".
Proof.
  unfold repr_float, repr_hundredths. intros H.
  do 2 apply append_empty in H. discriminate.
Qed.

Lemma isoformat_nonempty (z : Z) :
  Dates.min_day <= z <= Dates.max_day -> Dates.isoformat z <> "".
Proof.
  intros Hz E. apply datetime64_isoformat in Hz. rewrite E in Hz.
  discriminate.
Qed.

Lemma in_list_nonempty (l : list string) (s : string) :
  forallb (fun x => negb (String.eqb x "")) l = true -> In s l -> s <> "".
Proof.
  intros H Hin ->. rewrite forallb_forall in H. apply H in Hin.
  discriminate.
Qed.

Lemma Forall2_filter_all {A B} (R : A -> B -> Prop) (p : B -> bool)
    (l : list A) (l' : list B) :
  List.Forall2 R l l' ->
  (forall a b, In a l -> R a b -> p b = true) ->
  List.filter p l' = l'.
Proof.
  induction 1 as [|a b l l' Hab _ IH]; intros Hp; [reflexivity|].
  cbn [List.filter]. rewrite (Hp a b (or_introl eq_refl) Hab). f_equal.
  apply IH. intros a' b' Ha'. apply Hp. right. exact Ha'.
Qed.

Lemma Forall2_map_eq {A B C} (R : A -> B -> Prop) (f : B -> C) (g : A -> C)
    (l : list A) (l' : list B) :
  List.Forall2 R l l' ->
  (forall a b, In a l -> R a b -> f b = g a) ->
  map f l' = map g l.
Proof.
  induction 1 as [|a b l l' Hab _ IH]; intros Hfg; [reflexivity|].
  cbn [map]. rewrite (Hfg a b (or_introl eq_refl) Hab). f_equal.
  apply IH. intros a' b' Ha'. apply Hfg. right. exact Ha'.
Qed.

Lemma omap_map_Some {A} (h : A -> string) (l : list A) :
  omap id (map (fun a => Some (h a)) l) = map h l.
Proof.
  induction l as [|a l IH]; [reflexivity|].
  cbn [map omap list_omap id]. cbn. f_equal. exact IH.
Qed.

(** The table that [get_data] returns for a generated file, and the
    working subset of filters that exclude none of its rows. *)
Lemma loaded_rows (to_datetime : string -> option Z)
    (to_numeric : string -> option Q) (n : nat) (start end_ : Z)
    (l : list Transaction) :
  Dates.min_day <= start -> end_ <= Dates.max_day ->
  (forall s z, Dates.datetime64 s = Ok z -> to_datetime s = Some z) ->
  (forall r, In r l ->
     exists q, to_numeric (repr_float (sales_amount r)) = Some q
               /\ (q == sales_amount r)%Q) ->
  (forall r, In r l -> exists i, generated n start end_ i r) ->
  List.Forall2
    (fun r row =>
       cells_of row = raw_cells r /\ date_of row = date r
       /\ (sales_amount_of row == sales_amount r)%Q)
    l (omap (clean_row to_datetime to_numeric 1 12 10) (map raw_cells l)).
Proof.
  intros Hlo Hhi Hdt. induction l as [|r l IH]; intros Hnum Hgen;
    [constructor|].
  destruct (Hgen r (or_introl eq_refl)) as (i & G).
  destruct (Hnum r (or_introl eq_refl)) as (q & Hq & Eq).
  pose proof (gen_date _ _ _ _ _ G) as Hd.
  assert (Hz : Dates.min_day <= date r <= Dates.max_day) by lia.
  cbn [map omap list_omap]. unfold clean_row at 1.
  rewrite (cell_present 1 (raw_cells r) (Dates.isoformat (date r)) eq_refl
             (isoformat_nonempty _ Hz)).
  rewrite (cell_present 12 (raw_cells r) (repr_float (sales_amount r))
             eq_refl (repr_float_nonempty _)).
  cbn [coerce]. rewrite (Hdt _ _ (datetime64_isoformat _ Hz)), Hq.
  cbn. constructor.
  - cbn [cells_of date_of sales_amount_of]. auto.
  - apply IH.
    + intros r' Hr'. apply Hnum. right. exact Hr'.
    + intros r' Hr'. apply Hgen. right. exact Hr'.
Qed.




End DashboardOnGeneratedFile.

(** ** The dictionary of the stores *)

Section StoreDictionary.

Import NumPy Pandas GenerateSales Analysis AnalysisMain AnalysisStores Runs.

Lemma In_drop_duplicates_from (x : string * string) l :
  forall seen,
    In x (drop_duplicates_from seen l) <-> In x l /\ ~ In x seen.
Proof.
  induction l as [|y l IH]; intros seen; cbn [drop_duplicates_from].
  - cbn. tauto.
  - destruct (existsb (Dashboard.pair_eqb y) seen) eqn:E.
    + apply existsb_pair_In in E. rewrite IH. cbn [In].
      split; [tauto|]. intros [[<-|H] Hn]; [contradiction | tauto].
    + assert (Hy : ~ In y seen).
      { intros H. apply existsb_pair_In in H. congruence. }
      cbn [In]. rewrite IH. cbn [In].
      destruct (decide (y = x)) as [->|Hne]; [tauto|]. tauto.
Qed.

Lemma In_drop_duplicates (x : string * string) l :
  In x (drop_duplicates l) <-> In x l.
Proof.
  unfold drop_duplicates. rewrite In_drop_duplicates_from. cbn. tauto.
Qed.

(** A dictionary filled from pairs that give every key one value holds
    exactly these pairs. *)
Lemma dict_of_functional (l : list (string * string)) :
  forall (m : gmap string string),
    (forall k v v', In (k, v) l \/ m !! k = Some v ->
                    In (k, v') l \/ m !! k = Some v' -> v = v') ->
    forall k v,
      fold_left (fun m kv => <[ fst kv := snd kv ]> m) l m !! k = Some v
      <-> In (k, v) l \/ m !! k = Some v.
Proof.
  induction l as [|[k0 v0] l IH]; intros m Hf k v; cbn [fold_left fst snd].
  - cbn. split; [auto | intros [[]|H]; exact H].
  - rewrite IH.
    + cbn [In]. destruct (decide (k0 = k)) as [->|Hne].
      * rewrite lookup_insert_eq. split.
        -- intros [H|[= <-]]; auto.
        -- intros [[[= <-]|H]|H]; auto.
           right. f_equal. eapply Hf; [left; left; reflexivity|].
           right. exact H.
      * rewrite lookup_insert_ne by exact Hne. split.
        -- intros [H|H]; auto.
        -- intros [[[= E _]|H]|H]; auto. contradiction.
    + intros k1 v1 v1' H1 H1'. apply (Hf k1).
      * destruct H1 as [H1|H1]; [left; right; exact H1|].
        destruct (decide (k0 = k1)) as [->|Hne].
        -- rewrite lookup_insert_eq in H1. injection H1 as <-.
           left; left; reflexivity.
        -- rewrite lookup_insert_ne in H1 by exact Hne. right. exact H1.
      * destruct H1' as [H1'|H1']; [left; right; exact H1'|].
        destruct (decide (k0 = k1)) as [->|Hne].
        -- rewrite lookup_insert_eq in H1'. injection H1' as <-.
           left; left; reflexivity.
        -- rewrite lookup_insert_ne in H1' by exact Hne. right. exact H1'.
Qed.

Lemma dict_of_keys (l : list (string * string)) :
  forall (m : gmap string string) k,
    is_Some (fold_left (fun m kv => <[ fst kv := snd kv ]> m) l m !! k)
    <-> In k (map fst l) \/ is_Some (m !! k).
Proof.
  induction l as [|[k0 v0] l IH]; intros m k; cbn [fold_left fst snd map].
  - cbn. tauto.
  - rewrite IH. cbn [In]. destruct (decide (k0 = k)) as [->|Hne].
    + rewrite lookup_insert_eq. split; [auto | intros _; right; eauto].
    + rewrite lookup_insert_ne by exact Hne. tauto.
Qed.

Lemma combine_map {A B C} (f : A -> B) (g : A -> C) (l : list A) :
  combine (map f l) (map g l) = map (fun a => (f a, g a)) l.
Proof. induction l as [|a l IH]; cbn; [reflexivity | f_equal; exact IH]. Qed.

Lemma present_listed (l : list string) (s : string) :
  forallb (fun x => negb (PyStr.mem x na_values)) l = true ->
  In s l -> present s = Some s.
Proof.
  intros H Hin. rewrite forallb_forall in H. apply H in Hin.
  unfold present. destruct (PyStr.mem s na_values); [discriminate|].
  reflexivity.
Qed.



(** X22.  On a file that the generator has written, the dictionary of the
    stores is the store table of the generator, restricted to the stores
    that have a transaction. *)
Theorem store_map_of_generated_file bg fs path n seed sd ed df fs' :
  generate_urbanmart_sales bg fs path n seed sd ed = Ok (df, fs') ->
  exists raw m,
    read_csv fs' path = Ok raw
    /\ store_map raw = Ok m
    /\ (forall id loc,
          m !! id = Some loc
          <-> In (id, loc) stores
              /\ exists r, In r (records df) /\ store_id r = id).
Proof.
  intros Hg.
  pose proof (read_csv_written _ _ _ _ _ _ _ _ _ Hg) as Hread.
  destruct (generate_table_spec _ _ _ _ _ _ _ _ _ Hg)
    as (start & end_ & _ & _ & _ & Hrows & _).
  assert (Hgen : forall r, In r (records df) ->
                           In (store_id r, store_location r) stores).
  { intros r Hr. apply in_map_iff in Hr as ([i r'] & <- & Hin).
    apply getitem_dict_of.
    exact (gen_location _ _ _ _ _ (Hrows _ _ Hin)). }
  eexists. eexists. split; [exact Hread|].
  unfold store_map, store_rows, getitem_column.
  cbn [raw_columns raw_rows].
  change (App.column_index "store_id" columns) with (@Ok nat 2%nat).
  change (App.column_index "store_location" columns) with (@Ok nat 3%nat).
  rewrite !rbind_ok. split; [reflexivity|].
  rewrite !map_map. cbn [raw_cells nth].
  rewrite (combine_map store_id store_location).
  assert (Hpairs : forall p,
            In p (drop_duplicates
                    (omap both_present
                       (map (fun a => (store_id a, store_location a))
                            (records df))))
            <-> exists r, In r (records df)
                          /\ p = (store_id r, store_location r)).
  { intros p. rewrite In_drop_duplicates, In_omap. split.
    - intros (q & Hq & E). apply in_map_iff in Hq as (r & <- & Hr).
      exists r. split; [exact Hr|].
      pose proof (Hgen r Hr) as Hs. unfold both_present in E.
      cbn [fst snd] in E.
      rewrite (present_listed (map fst stores) (store_id r) eq_refl
                 (in_map fst _ _ Hs)) in E.
      rewrite (present_listed (map snd stores) (store_location r) eq_refl
                 (in_map snd _ _ Hs)) in E.
      congruence.
    - intros (r & Hr & ->). exists (store_id r, store_location r).
      split; [apply in_map_iff; exists r; auto|].
      pose proof (Hgen r Hr) as Hs. unfold both_present. cbn [fst snd].
      rewrite (present_listed (map fst stores) (store_id r) eq_refl
                 (in_map fst _ _ Hs)).
      rewrite (present_listed (map snd stores) (store_location r) eq_refl
                 (in_map snd _ _ Hs)).
      reflexivity. }
  assert (Hnd : List.NoDup (map fst stores)).
  { unfold stores. cbn [map fst].
    repeat (constructor; [cbn; intuition discriminate|]). constructor. }
  intros id loc. unfold dict_of. rewrite dict_of_functional.
  - rewrite lookup_empty, Hpairs. split.
    + intros [(r & Hr & [= -> ->])|H]; [|discriminate].
      split; [apply Hgen; exact Hr | exists r; auto].
    + intros (Hs & r & Hr & <-). left. exists r. split; [exact Hr|].
      f_equal. eapply unique_key_value; [exact Hnd | exact Hs|].
      apply Hgen. exact Hr.
  - intros k v v' H H'.
    destruct H as [H|H]; [|rewrite lookup_empty in H; discriminate].
    destruct H' as [H'|H']; [|rewrite lookup_empty in H'; discriminate].
    apply Hpairs in H as (r & Hr & [= -> ->]).
    apply Hpairs in H' as (r' & Hr' & [= E ->]).
    eapply unique_key_value; [exact Hnd | apply Hgen; exact Hr|].
    rewrite E. apply Hgen. exact Hr'.
Qed.

Lemma store_map_of_generated_file_witness :
  exists raw m,
    read_csv (to_csv ∅ small_table default_out_path false) default_out_path
    = Ok raw
    /\ store_map raw = Ok m
    /\ m !! "S005" = Some "Tech Park".
Proof.
  destruct (store_map_of_generated_file mixer ∅ default_out_path 3
              default_seed default_start_date default_end_date small_table _
              small_run_ok) as (raw & m & H1 & H2 & H3).
  exists raw, m. split; [exact H1|]. split; [exact H2|].
  apply H3. split; [vm_compute; tauto|].
  exists small_online_row. split; [vm_compute; tauto | reflexivity].
Defined.

End StoreDictionary.
